(** * fasttrade: the trading core, its order book and its Decimal type

    A shallow embedding of the C++ sources
      - include/fasttrade/utils/decimal.hpp, src/utils/decimal.cpp
      - include/fasttrade/core/order_book.hpp, src/core/order_book.cpp
      - include/fasttrade/core/limit_order.hpp, src/core/limit_order.cpp
      - include/fasttrade/core/trading_core.hpp, src/core/trading_core.cpp
    followed by the properties of the design document that were checked
    against them.

    Conventions.
      - [int64_t] is a [Z] kept in the signed 64-bit range by [wrap64]
        (two's complement wrap-around, what the compiled code does on the
        supported targets).
      - [Timestamp] is a [Z] (nanoseconds); every function that reads
        [GlobalClock::now()] takes the value read as an argument [now].
      - Mutexes are not modelled: every function is one critical section.
      - [std::function] callbacks are opaque to the engine, so a callback
        slot is a flag (set or empty) and an invocation is recorded as a
        value of a trace. *)

From Stdlib Require Import ZArith List String Ascii Lia Bool.
From Stdlib Require Import Sorting.Sorted.
From stdpp Require Import gmap strings.

Local Open Scope Z_scope.

(* ===================================================================== *)
(** ** 64-bit signed integers *)
(* ===================================================================== *)

Definition INT64_MIN : Z := - 2 ^ 63.
Definition INT64_MAX : Z := 2 ^ 63 - 1.

Definition in_int64 (z : Z) : bool := (INT64_MIN <=? z) && (z <=? INT64_MAX).

(** Reduction of a mathematical integer to its [int64_t] representative. *)
Definition wrap64 (z : Z) : Z := (z + 2 ^ 63) mod 2 ^ 64 - 2 ^ 63.

(* ===================================================================== *)
(** ** Characters and the integer <-> text routines of the C++ library *)
(* ===================================================================== *)

Definition char_code (c : ascii) : Z := Z.of_N (N_of_ascii c).

Definition is_digit (c : ascii) : bool :=
  (48 <=? char_code c) && (char_code c <=? 57).

(** [std::isspace] in the "C" locale: space, \t, \n, \v, \f, \r. *)
Definition is_space (c : ascii) : bool :=
  (char_code c =? 32) || ((9 <=? char_code c) && (char_code c <=? 13)).

Definition digit_val (c : ascii) : Z := char_code c - 48.

Definition digit_char (d : Z) : ascii := ascii_of_N (Z.to_N (48 + d)).

Definition zero_char : ascii := digit_char 0.

Fixpoint skip_space (s : string) : string :=
  match s with
  | String c r => if is_space c then skip_space r else s
  | EmptyString => s
  end.

(** The longest prefix of decimal digits, read most significant first. *)
Fixpoint parse_digits (acc : Z) (s : string) : Z :=
  match s with
  | String c r => if is_digit c then parse_digits (10 * acc + digit_val c) r else acc
  | EmptyString => acc
  end.

(** [std::stoll(s)] (base 10, no position argument): leading white space,
    an optional sign, then at least one digit; whatever follows the digits
    is ignored.  [None] stands for the exception ([std::invalid_argument]
    when no digit is found, [std::out_of_range] when the value does not fit
    a [long long]). *)
Definition stoll (s : string) : option Z :=
  let s1 := skip_space s in
  let '(neg, s2) :=
    match s1 with
    | String c r =>
        if Ascii.eqb c "-" then (true, r)
        else if Ascii.eqb c "+" then (false, r)
        else (false, s1)
    | EmptyString => (false, s1)
    end in
  match s2 with
  | String c _ =>
      if is_digit c then
        let n := parse_digits 0 s2 in
        let v := if neg then - n else n in
        if in_int64 v then Some v else None
      else None
  | EmptyString => None
  end.

(** Decimal digits of a non-negative integer, most significant first; the
    fuel bounds the number of digits. *)
Fixpoint render_digits (fuel : nat) (n : Z) (acc : string) : string :=
  match fuel with
  | O => acc
  | S f =>
      let acc' := String (digit_char (n mod 10)) acc in
      if n <? 10 then acc' else render_digits f (n / 10) acc'
  end.

(** [std::to_string(int64_t)] and [operator<<(std::ostream&, int64_t)]:
    an [int64_t] has at most 19 digits. *)
Definition to_string_int64 (z : Z) : string :=
  if z <? 0 then String "-" (render_digits 20 (- z) EmptyString)
  else render_digits 20 z EmptyString.

(** [std::string(n, c)] *)
Fixpoint string_repeat (n : nat) (c : ascii) : string :=
  match n with
  | O => EmptyString
  | S k => String c (string_repeat k c)
  end.

(** [s.find(c)]: index of the first occurrence, [None] for [npos]. *)
Fixpoint string_find (c : ascii) (s : string) : option nat :=
  match s with
  | EmptyString => None
  | String d r =>
      if Ascii.eqb d c then Some O
      else match string_find c r with
           | Some i => Some (S i)
           | None => None
           end
  end.

(** [s.substr(pos)] and [s.substr(pos, n)] for [pos <= s.size()]. *)
Fixpoint substr_from (pos : nat) (s : string) : string :=
  match pos, s with
  | O, _ => s
  | S p, String _ r => substr_from p r
  | S _, EmptyString => EmptyString
  end.

Fixpoint string_take (n : nat) (s : string) : string :=
  match n, s with
  | S k, String c r => String c (string_take k r)
  | _, _ => EmptyString
  end.

Definition substr (pos n : nat) (s : string) : string :=
  string_take n (substr_from pos s).

(** The loop [while (!s.empty() && s.back() == '0') s.pop_back();]. *)
Fixpoint strip_trailing_zeros (s : string) : string :=
  match s with
  | EmptyString => EmptyString
  | String c r =>
      match strip_trailing_zeros r with
      | EmptyString => if Ascii.eqb c zero_char then EmptyString else String c EmptyString
      | r' => String c r'
      end
  end.

(* ===================================================================== *)
(** ** utils::Decimal *)
(* ===================================================================== *)

Module Decimal.

Definition SCALE_FACTOR : Z := 1000000000000000000.

(** The class has the single data member [int64_t value_]. *)
Record t : Type := mk { value_ : Z }.

Definition wf (d : t) : Prop := in_int64 (value_ d) = true.

#[global] Instance t_eq_dec : EqDecision t.
Proof. solve_decision. Defined.

(** [Decimal()] and [Decimal::zero()] *)
Definition zero : t := mk 0.

(** [explicit Decimal(int64_t value) : value_(value * SCALE_FACTOR)] *)
Definition of_int64 (value : Z) : t := mk (wrap64 (value * SCALE_FACTOR)).

Definition add (a b : t) : t := mk (wrap64 (value_ a + value_ b)).
Definition sub (a b : t) : t := mk (wrap64 (value_ a - value_ b)).

(** [(value_ * other.value_) / SCALE_FACTOR]: the product is an
    [int64_t], the division truncates toward zero. *)
Definition mul (a b : t) : t :=
  mk (wrap64 (Z.quot (wrap64 (value_ a * value_ b)) SCALE_FACTOR)).

(** [(value_ * SCALE_FACTOR) / other.value_].  The source gives no
    meaning to a zero divisor (the division traps); [Z.quot] returns 0
    there, and the functions embedded below guard every division. *)
Definition div (a b : t) : t :=
  mk (wrap64 (Z.quot (wrap64 (value_ a * SCALE_FACTOR)) (value_ b))).

(** Unary minus: [Decimal operator-() const { return Decimal(-value_); }].
    The argument [-value_] is an [int64_t], so the constructor selected
    is [Decimal(int64_t)], which scales its argument. *)
Definition neg (a : t) : t := of_int64 (wrap64 (- value_ a)).

Definition eqb (a b : t) : bool := value_ a =? value_ b.
Definition neqb (a b : t) : bool := negb (value_ a =? value_ b).
Definition ltb (a b : t) : bool := value_ a <? value_ b.
Definition leb (a b : t) : bool := value_ a <=? value_ b.
Definition gtb (a b : t) : bool := value_ a >? value_ b.
Definition geb (a b : t) : bool := value_ a >=? value_ b.

Definition abs (a : t) : t :=
  mk (if value_ a <? 0 then wrap64 (- value_ a) else value_ a).

Definition is_zero (a : t) : bool := value_ a =? 0.
Definition is_positive (a : t) : bool := value_ a >? 0.
Definition is_negative (a : t) : bool := value_ a <? 0.

(** [std::min(a, b)] is [(b < a) ? b : a]. *)
Definition min (a b : t) : t := if ltb b a then b else a.

(** [Decimal::to_string()] *)
Definition to_string (d : t) : string :=
  if value_ d =? 0 then "0"%string
  else
    let negative := value_ d <? 0 in
    let abs_value := if negative then wrap64 (- value_ d) else value_ d in
    let integer_part := Z.quot abs_value SCALE_FACTOR in
    let fractional_part := Z.rem abs_value SCALE_FACTOR in
    let head :=
      ((if negative then "-" else EmptyString) +:+ to_string_int64 integer_part)%string in
    if fractional_part >? 0 then
      let frac_str := to_string_int64 fractional_part in
      let frac_str :=
        (string_repeat (18 - String.length frac_str) zero_char +:+ frac_str)%string in
      (head +:+ "." +:+ strip_trailing_zeros frac_str)%string
    else head.

(** The two [stoll] calls of [Decimal::Decimal(const std::string&)] and
    the sum [int_value * SCALE_FACTOR + frac_value]; the fractional part
    is first cut or zero-padded to 18 characters.  [None] stands for the
    [std::invalid_argument] thrown when [stoll] fails. *)
Definition parse_parts (integer_part fractional_part : string) : option Z :=
  let int_value :=
    match integer_part with
    | EmptyString => Some 0
    | _ => stoll integer_part
    end in
  let frac_value :=
    match fractional_part with
    | EmptyString => Some 0
    | _ =>
        let padded :=
          if (18 <? String.length fractional_part)%nat
          then substr 0 18 fractional_part
          else (fractional_part +:+
                string_repeat (18 - String.length fractional_part) zero_char)%string in
        stoll padded
    end in
  match int_value, frac_value with
  | Some iv, Some fv => Some (wrap64 (wrap64 (iv * SCALE_FACTOR) + fv))
  | _, _ => None
  end.

(** The part of the constructor that follows the sign: [clean_str] is
    split at the first '.'. *)
Definition parse_unsigned (clean_str : string) : option Z :=
  match string_find "." clean_str with
  | None => parse_parts clean_str EmptyString
  | Some decimal_pos =>
      parse_parts (substr 0 decimal_pos clean_str)
                  (substr_from (S decimal_pos) clean_str)
  end.

(** [Decimal::Decimal(const std::string&)] and [Decimal::from_string] *)
Definition from_string (str : string) : option t :=
  match str with
  | EmptyString => Some (mk 0)
  | String c0 rest =>
      let '(negative, clean_str) :=
        if Ascii.eqb c0 "-" then (true, rest)
        else if Ascii.eqb c0 "+" then (false, rest)
        else (false, str) in
      match parse_unsigned clean_str with
      | Some v => Some (mk (if negative then wrap64 (- v) else v))
      | None => None
      end
  end.

(** A literal [Decimal("...")] of the examples and of the design
    document; the strings used below all parse. *)
Definition lit (s : string) : t :=
  match from_string s with
  | Some d => d
  | None => zero
  end.

End Decimal.

Abbreviation Decimal := Decimal.t.

(** [Timestamp]: a point of the clock, in nanoseconds. *)
Definition Timestamp : Type := Z.

(* ===================================================================== *)
(** ** core::OrderBook *)
(* ===================================================================== *)

Module OrderBook.

(** [struct OrderBookEntry] *)
Record OrderBookEntry : Type := mkEntry {
  price : Decimal;
  amount : Decimal;
  update_id : Z;
  timestamp : Timestamp
}.

(** [BidComparator]: descending price, then time priority. *)
Definition BidComparator (a b : OrderBookEntry) : bool :=
  if Decimal.neqb (price a) (price b) then Decimal.gtb (price a) (price b)
  else timestamp a <? timestamp b.

(** [AskComparator]: ascending price, then time priority. *)
Definition AskComparator (a b : OrderBookEntry) : bool :=
  if Decimal.neqb (price a) (price b) then Decimal.ltb (price a) (price b)
  else timestamp a <? timestamp b.

(** The two instances of [template<typename Comparator> OrderBookSide]. *)
Inductive Side : Type := Bid | Ask.

Definition comparator (s : Side) : OrderBookEntry -> OrderBookEntry -> bool :=
  match s with
  | Bid => BidComparator
  | Ask => AskComparator
  end.

(** [std::set<OrderBookEntry, Comparator> entries_], as the sequence its
    iteration yields. *)
Definition entries : Type := list OrderBookEntry.

(** [entries_.emplace(...)]: the element goes before the first element it
    precedes; an element equivalent to a stored one is not inserted. *)
Fixpoint set_emplace (cmp : OrderBookEntry -> OrderBookEntry -> bool)
    (e : OrderBookEntry) (l : entries) : entries :=
  match l with
  | [] => [e]
  | x :: xs =>
      if cmp e x then e :: l
      else if cmp x e then x :: set_emplace cmp e xs
      else l
  end.

(** [std::find_if] on the price followed by [entries_.erase(it)]: the
    first entry at that price goes, if there is one. *)
Fixpoint erase_price (p : Decimal) (l : entries) : entries :=
  match l with
  | [] => []
  | x :: xs => if Decimal.eqb (price x) p then xs else x :: erase_price p xs
  end.

(** [OrderBookSide::update]; [now] is the clock value read by the
    [OrderBookEntry] constructor. *)
Definition side_update (s : Side) (now : Timestamp)
    (p a : Decimal) (id : Z) (l : entries) : entries :=
  if Decimal.is_zero a then erase_price p l
  else set_emplace (comparator s) (mkEntry p a id now) (erase_price p l).

(** [OrderBookSide::best]: [entries_.begin()], [None] for [end()]. *)
Definition side_best (l : entries) : option OrderBookEntry := head l.

(** [OrderBookSide::get_levels(limit)]: the loop pushes an entry, then
    leaves when [limit > 0 && ++count >= limit]. *)
Fixpoint get_levels_loop (limit count : nat) (l : entries) : entries :=
  match l with
  | [] => []
  | x :: xs =>
      if (0 <? limit)%nat && (limit <=? S count)%nat then [x]
      else x :: get_levels_loop limit (if (0 <? limit)%nat then S count else count) xs
  end.

Definition get_levels (limit : nat) (l : entries) : entries :=
  get_levels_loop limit 0 l.

(** [OrderBookSide::get_volume_at_or_better] *)
Fixpoint get_volume_loop (s : Side) (p : Decimal) (total : Decimal) (l : entries) : Decimal :=
  match l with
  | [] => total
  | x :: xs =>
      let include :=
        match s with
        | Bid => Decimal.geb (price x) p
        | Ask => Decimal.leb (price x) p
        end in
      if include then get_volume_loop s p (Decimal.add total (amount x)) xs
      else total
  end.

Definition get_volume_at_or_better (s : Side) (p : Decimal) (l : entries) : Decimal :=
  get_volume_loop s p Decimal.zero l.

(** A registered [OrderBookUpdateCallback]; the engine only ever calls
    it with the symbol of the book. *)
Definition callback_id : Type := nat.

(** One call [callback(symbol_)]. *)
Record invocation : Type := mkInvocation {
  inv_callback : callback_id;
  inv_symbol : string
}.

(** [class OrderBook] *)
Record t : Type := mk {
  symbol_ : string;
  bids_ : entries;
  asks_ : entries;
  last_update_id_ : Z;
  last_update_time_ : Timestamp;
  update_callbacks_ : list callback_id
}.

(** [OrderBook::OrderBook(symbol)] *)
Definition create (now : Timestamp) (symbol : string) : t :=
  mk symbol [] [] 0 now [].

(** [OrderBook::notify_update]: every registered callback, in
    registration order; what a callback throws is swallowed. *)
Definition notify_update (b : t) : list invocation :=
  map (fun cb => mkInvocation cb (symbol_ b)) (update_callbacks_ b).

(** The mutators return the new book and the callback invocations made
    during the call. *)
Definition update_bid (now : Timestamp) (p a : Decimal) (id : Z) (b : t)
    : t * list invocation :=
  let b' := mk (symbol_ b) (side_update Bid now p a id (bids_ b)) (asks_ b)
               id now (update_callbacks_ b) in
  (b', notify_update b').

Definition update_ask (now : Timestamp) (p a : Decimal) (id : Z) (b : t)
    : t * list invocation :=
  let b' := mk (symbol_ b) (bids_ b) (side_update Ask now p a id (asks_ b))
               id now (update_callbacks_ b) in
  (b', notify_update b').

(** One element of the batches of [apply_updates]. *)
Definition level_update : Type := (Decimal * Decimal * Z)%type.

Definition apply_side (s : Side) (now : Timestamp)
    (us : list level_update) (l : entries) : entries :=
  fold_left (fun acc '(p, a, id) => side_update s now p a id acc) us l.

Definition apply_updates (now : Timestamp) (bids asks : list level_update)
    (final_update_id : Z) (b : t) : t * list invocation :=
  let b' := mk (symbol_ b) (apply_side Bid now bids (bids_ b))
               (apply_side Ask now asks (asks_ b))
               final_update_id now (update_callbacks_ b) in
  (b', notify_update b').

Definition register_update_callback (cb : callback_id) (b : t) : t :=
  mk (symbol_ b) (bids_ b) (asks_ b) (last_update_id_ b) (last_update_time_ b)
     (update_callbacks_ b ++ [cb]).

(** [OrderBook::clear]: no call of [notify_update] in its body. *)
Definition clear (now : Timestamp) (b : t) : t * list invocation :=
  (mk (symbol_ b) [] [] 0 now (update_callbacks_ b), []).

Definition best_bid (b : t) : Decimal :=
  match side_best (bids_ b) with
  | Some best => price best
  | None => Decimal.zero
  end.

Definition best_ask (b : t) : Decimal :=
  match side_best (asks_ b) with
  | Some best => price best
  | None => Decimal.zero
  end.

Definition mid_price (b : t) : Decimal :=
  let bid := best_bid b in
  let ask := best_ask b in
  if Decimal.is_zero bid || Decimal.is_zero ask then Decimal.zero
  else Decimal.div (Decimal.add bid ask) (Decimal.lit "2").

Definition spread (b : t) : Decimal :=
  let bid := best_bid b in
  let ask := best_ask b in
  if Decimal.is_zero bid || Decimal.is_zero ask then Decimal.zero
  else Decimal.sub ask bid.

Definition get_bids (limit : nat) (b : t) : entries := get_levels limit (bids_ b).
Definition get_asks (limit : nat) (b : t) : entries := get_levels limit (asks_ b).

(** The loop of [get_impact_price] over the levels of the opposite side:
    the pair is [(remaining_quantity, total_cost)]. *)
Fixpoint consume (levels : entries) (remaining_quantity total_cost : Decimal)
    : Decimal * Decimal :=
  match levels with
  | [] => (remaining_quantity, total_cost)
  | lvl :: rest =>
      if Decimal.is_zero remaining_quantity then (remaining_quantity, total_cost)
      else
        let consume_quantity := Decimal.min (amount lvl) remaining_quantity in
        consume rest (Decimal.sub remaining_quantity consume_quantity)
                (Decimal.add total_cost (Decimal.mul consume_quantity (price lvl)))
  end.

(** [OrderBook::get_impact_price] *)
Definition get_impact_price (is_buy : bool) (quantity : Decimal) (b : t) : Decimal :=
  if Decimal.is_zero quantity then Decimal.zero
  else
    let levels := if is_buy then get_asks 0 b else get_bids 0 b in
    let '(remaining_quantity, total_cost) := consume levels quantity Decimal.zero in
    if Decimal.gtb remaining_quantity Decimal.zero then Decimal.zero
    else Decimal.div total_cost quantity.

Definition get_volume_at_price (is_buy : bool) (p : Decimal) (b : t) : Decimal :=
  if is_buy then get_volume_at_or_better Ask p (asks_ b)
  else get_volume_at_or_better Bid p (bids_ b).

(** [OrderBook::is_valid] *)
Definition is_valid (b : t) : bool :=
  let best_bid_price := best_bid b in
  let best_ask_price := best_ask b in
  if negb (Decimal.is_zero best_bid_price) && negb (Decimal.is_zero best_ask_price)
  then Decimal.ltb best_bid_price best_ask_price
  else true.

End OrderBook.

(* ===================================================================== *)
(** ** core::LimitOrder *)
(* ===================================================================== *)

Inductive OrderSide : Type := BUY | SELL.

Inductive OrderStatus : Type :=
  PENDING | OPEN | PARTIAL | FILLED | CANCELLED | REJECTED | EXPIRED.

Inductive OrderType : Type := LIMIT | MARKET | STOP_LIMIT | STOP_MARKET.

#[global] Instance OrderSide_eq_dec : EqDecision OrderSide.
Proof. solve_decision. Defined.
#[global] Instance OrderStatus_eq_dec : EqDecision OrderStatus.
Proof. solve_decision. Defined.
#[global] Instance OrderType_eq_dec : EqDecision OrderType.
Proof. solve_decision. Defined.

(** The terminal set of the design document. *)
Definition is_terminal (s : OrderStatus) : bool :=
  match s with
  | FILLED | CANCELLED | REJECTED | EXPIRED => true
  | PENDING | OPEN | PARTIAL => false
  end.

(** The free functions [to_string(OrderSide)], [to_string(OrderStatus)]
    and [to_string(OrderType)]; the [default] branches are not reachable
    from a value of the enumeration. *)
Definition side_to_string (side : OrderSide) : string :=
  match side with
  | BUY => "BUY"
  | SELL => "SELL"
  end.

Definition status_to_string (status : OrderStatus) : string :=
  match status with
  | PENDING => "PENDING"
  | OPEN => "OPEN"
  | PARTIAL => "PARTIAL"
  | FILLED => "FILLED"
  | CANCELLED => "CANCELLED"
  | REJECTED => "REJECTED"
  | EXPIRED => "EXPIRED"
  end.

Definition type_to_string (type : OrderType) : string :=
  match type with
  | LIMIT => "LIMIT"
  | MARKET => "MARKET"
  | STOP_LIMIT => "STOP_LIMIT"
  | STOP_MARKET => "STOP_MARKET"
  end.

(** [order_side_from_string] and its two siblings; [None] stands for the
    [std::invalid_argument] thrown on any other string. *)
Definition order_side_from_string (str : string) : option OrderSide :=
  if String.eqb str "BUY" then Some BUY
  else if String.eqb str "SELL" then Some SELL
  else None.

Definition order_status_from_string (str : string) : option OrderStatus :=
  if String.eqb str "PENDING" then Some PENDING
  else if String.eqb str "OPEN" then Some OPEN
  else if String.eqb str "PARTIAL" then Some PARTIAL
  else if String.eqb str "FILLED" then Some FILLED
  else if String.eqb str "CANCELLED" then Some CANCELLED
  else if String.eqb str "REJECTED" then Some REJECTED
  else if String.eqb str "EXPIRED" then Some EXPIRED
  else None.

Definition order_type_from_string (str : string) : option OrderType :=
  if String.eqb str "LIMIT" then Some LIMIT
  else if String.eqb str "MARKET" then Some MARKET
  else if String.eqb str "STOP_LIMIT" then Some STOP_LIMIT
  else if String.eqb str "STOP_MARKET" then Some STOP_MARKET
  else None.

Module LimitOrder.

(** [struct ExecutionDetail] *)
Record ExecutionDetail : Type := mkExecution {
  execution_id : string;
  exec_quantity : Decimal;
  exec_price : Decimal;
  fee_amount : Decimal;
  fee_currency : string;
  exec_timestamp : Timestamp
}.

(** [class LimitOrder] *)
Record t : Type := mk {
  client_order_id_ : string;
  trading_pair_ : string;
  side_ : OrderSide;
  type_ : OrderType;
  base_currency_ : string;
  quote_currency_ : string;
  price_ : Decimal;
  quantity_ : Decimal;
  filled_quantity_ : Decimal;
  creation_time_ : Timestamp;
  last_update_time_ : Timestamp;
  status_ : OrderStatus;
  position_ : string;
  exchange_order_id_ : string;
  executions_ : list ExecutionDetail;
  rejection_reason_ : option string;
  expiry_time_ : option Timestamp
}.

(** The five-argument constructor. *)
Definition create (now : Timestamp) (client_order_id trading_pair : string)
    (side : OrderSide) (price quantity : Decimal) : t :=
  let '(base, quote) :=
    match string_find "-" trading_pair with
    | Some dash_pos =>
        (substr 0 dash_pos trading_pair, substr_from (S dash_pos) trading_pair)
    | None => (trading_pair, "USDT"%string)
    end in
  mk client_order_id trading_pair side LIMIT base quote price quantity
     Decimal.zero now now PENDING EmptyString EmptyString [] None None.

Definition with_status (o : t) (s : OrderStatus) (now : Timestamp) (filled : Decimal)
    (execs : list ExecutionDetail) : t :=
  mk (client_order_id_ o) (trading_pair_ o) (side_ o) (type_ o) (base_currency_ o)
     (quote_currency_ o) (price_ o) (quantity_ o) filled (creation_time_ o) now s
     (position_ o) (exchange_order_id_ o) execs (rejection_reason_ o) (expiry_time_ o).

Definition set_status (now : Timestamp) (status : OrderStatus) (o : t) : t :=
  with_status o status now (filled_quantity_ o) (executions_ o).

Definition set_filled_quantity (now : Timestamp) (filled : Decimal) (o : t) : t :=
  let status :=
    if Decimal.geb filled (quantity_ o) then FILLED
    else if Decimal.gtb filled Decimal.zero then PARTIAL
    else status_ o in
  with_status o status now filled (executions_ o).

Definition set_price (now : Timestamp) (price : Decimal) (o : t) : t :=
  mk (client_order_id_ o) (trading_pair_ o) (side_ o) (type_ o) (base_currency_ o)
     (quote_currency_ o) price (quantity_ o) (filled_quantity_ o) (creation_time_ o)
     now (status_ o) (position_ o) (exchange_order_id_ o) (executions_ o)
     (rejection_reason_ o) (expiry_time_ o).

(** [fill_price] is not used by the body. *)
Definition apply_fill (now : Timestamp) (fill_quantity fill_price : Decimal) (o : t) : t :=
  let filled := Decimal.add (filled_quantity_ o) fill_quantity in
  let status := if Decimal.geb filled (quantity_ o) then FILLED else PARTIAL in
  with_status o status now filled (executions_ o).

Definition cancel (now : Timestamp) (o : t) : t :=
  with_status o CANCELLED now (filled_quantity_ o) (executions_ o).

(** [now] is read twice in the source, by the [ExecutionDetail]
    constructor and for [last_update_time_]; one value stands for both. *)
Definition add_execution (now : Timestamp) (execution_id : string)
    (quantity price fee_amount : Decimal) (fee_currency : string) (o : t) : t :=
  let execs :=
    executions_ o ++ [mkExecution execution_id quantity price fee_amount fee_currency now] in
  let filled := Decimal.add (filled_quantity_ o) quantity in
  let status :=
    if Decimal.geb filled (quantity_ o) then FILLED
    else if Decimal.gtb filled Decimal.zero then PARTIAL
    else status_ o in
  with_status o status now filled execs.

Definition is_buy (o : t) : bool := bool_decide (side_ o = BUY).
Definition is_sell (o : t) : bool := bool_decide (side_ o = SELL).
Definition is_filled (o : t) : bool := bool_decide (status_ o = FILLED).
Definition is_active (o : t) : bool :=
  bool_decide (status_ o = OPEN) || bool_decide (status_ o = PARTIAL).
Definition is_cancelled (o : t) : bool := bool_decide (status_ o = CANCELLED).

Definition remaining_quantity (o : t) : Decimal :=
  Decimal.sub (quantity_ o) (filled_quantity_ o).

(** [LimitOrder::operator<]: the side consulted is the one of the left
    operand. *)
Definition lt (o other : t) : bool :=
  if Decimal.neqb (price_ o) (price_ other) then
    match side_ o with
    | BUY => Decimal.gtb (price_ o) (price_ other)
    | SELL => Decimal.ltb (price_ o) (price_ other)
    end
  else creation_time_ o <? creation_time_ other.

(** The loop of [LimitOrder::is_valid] that sums the executed
    quantities. *)
Definition total_executed (o : t) : Decimal :=
  fold_left (fun total exec => Decimal.add total (exec_quantity exec))
            (executions_ o) Decimal.zero.

(** [LimitOrder::is_valid] *)
Definition is_valid (o : t) : bool :=
  if String.eqb (client_order_id_ o) EmptyString then false
  else if String.eqb (trading_pair_ o) EmptyString then false
  else if Decimal.is_zero (quantity_ o) || Decimal.is_negative (quantity_ o) then false
  else if bool_decide (type_ o = LIMIT)
          && (Decimal.is_zero (price_ o) || Decimal.is_negative (price_ o)) then false
  else if Decimal.is_negative (filled_quantity_ o) then false
  else if Decimal.gtb (filled_quantity_ o) (quantity_ o) then false
  else
    let diff := Decimal.abs (Decimal.sub (total_executed o) (filled_quantity_ o)) in
    if Decimal.gtb diff (Decimal.lit "0.00000001") then false else true.

End LimitOrder.

(* ===================================================================== *)
(** ** core::OrderBuilder *)
(* ===================================================================== *)

Module OrderBuilder.

(** [class OrderBuilder].  The member [side_] has no initializer: a new
    builder holds an indeterminate side, here the argument of [create]. *)
Record t : Type := mk {
  client_order_id_ : string;
  trading_pair_ : string;
  side_ : OrderSide;
  type_ : OrderType;
  price_ : Decimal;
  quantity_ : Decimal;
  position_ : string
}.

Definition create (side : OrderSide) : t :=
  mk EmptyString EmptyString side LIMIT Decimal.zero Decimal.zero EmptyString.

Definition id (client_order_id : string) (b : t) : t :=
  mk client_order_id (trading_pair_ b) (side_ b) (type_ b) (price_ b) (quantity_ b)
     (position_ b).

Definition pair (trading_pair : string) (b : t) : t :=
  mk (client_order_id_ b) trading_pair (side_ b) (type_ b) (price_ b) (quantity_ b)
     (position_ b).

Definition buy (quantity : Decimal) (b : t) : t :=
  mk (client_order_id_ b) (trading_pair_ b) BUY (type_ b) (price_ b) quantity (position_ b).

Definition sell (quantity : Decimal) (b : t) : t :=
  mk (client_order_id_ b) (trading_pair_ b) SELL (type_ b) (price_ b) quantity (position_ b).

Definition at_price (price : Decimal) (b : t) : t :=
  mk (client_order_id_ b) (trading_pair_ b) (side_ b) LIMIT price (quantity_ b) (position_ b).

Definition market_order (b : t) : t :=
  mk (client_order_id_ b) (trading_pair_ b) (side_ b) MARKET (price_ b) (quantity_ b)
     (position_ b).

Definition limit_order (b : t) : t :=
  mk (client_order_id_ b) (trading_pair_ b) (side_ b) LIMIT (price_ b) (quantity_ b)
     (position_ b).

Definition position (position : string) (b : t) : t :=
  mk (client_order_id_ b) (trading_pair_ b) (side_ b) (type_ b) (price_ b) (quantity_ b)
     position.

(** [OrderBuilder::build]; [None] stands for the [std::invalid_argument]
    thrown by each of the four checks.  The order is made by the
    five-argument constructor of [LimitOrder]. *)
Definition build (now : Timestamp) (b : t) : option LimitOrder.t :=
  if String.eqb (client_order_id_ b) EmptyString then None
  else if String.eqb (trading_pair_ b) EmptyString then None
  else if Decimal.is_zero (quantity_ b) then None
  else if bool_decide (type_ b = LIMIT) && Decimal.is_zero (price_ b) then None
  else Some (LimitOrder.create now (client_order_id_ b) (trading_pair_ b) (side_ b)
               (price_ b) (quantity_ b)).

End OrderBuilder.

(* ===================================================================== *)
(** ** core::TradingCore *)
(* ===================================================================== *)

Module TradingCore.

(** [struct Position] *)
Record Position : Type := mkPosition {
  pos_symbol : string;
  pos_quantity : Decimal;
  average_price : Decimal;
  unrealized_pnl : Decimal;
  realized_pnl : Decimal;
  pos_last_update : Timestamp
}.

(** [Position()]: what [positions_[symbol]] inserts for a new symbol. *)
Definition empty_position : Position :=
  mkPosition EmptyString Decimal.zero Decimal.zero Decimal.zero Decimal.zero 0.

(** [struct Balance] *)
Record Balance : Type := mkBalance {
  currency : string;
  total : Decimal;
  available : Decimal;
  locked : Decimal;
  bal_last_update : Timestamp
}.

Definition empty_balance : Balance :=
  mkBalance EmptyString Decimal.zero Decimal.zero Decimal.zero 0.

(** [struct Trade] *)
Record Trade : Type := mkTrade {
  trade_id : string;
  trade_client_order_id : string;
  trade_exchange_order_id : string;
  trade_symbol : string;
  trade_side : OrderSide;
  trade_price : Decimal;
  trade_quantity : Decimal;
  trade_fee : Decimal;
  trade_fee_currency : string;
  trade_timestamp : Timestamp
}.

(** [struct RiskLimits] *)
Record RiskLimits : Type := mkRiskLimits {
  max_position_size : Decimal;
  max_order_size : Decimal;
  max_daily_loss : Decimal;
  max_drawdown : Decimal;
  max_orders_per_second : Z;
  enable_position_limits : bool;
  enable_order_limits : bool;
  enable_loss_limits : bool
}.

(** [struct TradingCallbacks]: for each slot, whether a function is
    installed. *)
Record TradingCallbacks : Type := mkCallbacks {
  on_order_filled : bool;
  on_order_cancelled : bool;
  on_order_rejected : bool;
  on_trade_executed : bool;
  on_error : bool;
  on_position_update : bool;
  on_balance_update : bool
}.

(** The closures pushed on [event_queue_]; each captures its argument by
    value. *)
Inductive event : Type :=
| ev_order_rejected (o : LimitOrder.t)
| ev_order_cancelled (o : LimitOrder.t)
| ev_position_update (p : Position)
| ev_balance_update (b : Balance).

(** A call of a user callback, with its argument. *)
Inductive callback_call : Type :=
| call_on_order_rejected (o : LimitOrder.t)
| call_on_order_cancelled (o : LimitOrder.t)
| call_on_position_update (p : Position)
| call_on_balance_update (b : Balance).

(** [class TradingCore].  The clock and the market data manager take no
    part in the functions embedded here. *)
Record t : Type := mk {
  order_books_ : gmap string OrderBook.t;
  active_orders_ : gmap string LimitOrder.t;
  positions_ : gmap string Position;
  balances_ : gmap string Balance;
  trade_history_ : list Trade;
  risk_limits_ : RiskLimits;
  daily_pnl_ : Decimal;
  total_pnl_ : Decimal;
  callbacks_ : TradingCallbacks;
  event_queue_ : list event;
  running_ : bool
}.

Definition no_callbacks : TradingCallbacks :=
  mkCallbacks false false false false false false false.

(** [RiskLimits()] leaves the three flags at [true]. *)
Definition default_limits : RiskLimits :=
  mkRiskLimits Decimal.zero Decimal.zero Decimal.zero Decimal.zero 0 true true true.

(** [TradingCore::TradingCore()] *)
Definition create : t :=
  mk ∅ ∅ ∅ ∅ [] default_limits Decimal.zero Decimal.zero no_callbacks [] false.

Definition set_active_orders (st : t) (m : gmap string LimitOrder.t) : t :=
  mk (order_books_ st) m (positions_ st) (balances_ st) (trade_history_ st)
     (risk_limits_ st) (daily_pnl_ st) (total_pnl_ st) (callbacks_ st)
     (event_queue_ st) (running_ st).

Definition set_event_queue (st : t) (q : list event) : t :=
  mk (order_books_ st) (active_orders_ st) (positions_ st) (balances_ st)
     (trade_history_ st) (risk_limits_ st) (daily_pnl_ st) (total_pnl_ st)
     (callbacks_ st) q (running_ st).

Definition push_event (st : t) (ev : event) : t :=
  set_event_queue st (event_queue_ st ++ [ev]).

Definition set_risk_limits (limits : RiskLimits) (st : t) : t :=
  mk (order_books_ st) (active_orders_ st) (positions_ st) (balances_ st)
     (trade_history_ st) limits (daily_pnl_ st) (total_pnl_ st) (callbacks_ st)
     (event_queue_ st) (running_ st).

(** [TradingCore::initialize]: fresh books, and the default limits when
    [max_position_size] is still zero. *)
Definition initialize (st : t) : t :=
  let limits :=
    if Decimal.is_zero (max_position_size (risk_limits_ st)) then
      mkRiskLimits (Decimal.lit "1000.0") (Decimal.lit "100.0") (Decimal.lit "10000.0")
                   (max_drawdown (risk_limits_ st)) 100 true true true
    else risk_limits_ st in
  mk ∅ (active_orders_ st) (positions_ st) (balances_ st) (trade_history_ st) limits
     (daily_pnl_ st) (total_pnl_ st) (callbacks_ st) (event_queue_ st) (running_ st).

Definition set_callbacks (callbacks : TradingCallbacks) (st : t) : t :=
  mk (order_books_ st) (active_orders_ st) (positions_ st) (balances_ st)
     (trade_history_ st) (risk_limits_ st) (daily_pnl_ st) (total_pnl_ st) callbacks
     (event_queue_ st) (running_ st).

(** [TradingCore::validate_order] *)
Definition validate_order (order : LimitOrder.t) : bool :=
  if String.eqb (LimitOrder.client_order_id_ order) EmptyString then false
  else if String.eqb (LimitOrder.trading_pair_ order) EmptyString then false
  else if Decimal.is_zero (LimitOrder.quantity_ order)
          || Decimal.is_negative (LimitOrder.quantity_ order) then false
  else if bool_decide (LimitOrder.type_ order = LIMIT)
          && (Decimal.is_zero (LimitOrder.price_ order)
              || Decimal.is_negative (LimitOrder.price_ order)) then false
  else true.

(** The three checks of [check_risk_limits], in the order of the source;
    each is [true] when it lets the order through. *)
Definition order_size_check (st : t) (order : LimitOrder.t) : bool :=
  if enable_order_limits (risk_limits_ st) then
    negb (Decimal.gtb (LimitOrder.quantity_ order) (max_order_size (risk_limits_ st)))
  else true.

Definition position_size_check (st : t) (order : LimitOrder.t) : bool :=
  if enable_position_limits (risk_limits_ st) then
    let current_position :=
      match positions_ st !! LimitOrder.trading_pair_ order with
      | Some p => pos_quantity p
      | None => Decimal.zero
      end in
    let new_position :=
      if LimitOrder.is_buy order
      then Decimal.add current_position (LimitOrder.quantity_ order)
      else Decimal.sub current_position (LimitOrder.quantity_ order) in
    negb (Decimal.gtb (Decimal.abs new_position) (max_position_size (risk_limits_ st)))
  else true.

Definition daily_loss_check (st : t) : bool :=
  if enable_loss_limits (risk_limits_ st) then
    negb (Decimal.ltb (daily_pnl_ st) (Decimal.neg (max_daily_loss (risk_limits_ st))))
  else true.

(** [TradingCore::check_risk_limits] *)
Definition check_risk_limits (st : t) (order : LimitOrder.t) : bool :=
  if negb (order_size_check st order) then false
  else if negb (position_size_check st order) then false
  else if negb (daily_loss_check st) then false
  else true.

(** [TradingCore::submit_order] *)
Definition submit_order (now : Timestamp) (order : LimitOrder.t) (st : t) : bool * t :=
  if negb (validate_order order) then (false, st)
  else if negb (check_risk_limits st order) then
    (false,
     if on_order_rejected (callbacks_ st) then push_event st (ev_order_rejected order)
     else st)
  else
    let order_copy := LimitOrder.set_status now OPEN order in
    (true,
     set_active_orders st
       (<[LimitOrder.client_order_id_ order := order_copy]> (active_orders_ st))).

(** [TradingCore::cancel_order] *)
Definition cancel_order (now : Timestamp) (client_order_id : string) (st : t) : bool * t :=
  match active_orders_ st !! client_order_id with
  | Some o =>
      let cancelled := LimitOrder.cancel now o in
      let st1 :=
        if on_order_cancelled (callbacks_ st)
        then push_event st (ev_order_cancelled cancelled)
        else st in
      (true, set_active_orders st1 (delete client_order_id (active_orders_ st1)))
  | None => (false, st)
  end.

(** [TradingCore::modify_order]; [new_quantity] is not used. *)
Definition modify_order (now : Timestamp) (client_order_id : string)
    (new_price new_quantity : Decimal) (st : t) : bool * t :=
  match active_orders_ st !! client_order_id with
  | Some o =>
      (true,
       if negb (Decimal.is_zero new_price)
       then set_active_orders st
              (<[client_order_id := LimitOrder.set_price now new_price o]> (active_orders_ st))
       else st)
  | None => (false, st)
  end.

Definition get_position (symbol : string) (st : t) : Position :=
  match positions_ st !! symbol with
  | Some p => p
  | None => empty_position
  end.

(** The closure run by the event thread calls the slot of [callbacks_];
    an empty slot throws [std::bad_function_call], which
    [process_events] swallows. *)
Definition run_event (st : t) (ev : event) : list callback_call :=
  match ev with
  | ev_order_rejected o =>
      if on_order_rejected (callbacks_ st) then [call_on_order_rejected o] else []
  | ev_order_cancelled o =>
      if on_order_cancelled (callbacks_ st) then [call_on_order_cancelled o] else []
  | ev_position_update p =>
      if on_position_update (callbacks_ st) then [call_on_position_update p] else []
  | ev_balance_update b =>
      if on_balance_update (callbacks_ st) then [call_on_balance_update b] else []
  end.

(** [n] turns of the loop of [TradingCore::process_events], with the
    calls made to user callbacks. *)
Fixpoint process_events (n : nat) (st : t) : t * list callback_call :=
  match n with
  | O => (st, [])
  | S k =>
      if running_ st then
        match event_queue_ st with
        | [] => process_events k st
        | ev :: q =>
            let calls := run_event st ev in
            let '(st', calls') := process_events k (set_event_queue st q) in
            (st', calls ++ calls')
        end
      else (st, [])
  end.

(** [TradingCore::update_position] *)
Definition update_position (now : Timestamp) (trade : Trade) (st : t) : t :=
  let position := get_position (trade_symbol trade) st in
  let '(position', total_pnl', daily_pnl') :=
    match trade_side trade with
    | BUY =>
        let total_cost :=
          Decimal.add (Decimal.mul (pos_quantity position) (average_price position))
                      (Decimal.mul (trade_quantity trade) (trade_price trade)) in
        let quantity := Decimal.add (pos_quantity position) (trade_quantity trade) in
        let avg :=
          if negb (Decimal.is_zero quantity) then Decimal.div total_cost quantity
          else average_price position in
        (mkPosition (trade_symbol trade) quantity avg (unrealized_pnl position)
                    (realized_pnl position) now,
         total_pnl_ st, daily_pnl_ st)
    | SELL =>
        let realized :=
          Decimal.mul (trade_quantity trade)
                      (Decimal.sub (trade_price trade) (average_price position)) in
        (mkPosition (trade_symbol trade)
                    (Decimal.sub (pos_quantity position) (trade_quantity trade))
                    (average_price position) (unrealized_pnl position)
                    (Decimal.add (realized_pnl position) realized) now,
         Decimal.add (total_pnl_ st) realized,
         Decimal.add (daily_pnl_ st) realized)
    end in
  let queue :=
    if on_position_update (callbacks_ st)
    then event_queue_ st ++ [ev_position_update position']
    else event_queue_ st in
  mk (order_books_ st) (active_orders_ st)
     (<[trade_symbol trade := position']> (positions_ st)) (balances_ st)
     (trade_history_ st) (risk_limits_ st) daily_pnl' total_pnl' (callbacks_ st)
     queue (running_ st).

(** [TradingCore::update_balance] *)
Definition update_balance (now : Timestamp) (cur : string) (delta : Decimal) (st : t) : t :=
  let balance :=
    match balances_ st !! cur with
    | Some b => b
    | None => empty_balance
    end in
  let balance' :=
    mkBalance cur (Decimal.add (total balance) delta)
              (Decimal.add (available balance) delta) (locked balance) now in
  let queue :=
    if on_balance_update (callbacks_ st)
    then event_queue_ st ++ [ev_balance_update balance']
    else event_queue_ st in
  mk (order_books_ st) (active_orders_ st) (positions_ st)
     (<[cur := balance']> (balances_ st)) (trade_history_ st) (risk_limits_ st)
     (daily_pnl_ st) (total_pnl_ st) (callbacks_ st) queue (running_ st).

(** [TradingCore::reset] *)
Definition reset (st : t) : t :=
  mk ∅ ∅ ∅ ∅ [] (risk_limits_ st) Decimal.zero Decimal.zero (callbacks_ st)
     (event_queue_ st) (running_ st).

(** [std::map] iterates in increasing key order ([std::less] on
    [std::string]: lexicographic on the bytes). *)
Fixpoint insert_by_key {V : Type} (kv : string * V) (l : list (string * V))
    : list (string * V) :=
  match l with
  | [] => [kv]
  | x :: xs => if String.ltb (fst kv) (fst x) then kv :: l else x :: insert_by_key kv xs
  end.

Definition in_key_order {V : Type} (m : gmap string V) : list V :=
  map snd (foldr insert_by_key [] (map_to_list m)).

Definition dquote : string := String (ascii_of_N 34) EmptyString.
Definition nl : string := String (ascii_of_N 10) EmptyString.

Definition concat_strings (l : list string) : string :=
  foldr String.append EmptyString l.

(** The separator logic [if (!first) oss << ",\n"; first = false;]. *)
Fixpoint join_items (items : list string) : string :=
  match items with
  | [] => EmptyString
  | [x] => x
  | x :: rest => (x +:+ "," +:+ nl +:+ join_items rest)%string
  end.

Definition export_position (p : Position) : string :=
  concat_strings
    [ "    {"; nl;
      "      "; dquote; "symbol"; dquote; ": "; dquote; pos_symbol p; dquote; ","; nl;
      "      "; dquote; "quantity"; dquote; ": "; Decimal.to_string (pos_quantity p); ","; nl;
      "      "; dquote; "average_price"; dquote; ": ";
                Decimal.to_string (average_price p); ","; nl;
      "      "; dquote; "realized_pnl"; dquote; ": "; Decimal.to_string (realized_pnl p); nl;
      "    }" ]%string.

Definition export_balance (b : Balance) : string :=
  concat_strings
    [ "    {"; nl;
      "      "; dquote; "currency"; dquote; ": "; dquote; currency b; dquote; ","; nl;
      "      "; dquote; "total"; dquote; ": "; Decimal.to_string (total b); ","; nl;
      "      "; dquote; "available"; dquote; ": "; Decimal.to_string (available b); nl;
      "    }" ]%string.

(** [TradingCore::export_state] *)
Definition export_state (st : t) : string :=
  concat_strings
    [ "{"; nl;
      "  "; dquote; "positions"; dquote; ": ["; nl;
      join_items (map export_position (in_key_order (positions_ st)));
      nl; "  ],"; nl;
      "  "; dquote; "balances"; dquote; ": ["; nl;
      join_items (map export_balance (in_key_order (balances_ st)));
      nl; "  ],"; nl;
      "  "; dquote; "total_pnl"; dquote; ": "; Decimal.to_string (total_pnl_ st); ","; nl;
      "  "; dquote; "daily_pnl"; dquote; ": "; Decimal.to_string (daily_pnl_ st); nl;
      "}" ]%string.

(** [TradingCore::import_state]: the body is [return false;] under the
    comment "JSON parsing would be implemented here with a proper JSON
    library.  For now, return false to indicate not implemented". *)
Definition import_state (json : string) (st : t) : bool * t := (false, st).

(** The pairs of a [std::map], in iteration order. *)
Definition items_in_key_order {V : Type} (m : gmap string V) : list (string * V) :=
  foldr insert_by_key [] (map_to_list m).

(** [TradingCore::get_active_orders()] *)
Definition get_active_orders (st : t) : list LimitOrder.t :=
  map snd (items_in_key_order (active_orders_ st)).

(** [TradingCore::get_balance] *)
Definition get_balance (cur : string) (st : t) : Balance :=
  match balances_ st !! cur with
  | Some b => b
  | None => empty_balance
  end.

(** [TradingCore::get_portfolio_value]: both branches on the currency
    add [balance.total]. *)
Definition get_portfolio_value (base_currency : string) (st : t) : Decimal :=
  let cash :=
    fold_left (fun total_value '(cur, balance) =>
                 if String.eqb cur base_currency
                 then Decimal.add total_value (total balance)
                 else Decimal.add total_value (total balance))
              (items_in_key_order (balances_ st)) Decimal.zero in
  fold_left (fun total_value '(_, position) =>
               Decimal.add total_value
                 (Decimal.mul (pos_quantity position) (average_price position)))
            (items_in_key_order (positions_ st)) cash.

(** [TradingCore::get_unrealized_pnl] *)
Definition get_unrealized_pnl (st : t) : Decimal :=
  fold_left (fun total_unrealized '(_, position) =>
               Decimal.add total_unrealized (unrealized_pnl position))
            (items_in_key_order (positions_ st)) Decimal.zero.

(** [TradingCore::get_trade_history(limit)] *)
Definition get_trade_history (limit : nat) (st : t) : list Trade :=
  if (limit =? 0)%nat || (length (trade_history_ st) <=? limit)%nat
  then trade_history_ st
  else firstn limit (trade_history_ st).

(** The loop of [TradingCore::get_trade_history(symbol, limit)];
    [filtered] is the number of trades pushed so far. *)
Fixpoint trade_history_loop (symbol : string) (limit filtered : nat) (l : list Trade)
    : list Trade :=
  match l with
  | [] => []
  | trade :: rest =>
      if String.eqb (trade_symbol trade) symbol then
        if (0 <? limit)%nat && (limit <=? S filtered)%nat then [trade]
        else trade :: trade_history_loop symbol limit (S filtered) rest
      else trade_history_loop symbol limit filtered rest
  end.

Definition get_trade_history_for (symbol : string) (limit : nat) (st : t) : list Trade :=
  trade_history_loop symbol limit 0 (trade_history_ st).

End TradingCore.

(* ===================================================================== *)
(** ** core::OrderBookManager *)
(* ===================================================================== *)

Module OrderBookManager.

(** [std::map<std::string, std::unique_ptr<OrderBook>> order_books_] *)
Abbreviation t := (gmap string OrderBook.t).

(** [OrderBookManager::get_order_book]: the book of the symbol, made
    first (with the clock value [now]) when there is none. *)
Definition get_order_book (now : Timestamp) (symbol : string) (m : t) : OrderBook.t * t :=
  match m !! symbol with
  | Some book => (book, m)
  | None =>
      let book := OrderBook.create now symbol in
      (book, <[symbol := book]> m)
  end.

Definition has_order_book (symbol : string) (m : t) : bool :=
  bool_decide (is_Some (m !! symbol)).

Definition remove_order_book (symbol : string) (m : t) : t := delete symbol m.

Definition get_symbols (m : t) : list string :=
  map fst (TradingCore.items_in_key_order m).

Definition clear_all (m : t) : t := ∅.

End OrderBookManager.

(* ===================================================================== *)
(** ** core::Clock *)
(* ===================================================================== *)

Module Clock.

(** [enum class ClockMode] of clock.hpp. *)
Inductive ClockMode : Type := REALTIME | BACKTEST | SIMULATION.

#[global] Instance ClockMode_eq_dec : EqDecision ClockMode.
Proof. solve_decision. Defined.

(** [using Duration = std::chrono::nanoseconds]: a signed 64-bit count. *)
Definition Duration : Type := Z.

(** [ScheduledCallback] is a [std::function<void()>]; a callback is
    known by a number and a call of it is recorded under that number. *)
Definition callback_id : Type := nat.

(** [struct ScheduledEvent], private to [class Clock] in clock.hpp. *)
Record ScheduledEvent : Type := mkEvent {
  scheduled_time : Timestamp;
  callback : callback_id;
  recurring : bool;
  interval : Duration
}.

(** [class Clock].  [timer_thread_] records whether the thread running
    [timer_loop] exists. *)
Record t : Type := mk {
  mode_ : ClockMode;
  start_time_ : Timestamp;
  current_time_ : Timestamp;
  running_ : bool;
  events_ : list ScheduledEvent;
  timer_thread_ : bool
}.

(** [Clock::Clock(mode)]; [real] is the reading of
    [std::chrono::high_resolution_clock::now()]. *)
Definition create (real : Timestamp) (mode : ClockMode) : t :=
  mk mode real real false [] false.

(** [Clock::start]: the timer thread is spawned in [REALTIME] only. *)
Definition start (c : t) : t :=
  if running_ c then c
  else mk (mode_ c) (start_time_ c) (current_time_ c) true (events_ c)
          (if decide (mode_ c = REALTIME) then true else timer_thread_ c).

(** [Clock::stop]: joining ends the thread. *)
Definition stop (c : t) : t :=
  if negb (running_ c) then c
  else mk (mode_ c) (start_time_ c) (current_time_ c) false (events_ c) false.

(** [Clock::now] *)
Definition now (real : Timestamp) (c : t) : Timestamp :=
  if decide (mode_ c = REALTIME) then real else current_time_ c.

Definition push_event (c : t) (e : ScheduledEvent) : t :=
  mk (mode_ c) (start_time_ c) (current_time_ c) (running_ c) (events_ c ++ [e])
     (timer_thread_ c).

(** [Clock::schedule_once]; the interval of the event is not set here:
    it keeps the zero of [std::make_unique] and is never read for such an
    event. *)
Definition schedule_once (real : Timestamp) (delay : Duration) (cb : callback_id) (c : t) : t :=
  push_event c (mkEvent (wrap64 (now real c + delay)) cb false 0).

(** [Clock::schedule_recurring] *)
Definition schedule_recurring (real : Timestamp) (itv : Duration) (cb : callback_id)
    (c : t) : t :=
  push_event c (mkEvent (wrap64 (now real c + itv)) cb true itv).

(** [Clock::set_time] and [Clock::advance_time] *)
Definition set_time (time : Timestamp) (c : t) : t :=
  if negb (bool_decide (mode_ c = BACKTEST)) && negb (bool_decide (mode_ c = SIMULATION))
  then c
  else mk (mode_ c) (start_time_ c) time (running_ c) (events_ c) (timer_thread_ c).

Definition advance_time (duration : Duration) (c : t) : t :=
  if negb (bool_decide (mode_ c = BACKTEST)) && negb (bool_decide (mode_ c = SIMULATION))
  then c
  else mk (mode_ c) (start_time_ c) (wrap64 (current_time_ c + duration)) (running_ c)
          (events_ c) (timer_thread_ c).

(** The inner [while] of [Clock::timer_loop] over [events_], for the clock
    reading [current_time]: the events kept and the callbacks called. *)
Fixpoint process_scheduled (current_time : Timestamp) (events : list ScheduledEvent)
    : list ScheduledEvent * list callback_id :=
  match events with
  | [] => ([], [])
  | event :: rest =>
      let '(kept, calls) := process_scheduled current_time rest in
      if current_time >=? scheduled_time event then
        if recurring event then
          (mkEvent (wrap64 (current_time + interval event)) (callback event) true
                   (interval event) :: kept,
           callback event :: calls)
        else (kept, callback event :: calls)
      else (event :: kept, calls)
  end.

(** One turn of the outer loop of [Clock::timer_loop], which only the
    timer thread runs, and only while [running_] holds. *)
Definition timer_turn (real : Timestamp) (c : t) : t * list callback_id :=
  if timer_thread_ c && running_ c then
    let '(kept, calls) := process_scheduled real (events_ c) in
    (mk (mode_ c) (start_time_ c) (current_time_ c) (running_ c) kept (timer_thread_ c),
     calls)
  else (c, []).

End Clock.

(* ===================================================================== *)
(** ** The properties of the design document, in the vocabulary above *)
(* ===================================================================== *)

(** "Both sides non-empty with best_bid >= best_ask". *)
Definition crossed (b : OrderBook.t) : bool :=
  negb (bool_decide (OrderBook.bids_ b = []))
  && negb (bool_decide (OrderBook.asks_ b = []))
  && Decimal.geb (OrderBook.best_bid b) (OrderBook.best_ask b).

(** A mutator call of the order book, and a sequence of them. *)
Inductive book_op : Type :=
| op_update_bid (now : Timestamp) (p a : Decimal) (id : Z)
| op_update_ask (now : Timestamp) (p a : Decimal) (id : Z)
| op_apply_updates (now : Timestamp) (bids asks : list OrderBook.level_update) (final_id : Z).

Definition run_book_op (b : OrderBook.t) (op : book_op) : OrderBook.t :=
  match op with
  | op_update_bid now p a id => fst (OrderBook.update_bid now p a id b)
  | op_update_ask now p a id => fst (OrderBook.update_ask now p a id b)
  | op_apply_updates now bids asks id => fst (OrderBook.apply_updates now bids asks id b)
  end.

Definition run_book_ops (ops : list book_op) (b : OrderBook.t) : OrderBook.t :=
  fold_left run_book_op ops b.

(** The validation failures listed for [submit_order]. *)
Definition validation_fails (o : LimitOrder.t) : Prop :=
  LimitOrder.client_order_id_ o = EmptyString
  \/ LimitOrder.trading_pair_ o = EmptyString
  \/ Decimal.value_ (LimitOrder.quantity_ o) <= 0
  \/ (LimitOrder.type_ o = LIMIT /\ Decimal.value_ (LimitOrder.price_ o) <= 0).



(** The status computed by the two accounting setters. *)
Definition fill_status (filled quantity : Decimal) (old : OrderStatus) : OrderStatus :=
  if Decimal.geb filled quantity then FILLED
  else if Decimal.gtb filled Decimal.zero then PARTIAL
  else old.

(** The sum of the amounts on a side, as an integer of raw units. *)
Definition total_amount (levels : OrderBook.entries) : Z :=
  fold_right (fun lvl acc => Decimal.value_ (OrderBook.amount lvl) + acc) 0 levels.

Definition positive_amounts (levels : OrderBook.entries) : Prop :=
  Forall (fun lvl => 0 < Decimal.value_ (OrderBook.amount lvl)) levels.

(** Strings made of decimal digits only. *)
Fixpoint all_digits (s : string) : bool :=
  match s with
  | EmptyString => true
  | String c r => is_digit c && all_digits r
  end.

(** The text written for the magnitude [ip * SCALE_FACTOR + fp]. *)
Definition magnitude_text (ip fp : Z) : string :=
  (to_string_int64 ip +:+
   (if fp >? 0 then
      "." +:+ strip_trailing_zeros
                (string_repeat (18 - String.length (to_string_int64 fp)) zero_char
                 +:+ to_string_int64 fp)
    else EmptyString))%string.

(* --------------------------------------------------------------------- *)
(** *** Concrete scenarios *)
(* --------------------------------------------------------------------- *)

Module Scenario.

Definition btc : string := "BTC-USDT".

(** An order in each of two terminal states, and a rejected one. *)
Definition filled_order : LimitOrder.t :=
  LimitOrder.set_filled_quantity 2 (Decimal.lit "1")
    (LimitOrder.create 1 "A1" btc BUY (Decimal.lit "2") (Decimal.lit "1")).

Definition cancelled_order : LimitOrder.t :=
  LimitOrder.cancel 2 (LimitOrder.create 1 "A2" btc BUY (Decimal.lit "2") (Decimal.lit "1")).

Definition rejected_order : LimitOrder.t :=
  LimitOrder.set_status 2 REJECTED
    (LimitOrder.create 1 "A3" btc SELL (Decimal.lit "2") (Decimal.lit "1")).

(** A core without limits. *)
Definition unlimited : TradingCore.RiskLimits :=
  TradingCore.mkRiskLimits Decimal.zero Decimal.zero Decimal.zero Decimal.zero 0
    false false false.

Definition open_core : TradingCore.t :=
  TradingCore.set_risk_limits unlimited TradingCore.create.

Definition first_order : LimitOrder.t :=
  LimitOrder.create 1 "ORD-1" btc BUY (Decimal.lit "2") (Decimal.lit "1").

(** Same id, other side, price and quantity. *)
Definition second_order : LimitOrder.t :=
  LimitOrder.create 5 "ORD-1" btc SELL (Decimal.lit "3") (Decimal.lit "0.5").

Definition no_id_order : LimitOrder.t :=
  LimitOrder.create 1 EmptyString btc BUY (Decimal.lit "2") (Decimal.lit "1").

Definition core_with_first : TradingCore.t :=
  snd (TradingCore.submit_order 2 first_order open_core).

(** Scenario 4 of the design document: [max_order_size = 1.0], a
    listener for rejections, a limit order of 1.5. *)
Definition size_limits : TradingCore.RiskLimits :=
  TradingCore.mkRiskLimits (Decimal.lit "5.0") (Decimal.lit "1.0") (Decimal.lit "0")
    Decimal.zero 100 true true true.

Definition listening : TradingCore.TradingCallbacks :=
  TradingCore.mkCallbacks false false true false false false false.

Definition limited_core : TradingCore.t :=
  let st := TradingCore.set_callbacks listening
              (TradingCore.set_risk_limits size_limits TradingCore.create) in
  TradingCore.mk (TradingCore.order_books_ st) (TradingCore.active_orders_ st)
    (TradingCore.positions_ st) (TradingCore.balances_ st) (TradingCore.trade_history_ st)
    (TradingCore.risk_limits_ st) (TradingCore.daily_pnl_ st) (TradingCore.total_pnl_ st)
    (TradingCore.callbacks_ st) (TradingCore.event_queue_ st) true.

Definition big_order : LimitOrder.t :=
  LimitOrder.create 1 "BIG" btc BUY (Decimal.lit "2") (Decimal.lit "1.5").

Definition trade (side : OrderSide) (price qty : Decimal) : TradingCore.Trade :=
  TradingCore.mkTrade "T" "ORD-1" "X" btc side price qty Decimal.zero "USDT" 0.

(** Prices small enough for [operator*] not to overflow. *)
Definition price_3 : Decimal := Decimal.lit "0.000000000000000003".
Definition price_4 : Decimal := Decimal.lit "0.000000000000000004".
Definition price_5 : Decimal := Decimal.lit "0.000000000000000005".

(** Long 1 at [price_3], then short 1 after selling 2: the next BUY of 1
    closes the position. *)
Definition short_core : TradingCore.t :=
  TradingCore.update_position 2 (trade SELL price_4 (Decimal.lit "2"))
    (TradingCore.update_position 1 (trade BUY price_3 (Decimal.lit "1"))
       TradingCore.create).

Definition closing_buy : TradingCore.Trade := trade BUY price_5 (Decimal.lit "1").

(** A core holding a position, a balance and some P&L. *)
Definition funded_core : TradingCore.t :=
  TradingCore.update_balance 3 "USDT" (Decimal.lit "2.5") short_core.

(** Scenario 1 of the design document. *)
Definition spec_book : OrderBook.t :=
  fst (OrderBook.apply_updates 1
    [(Decimal.lit "49900", Decimal.lit "1.5", 1); (Decimal.lit "49850", Decimal.lit "2.3", 2)]
    [(Decimal.lit "50000", Decimal.lit "1.2", 3); (Decimal.lit "50050", Decimal.lit "0.8", 4)]
    10 (OrderBook.create 0 btc)).

(** A book with one bid and no ask. *)
Definition one_sided_book : OrderBook.t :=
  fst (OrderBook.update_bid 1 (Decimal.lit "2") (Decimal.lit "1") 7
         (OrderBook.register_update_callback 0%nat (OrderBook.create 0 btc))).

(** Only the daily loss limit is enabled; [m] is [max_daily_loss] and
    [pnl] the current [daily_pnl_]. *)
Definition loss_limits (m : Decimal) : TradingCore.RiskLimits :=
  TradingCore.mkRiskLimits Decimal.zero Decimal.zero m Decimal.zero 0 false false true.

Definition loss_core (m pnl : Decimal) : TradingCore.t :=
  TradingCore.mk ∅ ∅ ∅ ∅ [] (loss_limits m) pnl pnl TradingCore.no_callbacks [] false.

(** A book whose prices fit a Decimal. *)
Definition small_book : OrderBook.t :=
  fst (OrderBook.apply_updates 1
    [(Decimal.lit "1.9", Decimal.lit "1.5", 1); (Decimal.lit "1.8", Decimal.lit "2.3", 2)]
    [(Decimal.lit "2", Decimal.lit "1.2", 3); (Decimal.lit "2.1", Decimal.lit "0.8", 4)]
    10 (OrderBook.register_update_callback 0%nat (OrderBook.create 0 btc))).

End Scenario.

(* ===================================================================== *)
(** ** Further vocabulary: invariants and runs *)
(* ===================================================================== *)

(** The strict price order of a side: ascending for the asks, descending
    for the bids. *)
Definition price_before (s : OrderBook.Side) (a b : OrderBook.OrderBookEntry) : Prop :=
  match s with
  | OrderBook.Ask => Decimal.value_ (OrderBook.price a) < Decimal.value_ (OrderBook.price b)
  | OrderBook.Bid => Decimal.value_ (OrderBook.price b) < Decimal.value_ (OrderBook.price a)
  end.

Definition side_sorted (s : OrderBook.Side) (l : OrderBook.entries) : Prop :=
  StronglySorted (price_before s) l.

(** The same order, as a check. *)
Definition price_beforeb (s : OrderBook.Side) (a b : OrderBook.OrderBookEntry) : bool :=
  match s with
  | OrderBook.Ask => Decimal.ltb (OrderBook.price a) (OrderBook.price b)
  | OrderBook.Bid => Decimal.ltb (OrderBook.price b) (OrderBook.price a)
  end.

Fixpoint side_sortedb (s : OrderBook.Side) (l : OrderBook.entries) : bool :=
  match l with
  | [] => true
  | x :: xs => forallb (price_beforeb s x) xs && side_sortedb s xs
  end.

Definition book_sorted (b : OrderBook.t) : Prop :=
  side_sorted OrderBook.Bid (OrderBook.bids_ b)
  /\ side_sorted OrderBook.Ask (OrderBook.asks_ b).

(** The levels stored at a price. *)
Definition levels_at (p : Decimal) (l : OrderBook.entries) : OrderBook.entries :=
  List.filter (fun x => Decimal.eqb (OrderBook.price x) p) l.

(** The test of [get_volume_at_or_better]. *)
Definition at_or_better (s : OrderBook.Side) (p : Decimal) (x : OrderBook.OrderBookEntry)
    : bool :=
  match s with
  | OrderBook.Bid => Decimal.geb (OrderBook.price x) p
  | OrderBook.Ask => Decimal.leb (OrderBook.price x) p
  end.

Definition sum_amounts (l : OrderBook.entries) : Decimal :=
  fold_left (fun total x => Decimal.add total (OrderBook.amount x)) l Decimal.zero.



(** A call of the clock, and a run of calls with the callbacks delivered.
    [clk_timer_turn] is one turn of the timer thread, if there is one. *)
Inductive clock_op : Type :=
| clk_start
| clk_stop
| clk_schedule_once (real : Timestamp) (delay : Clock.Duration) (cb : Clock.callback_id)
| clk_schedule_recurring (real : Timestamp) (itv : Clock.Duration) (cb : Clock.callback_id)
| clk_set_time (time : Timestamp)
| clk_advance_time (duration : Clock.Duration)
| clk_timer_turn (real : Timestamp).

Definition run_clock_op (c : Clock.t) (op : clock_op) : Clock.t * list Clock.callback_id :=
  match op with
  | clk_start => (Clock.start c, [])
  | clk_stop => (Clock.stop c, [])
  | clk_schedule_once real delay cb => (Clock.schedule_once real delay cb c, [])
  | clk_schedule_recurring real itv cb => (Clock.schedule_recurring real itv cb c, [])
  | clk_set_time time => (Clock.set_time time c, [])
  | clk_advance_time duration => (Clock.advance_time duration c, [])
  | clk_timer_turn real => Clock.timer_turn real c
  end.

Fixpoint run_clock_ops (ops : list clock_op) (c : Clock.t)
    : Clock.t * list Clock.callback_id :=
  match ops with
  | [] => (c, [])
  | op :: rest =>
      let '(c1, calls1) := run_clock_op c op in
      let '(c2, calls2) := run_clock_ops rest c1 in
      (c2, calls1 ++ calls2)
  end.

(** An event of the clock is due at [t]. *)
Definition due (t : Timestamp) (e : Clock.ScheduledEvent) : bool :=
  t >=? Clock.scheduled_time e.

(** A call of the trading core, and a sequence of calls. *)
Inductive core_op : Type :=
| do_submit_order (now : Timestamp) (order : LimitOrder.t)
| do_cancel_order (now : Timestamp) (client_order_id : string)
| do_modify_order (now : Timestamp) (client_order_id : string) (new_price new_quantity : Decimal)
| do_update_position (now : Timestamp) (trade : TradingCore.Trade)
| do_update_balance (now : Timestamp) (cur : string) (delta : Decimal)
| do_reset
| do_initialize
| do_set_risk_limits (limits : TradingCore.RiskLimits)
| do_set_callbacks (callbacks : TradingCore.TradingCallbacks)
| do_import_state (json : string)
| do_process_events (turns : nat).

Definition run_core_op (st : TradingCore.t) (op : core_op) : TradingCore.t :=
  match op with
  | do_submit_order now order => snd (TradingCore.submit_order now order st)
  | do_cancel_order now id => snd (TradingCore.cancel_order now id st)
  | do_modify_order now id p q => snd (TradingCore.modify_order now id p q st)
  | do_update_position now trade => TradingCore.update_position now trade st
  | do_update_balance now cur delta => TradingCore.update_balance now cur delta st
  | do_reset => TradingCore.reset st
  | do_initialize => TradingCore.initialize st
  | do_set_risk_limits limits => TradingCore.set_risk_limits limits st
  | do_set_callbacks callbacks => TradingCore.set_callbacks callbacks st
  | do_import_state json => snd (TradingCore.import_state json st)
  | do_process_events turns => fst (TradingCore.process_events turns st)
  end.

Definition run_core_ops (ops : list core_op) (st : TradingCore.t) : TradingCore.t :=
  fold_left run_core_op ops st.

(** What the stored orders, positions and balances of a core satisfy. *)
Definition order_stored_open (id : string) (o : LimitOrder.t) : Prop :=
  LimitOrder.client_order_id_ o = id /\ LimitOrder.status_ o = OPEN.

Definition position_plain (symbol : string) (p : TradingCore.Position) : Prop :=
  TradingCore.pos_symbol p = symbol /\ TradingCore.unrealized_pnl p = Decimal.zero.

Definition balance_unlocked (cur : string) (b : TradingCore.Balance) : Prop :=
  TradingCore.currency b = cur /\ TradingCore.available b = TradingCore.total b
  /\ TradingCore.locked b = Decimal.zero.

Definition core_invariant (st : TradingCore.t) : Prop :=
  map_Forall order_stored_open (TradingCore.active_orders_ st)
  /\ map_Forall position_plain (TradingCore.positions_ st)
  /\ map_Forall balance_unlocked (TradingCore.balances_ st)
  /\ TradingCore.total_pnl_ st = TradingCore.daily_pnl_ st
  /\ TradingCore.trade_history_ st = [].

(** The arguments of one call of [add_execution], with the clock value
    read by the call, and a sequence of such calls. *)
Record execution_report : Type := mkReport {
  report_id : string;
  report_quantity : Decimal;
  report_price : Decimal;
  report_fee : Decimal;
  report_fee_currency : string;
  report_time : Timestamp
}.

Definition record_execution (o : LimitOrder.t) (r : execution_report) : LimitOrder.t :=
  LimitOrder.add_execution (report_time r) (report_id r) (report_quantity r)
    (report_price r) (report_fee r) (report_fee_currency r) o.

Definition record_executions (rs : list execution_report) (o : LimitOrder.t) : LimitOrder.t :=
  fold_left record_execution rs o.

(** The fractional text as it goes to [stoll]: cut or zero-padded to 18
    characters. *)
Definition cut_or_pad (fractional_part : string) : string :=
  if (18 <? String.length fractional_part)%nat
  then substr 0 18 fractional_part
  else (fractional_part +:+
        string_repeat (18 - String.length fractional_part) zero_char)%string.

(** The last character of a text. *)
Fixpoint last_char (s : string) : option ascii :=
  match s with
  | EmptyString => None
  | String c EmptyString => Some c
  | String _ r => last_char r
  end.

#[local] Arguments String.append !_ _ / : simpl nomatch.

(** Linear goals over the bounds of [int64_t] and the scale. *)
Ltac int64_lia :=
  unfold INT64_MIN, INT64_MAX, Decimal.SCALE_FACTOR in *; lia.

(* ===================================================================== *)
(** ** Facts about 64-bit arithmetic and Decimal *)
(* ===================================================================== *)

Lemma in_int64_spec z : in_int64 z = true <-> INT64_MIN <= z <= INT64_MAX.
Proof. unfold in_int64. rewrite andb_true_iff, !Z.leb_le. reflexivity. Qed.

Lemma wrap64_small z : INT64_MIN <= z <= INT64_MAX -> wrap64 z = z.
Proof.
  unfold wrap64, INT64_MIN, INT64_MAX. intros H.
  rewrite Z.mod_small; lia.
Qed.

Lemma wrap64_range z : INT64_MIN <= wrap64 z <= INT64_MAX.
Proof.
  unfold wrap64, INT64_MIN, INT64_MAX.
  pose proof (Z.mod_pos_bound (z + 2 ^ 63) (2 ^ 64) ltac:(lia)). lia.
Qed.

Lemma Decimal_eq (a b : Decimal) : Decimal.value_ a = Decimal.value_ b -> a = b.
Proof. destruct a, b; simpl; congruence. Qed.

Lemma is_zero_spec (a : Decimal) : Decimal.is_zero a = true <-> a = Decimal.zero.
Proof.
  unfold Decimal.is_zero. rewrite Z.eqb_eq. split.
  - intros H. now apply Decimal_eq.
  - now intros ->.
Qed.

(** Where nothing overflows the operators are the exact fixed-point ones. *)
Lemma add_exact (a b : Decimal) :
  INT64_MIN <= Decimal.value_ a + Decimal.value_ b <= INT64_MAX ->
  Decimal.value_ (Decimal.add a b) = Decimal.value_ a + Decimal.value_ b.
Proof. intros H. simpl. now apply wrap64_small. Qed.

Lemma sub_exact (a b : Decimal) :
  INT64_MIN <= Decimal.value_ a - Decimal.value_ b <= INT64_MAX ->
  Decimal.value_ (Decimal.sub a b) = Decimal.value_ a - Decimal.value_ b.
Proof. intros H. simpl. now apply wrap64_small. Qed.

Lemma quot_scale_range z :
  INT64_MIN <= z <= INT64_MAX -> INT64_MIN <= Z.quot z Decimal.SCALE_FACTOR <= INT64_MAX.
Proof.
  unfold INT64_MIN, INT64_MAX, Decimal.SCALE_FACTOR. intros H.
  destruct (Z.le_gt_cases 0 z) as [Hz | Hz].
  - rewrite Z.quot_div_nonneg by lia.
    pose proof (Z.div_pos z 1000000000000000000 Hz ltac:(lia)).
    assert (z / 1000000000000000000 <= z) by (apply Z.div_le_upper_bound; lia).
    lia.
  - replace z with (- (- z)) by lia. rewrite Z.quot_opp_l by lia.
    rewrite Z.quot_div_nonneg by lia.
    pose proof (Z.div_pos (- z) 1000000000000000000 ltac:(lia) ltac:(lia)).
    assert (- z / 1000000000000000000 <= - z) by (apply Z.div_le_upper_bound; lia).
    lia.
Qed.

Lemma mul_exact (a b : Decimal) :
  INT64_MIN <= Decimal.value_ a * Decimal.value_ b <= INT64_MAX ->
  Decimal.value_ (Decimal.mul a b)
  = Z.quot (Decimal.value_ a * Decimal.value_ b) Decimal.SCALE_FACTOR.
Proof.
  intros H. simpl. rewrite (wrap64_small _ H).
  apply wrap64_small. now apply quot_scale_range.
Qed.

Lemma quot_bounded (x y : Z) : y <> 0 -> Z.abs (Z.quot x y) <= Z.abs x.
Proof.
  intros Hy. rewrite <- Z.quot_abs by assumption.
  rewrite Z.quot_div_nonneg by lia.
  apply Z.div_le_upper_bound; [lia |]. nia.
Qed.

Lemma div_exact (a b : Decimal) :
  INT64_MIN < Decimal.value_ a * Decimal.SCALE_FACTOR <= INT64_MAX ->
  Decimal.value_ b <> 0 ->
  Decimal.value_ (Decimal.div a b)
  = Z.quot (Decimal.value_ a * Decimal.SCALE_FACTOR) (Decimal.value_ b).
Proof.
  intros H Hb. simpl. rewrite (wrap64_small (_ * _)) by lia.
  apply wrap64_small.
  pose proof (quot_bounded (Decimal.value_ a * Decimal.SCALE_FACTOR) (Decimal.value_ b) Hb).
  int64_lia.
Qed.

(** Every operator returns a value in the [int64_t] range. *)
Lemma operators_wf (a b : Decimal) (n : Z) :
  Decimal.wf (Decimal.add a b) /\ Decimal.wf (Decimal.sub a b)
  /\ Decimal.wf (Decimal.mul a b) /\ Decimal.wf (Decimal.div a b)
  /\ Decimal.wf (Decimal.neg a) /\ Decimal.wf (Decimal.of_int64 n).
Proof.
  unfold Decimal.wf. repeat split; apply in_int64_spec, wrap64_range.
Qed.

(* ===================================================================== *)
(** ** Order book *)
(* ===================================================================== *)

Lemma best_bid_empty b : OrderBook.bids_ b = [] -> OrderBook.best_bid b = Decimal.zero.
Proof. unfold OrderBook.best_bid. now intros ->. Qed.

Lemma best_ask_empty b : OrderBook.asks_ b = [] -> OrderBook.best_ask b = Decimal.zero.
Proof. unfold OrderBook.best_ask. now intros ->. Qed.

(** When [is_valid] answers [false]: exactly when neither best price is
    the zero sentinel and the bid is not below the ask. *)
Lemma is_valid_false_iff b :
  OrderBook.is_valid b = false <->
  OrderBook.best_bid b <> Decimal.zero /\ OrderBook.best_ask b <> Decimal.zero
  /\ Decimal.value_ (OrderBook.best_ask b) <= Decimal.value_ (OrderBook.best_bid b).
Proof.
  unfold OrderBook.is_valid.
  destruct (Decimal.is_zero (OrderBook.best_bid b)) eqn:Hb;
    destruct (Decimal.is_zero (OrderBook.best_ask b)) eqn:Ha; simpl.
  - split; [discriminate |]. intros [H _]. apply is_zero_spec in Hb. contradiction.
  - split; [discriminate |]. intros [H _]. apply is_zero_spec in Hb. contradiction.
  - split; [discriminate |]. intros (_ & H & _). apply is_zero_spec in Ha. contradiction.
  - unfold Decimal.ltb. rewrite Z.ltb_ge. split.
    + intros H. repeat split; trivial; intros E; apply is_zero_spec in E; congruence.
    + now intros (_ & _ & H).
Qed.

(** A book that [is_valid] refuses is crossed. *)
Lemma invalid_is_crossed (b : OrderBook.t) :
  OrderBook.is_valid b = false -> crossed b = true.
Proof.
  intros Hv. apply is_valid_false_iff in Hv. destruct Hv as (Hb & Ha & Hle).
  unfold crossed.
  assert (OrderBook.bids_ b <> []) as Hbn by (intros E; now apply Hb, best_bid_empty).
  assert (OrderBook.asks_ b <> []) as Han by (intros E; now apply Ha, best_ask_empty).
  rewrite !bool_decide_eq_false_2 by assumption. simpl.
  unfold Decimal.geb. rewrite Z.geb_leb. now apply Z.leb_le.
Qed.

(** The same after any sequence of mutator calls. *)
Corollary is_valid_after_updates (ops : list book_op) (b : OrderBook.t) :
  crossed (run_book_ops ops b) = false -> OrderBook.is_valid (run_book_ops ops b) = true.
Proof.
  intros Hc. destruct (OrderBook.is_valid (run_book_ops ops b)) eqn:Hv; [reflexivity |].
  apply invalid_is_crossed in Hv. congruence.
Qed.

(** C8, as the code has it.  [is_valid] answers [false] exactly for a
    crossed book (both sides non-empty and best_bid >= best_ask) neither
    of whose best prices is zero.  So a book that is not crossed, because
    a side is empty or because best_bid < best_ask, is valid, also after
    any sequence of mutator calls; and a crossed book whose best bid or
    best ask is the price zero is valid as well. *)
Theorem is_valid_false_exactly (b : OrderBook.t) :
  (OrderBook.is_valid b = false
   <-> crossed b = true
       /\ OrderBook.best_bid b <> Decimal.zero
       /\ OrderBook.best_ask b <> Decimal.zero)
  /\ (crossed b = false -> OrderBook.is_valid b = true)
  /\ (forall ops : list book_op,
        crossed (run_book_ops ops b) = false ->
        OrderBook.is_valid (run_book_ops ops b) = true).
Proof.
  split; [split |].
  - intros Hv. split; [now apply invalid_is_crossed |].
    apply is_valid_false_iff in Hv. tauto.
  - intros (Hc & Hb & Ha). apply is_valid_false_iff. repeat split; trivial.
    unfold crossed in Hc. apply andb_true_iff in Hc. destruct Hc as [_ Hge].
    unfold Decimal.geb in Hge. rewrite Z.geb_leb in Hge. now apply Z.leb_le.
  - split.
    + intros Hc. destruct (OrderBook.is_valid b) eqn:Hv; [reflexivity |].
      apply invalid_is_crossed in Hv. congruence.
    + intros ops Hc. destruct (OrderBook.is_valid (run_book_ops ops b)) eqn:Hv; [reflexivity |].
      apply invalid_is_crossed in Hv. congruence.
Qed.

(** Both answers occur: a bid at 2 over an ask at 1 is refused, and the
    book with bids below its asks is accepted. *)
Lemma is_valid_false_exactly_witness :
  let b := fst (OrderBook.update_ask 2 (Decimal.lit "1") (Decimal.lit "1") 2
                  (fst (OrderBook.update_bid 1 (Decimal.lit "2") (Decimal.lit "1") 1
                          (OrderBook.create 0 Scenario.btc)))) in
  OrderBook.is_valid b = false
  /\ crossed Scenario.small_book = false
  /\ OrderBook.is_valid Scenario.small_book = true.
Proof.
  intros b. split.
  - apply (proj1 (is_valid_false_exactly b)). vm_compute. repeat split; discriminate.
  - assert (crossed Scenario.small_book = false) as H by (vm_compute; reflexivity).
    split; [exact H |].
    exact (proj1 (proj2 (is_valid_false_exactly Scenario.small_book)) H).
Defined.

(** C8 as stated fails: the book with a bid at 2 and an ask at the price
    zero has both sides non-empty and best_bid >= best_ask, and [is_valid]
    accepts it, the zero best ask being taken for an empty side. *)
Lemma zero_price_hides_crossing :
  let b := fst (OrderBook.update_ask 2 Decimal.zero (Decimal.lit "1") 2
                  (fst (OrderBook.update_bid 1 (Decimal.lit "2") (Decimal.lit "1") 1
                          (OrderBook.create 0 Scenario.btc)))) in
  OrderBook.bids_ b <> [] /\ OrderBook.asks_ b <> []
  /\ Decimal.value_ (OrderBook.best_ask b) <= Decimal.value_ (OrderBook.best_bid b)
  /\ crossed b = true /\ OrderBook.is_valid b = true.
Proof. vm_compute. repeat split; discriminate. Qed.

(** [update_bid] notifies every registered callback once. *)
Lemma update_bid_notifies now p a id b :
  snd (OrderBook.update_bid now p a id b)
  = map (fun cb => OrderBook.mkInvocation cb (OrderBook.symbol_ b)) (OrderBook.update_callbacks_ b).
Proof. reflexivity. Qed.

(** C10.  After [clear] both sides are empty and [last_update_id] is 0,
    so that [clear] lowers a positive [last_update_id] (here the 7 left by
    an update); [clear] calls no registered update callback. *)
Theorem clear_resets_update_id (now now' : Timestamp) (p a : Decimal) (b : OrderBook.t) :
  let cleared := OrderBook.clear now b in
  let updated := fst (OrderBook.update_bid now' p a 7 b) in
  OrderBook.bids_ (fst cleared) = []
  /\ OrderBook.asks_ (fst cleared) = []
  /\ OrderBook.last_update_id_ (fst cleared) = 0
  /\ snd cleared = []
  /\ OrderBook.update_callbacks_ (fst cleared) = OrderBook.update_callbacks_ b
  /\ OrderBook.last_update_id_ (fst (OrderBook.clear now updated))
     < OrderBook.last_update_id_ updated.
Proof. simpl. repeat split. Qed.

(* ===================================================================== *)
(** ** Order status *)
(* ===================================================================== *)


(** C7, as the code has it.  No operation looks at the current status:
    [set_status s] stores [s], [cancel] stores CANCELLED, [apply_fill]
    stores FILLED when the new filled quantity reaches the order quantity
    and PARTIAL otherwise, [add_execution] and [set_filled_quantity] store
    FILLED, or PARTIAL for a positive filled quantity below the order
    quantity, and keep the status otherwise.  A terminal status therefore
    survives an operation only when the operation computes that same
    status. *)
Theorem status_after_operation (now : Timestamp) (o : LimitOrder.t)
    (s : OrderStatus) (q px fee : Decimal) (id cur : string) :
  LimitOrder.status_ (LimitOrder.set_status now s o) = s
  /\ LimitOrder.status_ (LimitOrder.cancel now o) = CANCELLED
  /\ LimitOrder.status_ (LimitOrder.apply_fill now q px o)
     = (if Decimal.geb (Decimal.add (LimitOrder.filled_quantity_ o) q) (LimitOrder.quantity_ o)
        then FILLED else PARTIAL)
  /\ LimitOrder.status_ (LimitOrder.add_execution now id q px fee cur o)
     = fill_status (Decimal.add (LimitOrder.filled_quantity_ o) q) (LimitOrder.quantity_ o)
         (LimitOrder.status_ o)
  /\ LimitOrder.status_ (LimitOrder.set_filled_quantity now q o)
     = fill_status q (LimitOrder.quantity_ o) (LimitOrder.status_ o).
Proof. repeat split. Qed.

(** C7 as stated fails: [cancel] takes a FILLED order to CANCELLED,
    [apply_fill] takes a CANCELLED order to PARTIAL, [set_status] takes a
    REJECTED order to OPEN. *)
Lemma terminal_status_is_left :
  is_terminal (LimitOrder.status_ Scenario.filled_order) = true
  /\ LimitOrder.status_ (LimitOrder.cancel 3 Scenario.filled_order)
     <> LimitOrder.status_ Scenario.filled_order
  /\ is_terminal (LimitOrder.status_ Scenario.cancelled_order) = true
  /\ LimitOrder.status_
       (LimitOrder.apply_fill 3 (Decimal.lit "0.5") (Decimal.lit "2") Scenario.cancelled_order)
     = PARTIAL
  /\ is_terminal (LimitOrder.status_ Scenario.rejected_order) = true
  /\ LimitOrder.status_ (LimitOrder.set_status 3 OPEN Scenario.rejected_order) = OPEN.
Proof. vm_compute. repeat split; discriminate. Qed.

(* ===================================================================== *)
(** ** Trading core: order submission *)
(* ===================================================================== *)

Lemma validate_order_false_iff (o : LimitOrder.t) :
  TradingCore.validate_order o = false <-> validation_fails o.
Proof.
  unfold TradingCore.validate_order, validation_fails.
  unfold Decimal.is_zero, Decimal.is_negative.
  destruct (String.eqb_spec (LimitOrder.client_order_id_ o) EmptyString) as [Hid | Hid];
    [tauto |].
  destruct (String.eqb_spec (LimitOrder.trading_pair_ o) EmptyString) as [Hp | Hp];
    [tauto |].
  destruct (Z.eqb_spec (Decimal.value_ (LimitOrder.quantity_ o)) 0) as [Hq0 | Hq0];
    simpl; [split; [intros _; right; right; left; lia | reflexivity] |].
  destruct (Z.ltb_spec (Decimal.value_ (LimitOrder.quantity_ o)) 0) as [Hq | Hq];
    simpl; [split; [intros _; right; right; left; lia | reflexivity] |].
  destruct (decide (LimitOrder.type_ o = LIMIT)) as [Ht | Ht].
  - rewrite bool_decide_eq_true_2 by assumption. simpl.
    destruct (Z.eqb_spec (Decimal.value_ (LimitOrder.price_ o)) 0) as [Hp0 | Hp0];
      simpl; [split; [intros _; right; right; right; split; [assumption | lia] | reflexivity] |].
    destruct (Z.ltb_spec (Decimal.value_ (LimitOrder.price_ o)) 0) as [Hpn | Hpn];
      simpl; [split; [intros _; right; right; right; split; [assumption | lia] | reflexivity] |].
    split; [discriminate |]. intros [H | [H | [H | [_ H]]]]; try contradiction; lia.
  - rewrite bool_decide_eq_false_2 by assumption. simpl.
    split; [discriminate |]. intros [H | [H | [H | [H _]]]]; try contradiction; lia.
Qed.

(** C3, as the code has it.  In every state, [submit_order] returns
    [false] and leaves the core unchanged whenever validation fails (empty
    id, empty pair, quantity <= 0, LIMIT with price <= 0).  The id is not
    looked up before the order is stored: an order that passes validation
    and the risk checks is stored (as OPEN) under its id and
    [submit_order] returns [true], whatever the map held under that id
    before; the orders under other ids stay. *)
Theorem submit_order_validation (now : Timestamp) (order : LimitOrder.t)
    (st : TradingCore.t) :
  (validation_fails order -> TradingCore.submit_order now order st = (false, st))
  /\ (TradingCore.validate_order order = true ->
      TradingCore.check_risk_limits st order = true ->
      fst (TradingCore.submit_order now order st) = true
      /\ TradingCore.active_orders_ (snd (TradingCore.submit_order now order st))
           !! LimitOrder.client_order_id_ order
         = Some (LimitOrder.set_status now OPEN order)
      /\ forall id : string,
           id <> LimitOrder.client_order_id_ order ->
           TradingCore.active_orders_ (snd (TradingCore.submit_order now order st)) !! id
           = TradingCore.active_orders_ st !! id).
Proof.
  split.
  - intros Hbad. apply validate_order_false_iff in Hbad.
    unfold TradingCore.submit_order. now rewrite Hbad.
  - intros Hv Hr. unfold TradingCore.submit_order. rewrite Hv, Hr. simpl.
    split_and!; [reflexivity | apply lookup_insert_eq |].
    intros id Hid. now apply lookup_insert_ne.
Qed.

(** A refused order on the core of a new, initialized engine, which
    accepts no order at all; and an accepted one on a core without
    limits. *)
Lemma submit_order_validation_witness :
  TradingCore.submit_order 6 Scenario.no_id_order (TradingCore.initialize TradingCore.create)
  = (false, TradingCore.initialize TradingCore.create)
  /\ TradingCore.submit_order 6 Scenario.no_id_order Scenario.core_with_first
     = (false, Scenario.core_with_first)
  /\ fst (TradingCore.submit_order 6 Scenario.second_order Scenario.core_with_first) = true
  /\ TradingCore.active_orders_
       (snd (TradingCore.submit_order 6 Scenario.second_order Scenario.core_with_first))
       !! LimitOrder.client_order_id_ Scenario.second_order
     = Some (LimitOrder.set_status 6 OPEN Scenario.second_order).
Proof.
  assert (validation_fails Scenario.no_id_order) as H1 by (left; reflexivity).
  assert (TradingCore.validate_order Scenario.second_order = true) as H2 by reflexivity.
  assert (TradingCore.check_risk_limits Scenario.core_with_first Scenario.second_order = true)
    as H3 by reflexivity.
  split; [| split].
  - exact (proj1 (submit_order_validation 6 Scenario.no_id_order
                    (TradingCore.initialize TradingCore.create)) H1).
  - exact (proj1 (submit_order_validation 6 Scenario.no_id_order Scenario.core_with_first) H1).
  - destruct (proj2 (submit_order_validation 6 Scenario.second_order Scenario.core_with_first)
                H2 H3) as (Ha & Hb & _).
    split; [exact Ha | exact Hb].
Defined.

(** C3 as stated fails on its last part: with "ORD-1" stored, a second
    valid order under the id "ORD-1" is accepted and replaces it. *)
Lemma duplicate_id_is_accepted :
  TradingCore.active_orders_ Scenario.core_with_first !! "ORD-1"%string
  = Some (LimitOrder.set_status 2 OPEN Scenario.first_order)
  /\ LimitOrder.client_order_id_ Scenario.second_order = "ORD-1"%string
  /\ fst (TradingCore.submit_order 6 Scenario.second_order Scenario.core_with_first) <> false
  /\ TradingCore.active_orders_
       (snd (TradingCore.submit_order 6 Scenario.second_order Scenario.core_with_first))
       !! "ORD-1"%string
     <> TradingCore.active_orders_ Scenario.core_with_first !! "ORD-1"%string.
Proof.
  split; [reflexivity |]. split; [reflexivity |]. split; [vm_compute; discriminate |].
  vm_compute. discriminate.
Qed.

(** A rejected order changes nothing but the event queue. *)
Lemma submit_order_keeps_orders_when_refused now o st :
  fst (TradingCore.submit_order now o st) = false ->
  TradingCore.active_orders_ (snd (TradingCore.submit_order now o st))
  = TradingCore.active_orders_ st.
Proof.
  unfold TradingCore.submit_order.
  destruct (TradingCore.validate_order o); simpl; [| reflexivity].
  destruct (TradingCore.check_risk_limits st o); simpl; [discriminate |].
  now destruct (TradingCore.on_order_rejected (TradingCore.callbacks_ st)).
Qed.

(** The calls made while the event thread empties a queue. *)
Lemma process_events_calls (q : list TradingCore.event) :
  forall (n : nat) (st : TradingCore.t),
    TradingCore.running_ st = true ->
    TradingCore.event_queue_ st = q ->
    (length q <= n)%nat ->
    snd (TradingCore.process_events n st) = concat (map (TradingCore.run_event st) q).
Proof.
  induction q as [| ev q IH]; intros n st Hrun Hq Hn.
  - clear Hn. induction n as [| n IHn]; simpl; [reflexivity |].
    now rewrite Hrun, Hq.
  - destruct n as [| n]; [simpl in Hn; lia |].
    simpl. rewrite Hrun, Hq.
    specialize (IH n (TradingCore.set_event_queue st q) Hrun eq_refl
                  ltac:(simpl in Hn; lia)).
    destruct (TradingCore.process_events n (TradingCore.set_event_queue st q))
      as [st' calls'] eqn:E.
    simpl in *. now rewrite IH.
Qed.

(** C4.  With [max_order_size = 1.0] and order limits enabled, a valid
    limit order of quantity 1.5 on BTC-USDT is refused: [submit_order]
    returns [false], the active orders are unchanged, one rejection event
    carrying the order (hence its client_order_id) is queued, and the
    running event thread calls [on_order_rejected] exactly once more than
    it would have, with that order. *)
Theorem oversized_order_rejected (now : Timestamp) (order : LimitOrder.t)
    (st : TradingCore.t) (n : nat) :
  TradingCore.enable_order_limits (TradingCore.risk_limits_ st) = true ->
  TradingCore.max_order_size (TradingCore.risk_limits_ st) = Decimal.lit "1.0" ->
  TradingCore.on_order_rejected (TradingCore.callbacks_ st) = true ->
  TradingCore.running_ st = true ->
  TradingCore.validate_order order = true ->
  LimitOrder.type_ order = LIMIT ->
  LimitOrder.trading_pair_ order = "BTC-USDT"%string ->
  LimitOrder.quantity_ order = Decimal.lit "1.5" ->
  (length (TradingCore.event_queue_ st) < n)%nat ->
  let result := TradingCore.submit_order now order st in
  fst result = false
  /\ TradingCore.active_orders_ (snd result) = TradingCore.active_orders_ st
  /\ TradingCore.event_queue_ (snd result)
     = TradingCore.event_queue_ st ++ [TradingCore.ev_order_rejected order]
  /\ snd (TradingCore.process_events n (snd result))
     = snd (TradingCore.process_events n st) ++ [TradingCore.call_on_order_rejected order].
Proof.
  intros Hen Hmax Hcb Hrun Hv _ _ Hq Hn result.
  assert (TradingCore.check_risk_limits st order = false) as Hr.
  { unfold TradingCore.check_risk_limits, TradingCore.order_size_check.
    now rewrite Hen, Hmax, Hq. }
  assert (result = (false, TradingCore.push_event st (TradingCore.ev_order_rejected order)))
    as ->.
  { unfold result, TradingCore.submit_order. now rewrite Hv, Hr, Hcb. }
  simpl. repeat split.
  rewrite (process_events_calls
             (TradingCore.event_queue_ st ++ [TradingCore.ev_order_rejected order]) n
             (TradingCore.push_event st (TradingCore.ev_order_rejected order)))
    by (trivial; rewrite length_app; simpl; lia).
  rewrite (process_events_calls (TradingCore.event_queue_ st) n st) by (trivial; lia).
  rewrite map_app, concat_app. simpl. unfold TradingCore.push_event. simpl.
  rewrite Hcb. simpl. reflexivity.
Qed.

Lemma oversized_order_rejected_witness :
  TradingCore.max_order_size (TradingCore.risk_limits_ Scenario.limited_core)
  = Decimal.lit "1.0"
  /\ TradingCore.validate_order Scenario.big_order = true
  /\ LimitOrder.quantity_ Scenario.big_order = Decimal.lit "1.5"
  /\ let result := TradingCore.submit_order 2 Scenario.big_order Scenario.limited_core in
     fst result = false
     /\ TradingCore.active_orders_ (snd result)
        = TradingCore.active_orders_ Scenario.limited_core
     /\ TradingCore.event_queue_ (snd result)
        = TradingCore.event_queue_ Scenario.limited_core
          ++ [TradingCore.ev_order_rejected Scenario.big_order]
     /\ snd (TradingCore.process_events 3 (snd result))
        = snd (TradingCore.process_events 3 Scenario.limited_core)
          ++ [TradingCore.call_on_order_rejected Scenario.big_order].
Proof.
  split; [reflexivity |]. split; [reflexivity |]. split; [reflexivity |].
  apply (oversized_order_rejected 2 Scenario.big_order Scenario.limited_core 3);
    first [reflexivity | simpl; lia].
Defined.

(* ===================================================================== *)
(** ** Trading core: snapshot and reset *)
(* ===================================================================== *)

(** C2, as the code has it.  [import_state] is a stub: it returns
    [false] and changes nothing.  After [export_state], [reset] and
    [import_state] of the exported string, the positions and balances are
    empty, [total_pnl] and [daily_pnl] are zero, and the active orders and
    the order books are empty. *)
Theorem import_state_restores_nothing (st : TradingCore.t) :
  let snapshot := TradingCore.export_state st in
  let after_reset := TradingCore.reset st in
  let result := TradingCore.import_state snapshot after_reset in
  fst result = false
  /\ snd result = after_reset
  /\ TradingCore.positions_ (snd result) = ∅
  /\ TradingCore.balances_ (snd result) = ∅
  /\ TradingCore.total_pnl_ (snd result) = Decimal.zero
  /\ TradingCore.daily_pnl_ (snd result) = Decimal.zero
  /\ TradingCore.active_orders_ (snd result) = ∅
  /\ TradingCore.order_books_ (snd result) = ∅.
Proof. simpl. repeat split. Qed.

(** C2 as stated fails: for a core holding a position, a balance and
    some P&L, the import returns [false] and none of them comes back. *)
Lemma snapshot_is_not_restored :
  let snapshot := TradingCore.export_state Scenario.funded_core in
  let result := TradingCore.import_state snapshot (TradingCore.reset Scenario.funded_core) in
  fst result <> true
  /\ TradingCore.positions_ (snd result) !! Scenario.btc
     <> TradingCore.positions_ Scenario.funded_core !! Scenario.btc
  /\ TradingCore.balances_ (snd result) !! "USDT"%string
     <> TradingCore.balances_ Scenario.funded_core !! "USDT"%string
  /\ TradingCore.total_pnl_ (snd result) <> TradingCore.total_pnl_ Scenario.funded_core
  /\ TradingCore.daily_pnl_ (snd result) <> TradingCore.daily_pnl_ Scenario.funded_core.
Proof. vm_compute. repeat split; discriminate. Qed.

(* ===================================================================== *)
(** ** Trading core: fills *)
(* ===================================================================== *)

(** [operator*] never returns more than 9 raw units in magnitude: the
    64-bit product is divided by 10^18. *)
Lemma mul_magnitude (a b : Decimal) : Z.abs (Decimal.value_ (Decimal.mul a b)) <= 9.
Proof.
  simpl. pose proof (wrap64_range (Decimal.value_ a * Decimal.value_ b)) as Hr.
  set (w := wrap64 (Decimal.value_ a * Decimal.value_ b)) in *.
  assert (Z.abs (Z.quot w Decimal.SCALE_FACTOR) <= 9) as Hq.
  { rewrite <- Z.quot_abs by (unfold Decimal.SCALE_FACTOR; lia).
    rewrite Z.quot_div_nonneg by (unfold Decimal.SCALE_FACTOR; lia).
    assert (Z.abs w / Z.abs Decimal.SCALE_FACTOR < 10); [| lia].
    apply Z.div_lt_upper_bound; int64_lia. }
  rewrite wrap64_small; [exact Hq | int64_lia].
Qed.

(** So the amount a SELL fill adds to the realized P&L of the position
    and to both P&L totals is never more than 9 raw units in magnitude,
    whatever the quantity and the prices. *)
Lemma sell_realizes_raw_units (now : Timestamp) (trade : TradingCore.Trade)
    (st : TradingCore.t) :
  TradingCore.trade_side trade = SELL ->
  exists realized : Decimal,
    Z.abs (Decimal.value_ realized) <= 9
    /\ TradingCore.realized_pnl
         (TradingCore.get_position (TradingCore.trade_symbol trade)
            (TradingCore.update_position now trade st))
       = Decimal.add
           (TradingCore.realized_pnl
              (TradingCore.get_position (TradingCore.trade_symbol trade) st))
           realized
    /\ TradingCore.total_pnl_ (TradingCore.update_position now trade st)
       = Decimal.add (TradingCore.total_pnl_ st) realized
    /\ TradingCore.daily_pnl_ (TradingCore.update_position now trade st)
       = Decimal.add (TradingCore.daily_pnl_ st) realized.
Proof.
  intros Hside.
  exists (Decimal.mul (TradingCore.trade_quantity trade)
            (Decimal.sub (TradingCore.trade_price trade)
               (TradingCore.average_price
                  (TradingCore.get_position (TradingCore.trade_symbol trade) st)))).
  split; [apply mul_magnitude |].
  unfold TradingCore.update_position. rewrite Hside. simpl.
  unfold TradingCore.get_position at 1. simpl. rewrite lookup_insert_eq. simpl.
  repeat split.
Qed.


(* ===================================================================== *)
(** ** Trading core: the daily loss limit *)
(* ===================================================================== *)

(** Unary minus multiplies the negated raw value by [SCALE_FACTOR]. *)
Lemma neg_value (a : Decimal) :
  INT64_MIN < Decimal.value_ a ->
  Decimal.value_ a <= INT64_MAX ->
  Decimal.value_ (Decimal.neg a) = wrap64 (- Decimal.value_ a * Decimal.SCALE_FACTOR).
Proof.
  intros Hlo Hhi. unfold Decimal.neg, Decimal.of_int64. simpl.
  rewrite (wrap64_small (- Decimal.value_ a)); [reflexivity |].
  int64_lia.
Qed.

(** The loss check compares [daily_pnl_] with that scaled value. *)
Lemma daily_loss_check_spec (st : TradingCore.t) :
  TradingCore.enable_loss_limits (TradingCore.risk_limits_ st) = true ->
  TradingCore.daily_loss_check st
  = negb (Decimal.value_ (TradingCore.daily_pnl_ st)
          <? wrap64 (wrap64 (- Decimal.value_
                                 (TradingCore.max_daily_loss (TradingCore.risk_limits_ st)))
                     * Decimal.SCALE_FACTOR)).
Proof. unfold TradingCore.daily_loss_check. now intros ->. Qed.

(** C5 at two inputs.  With [max_daily_loss = 0.000000000000000005] and
    [daily_pnl = -1] (no overflow anywhere) the loss is far below the
    negated limit, yet [-max_daily_loss] evaluates to [-5] and the order
    passes.  With [max_daily_loss = 1.0] and [daily_pnl = 0] the scaled
    negation wraps to a positive value and the order is refused although
    nothing was lost. *)
Lemma daily_loss_limit_misjudged :
  let tiny := Decimal.lit "0.000000000000000005" in
  let lost := Decimal.lit "-1" in
  Decimal.value_ lost < - Decimal.value_ tiny
  /\ Decimal.neg tiny = Decimal.lit "-5"
  /\ TradingCore.check_risk_limits (Scenario.loss_core tiny lost) Scenario.first_order = true
  /\ - Decimal.value_ (Decimal.lit "1.0") <= Decimal.value_ Decimal.zero
  /\ Decimal.value_ (Decimal.neg (Decimal.lit "1.0")) = 5527149226598858752
  /\ TradingCore.check_risk_limits (Scenario.loss_core (Decimal.lit "1.0") Decimal.zero)
       Scenario.first_order = false.
Proof. vm_compute. repeat split; discriminate. Qed.

(** With the defaults installed by [initialize] (max_daily_loss =
    "10000.0", which already overflows when parsed) the negated limit is
    positive, and a core that has lost nothing refuses every order. *)
Lemma default_limits_refuse_orders (order : LimitOrder.t) :
  let st := TradingCore.initialize TradingCore.create in
  TradingCore.daily_pnl_ st = Decimal.zero
  /\ TradingCore.check_risk_limits st order = false.
Proof.
  split; [reflexivity |]. unfold TradingCore.check_risk_limits.
  destruct (TradingCore.order_size_check _ order); [| reflexivity].
  destruct (TradingCore.position_size_check _ order); reflexivity.
Qed.

(* ===================================================================== *)
(** ** Order book: impact price *)
(* ===================================================================== *)

(** No [int64_t] holds a raw value of 10 or more units. *)
Lemma decimal_below_ten (d : Decimal) (n : Z) :
  Decimal.wf d -> 10 <= n -> Decimal.value_ d <> n * Decimal.SCALE_FACTOR.
Proof.
  unfold Decimal.wf. rewrite in_int64_spec.
  int64_lia.
Qed.

(** C6 at the book of the design document (asks 1.2 at 50000 and 0.8 at
    50050).  The prices do not fit a Decimal; the impact price of a buy of
    1.5 comes out as 0.000000000000000004, which is neither the value
    50010 nor what the literal "50010" evaluates to.  A buy of 3.0 exceeds
    the 2.0 on offer and gives zero. *)
Lemma impact_price_of_spec_book :
  map OrderBook.amount (OrderBook.asks_ Scenario.spec_book)
  = [Decimal.lit "1.2"; Decimal.lit "0.8"]
  /\ OrderBook.get_impact_price true (Decimal.lit "1.5") Scenario.spec_book = Decimal.mk 4
  /\ Decimal.value_ (OrderBook.get_impact_price true (Decimal.lit "1.5") Scenario.spec_book)
     <> 50010 * Decimal.SCALE_FACTOR
  /\ OrderBook.get_impact_price true (Decimal.lit "1.5") Scenario.spec_book
     <> Decimal.lit "50010"
  /\ OrderBook.get_impact_price true (Decimal.lit "3.0") Scenario.spec_book = Decimal.zero.
Proof. vm_compute. repeat split; discriminate. Qed.

(* ===================================================================== *)
(** ** Decimal: text round trip *)
(* ===================================================================== *)


Lemma string_app_assoc (s1 s2 s3 : string) :
  ((s1 +:+ s2) +:+ s3 = s1 +:+ (s2 +:+ s3))%string.
Proof. induction s1 as [| c r IH]; simpl; [reflexivity | now f_equal]. Qed.

Lemma string_app_nil_r (s : string) : (s +:+ EmptyString)%string = s.
Proof. induction s as [| c r IH]; simpl; [reflexivity | now f_equal]. Qed.

Lemma string_app_length (s1 s2 : string) :
  String.length (s1 +:+ s2) = (String.length s1 + String.length s2)%nat.
Proof. induction s1 as [| c r IH]; simpl; [reflexivity | now f_equal]. Qed.

Lemma string_repeat_length n c : String.length (string_repeat n c) = n.
Proof. induction n as [| n IH]; simpl; [reflexivity | now f_equal]. Qed.

Lemma digit_char_code d : 0 <= d <= 9 -> char_code (digit_char d) = 48 + d.
Proof.
  intros H.
  assert (d = 0 \/ d = 1 \/ d = 2 \/ d = 3 \/ d = 4 \/ d = 5 \/ d = 6 \/ d = 7
          \/ d = 8 \/ d = 9) as Hd by lia.
  repeat (destruct Hd as [-> | Hd]; [reflexivity |]). subst. reflexivity.
Qed.

Lemma digit_char_is_digit d : 0 <= d <= 9 -> is_digit (digit_char d) = true.
Proof.
  intros H. unfold is_digit. rewrite digit_char_code by assumption.
  apply andb_true_iff. split; apply Z.leb_le; lia.
Qed.

Lemma digit_char_val d : 0 <= d <= 9 -> digit_val (digit_char d) = d.
Proof. intros H. unfold digit_val. rewrite digit_char_code by assumption. lia. Qed.


Lemma parse_digits_app s1 : forall acc s2,
  all_digits s1 = true ->
  parse_digits acc (s1 +:+ s2) = parse_digits (parse_digits acc s1) s2.
Proof.
  induction s1 as [| c r IH]; intros acc s2 H; simpl in *; [reflexivity |].
  apply andb_true_iff in H as [Hc Hr]. rewrite Hc. now apply IH.
Qed.

Lemma all_digits_app s1 s2 :
  all_digits s1 = true -> all_digits s2 = true -> all_digits (s1 +:+ s2) = true.
Proof.
  induction s1 as [| c r IH]; simpl; intros H1 H2; [assumption |].
  apply andb_true_iff in H1 as [Hc Hr]. rewrite Hc. simpl. now apply IH.
Qed.

Lemma render_digits_acc fuel : forall n acc,
  render_digits fuel n acc = (render_digits fuel n EmptyString +:+ acc)%string.
Proof.
  induction fuel as [| f IH]; intros n acc; simpl; [reflexivity |].
  destruct (n <? 10); [reflexivity |].
  rewrite (IH (n / 10) (String _ acc)), (IH (n / 10) (String _ EmptyString)).
  now rewrite string_app_assoc.
Qed.

(** The digits written for [0 <= n < 10^k] are at most [k], all of them
    digits, and read back as [n]. *)
Lemma render_digits_spec fuel : forall (k : nat) n,
  (1 <= k <= fuel)%nat -> 0 <= n < 10 ^ Z.of_nat k ->
  let s := render_digits fuel n EmptyString in
  all_digits s = true
  /\ (1 <= String.length s <= k)%nat
  /\ parse_digits 0 s = n.
Proof.
  induction fuel as [| f IH]; intros k n Hk Hn; [lia |].
  simpl. destruct (Z.ltb_spec n 10) as [Hlt | Hge].
  - rewrite Z.mod_small by lia. simpl.
    rewrite digit_char_is_digit, digit_char_val by lia. simpl.
    repeat split; lia.
  - destruct k as [| [| k]]; [lia | simpl in Hn; lia |].
    assert (0 <= n / 10 < 10 ^ Z.of_nat (S k)) as Hq.
    { split; [apply Z.div_pos; lia |].
      apply Z.div_lt_upper_bound; [lia |].
      replace (Z.of_nat (S (S k))) with (Z.of_nat (S k) + 1) in Hn by lia.
      rewrite Z.pow_add_r, Z.pow_1_r in Hn by lia. lia. }
    destruct (IH (S k) (n / 10) ltac:(lia) Hq) as (Hd & Hl & Hp).
    pose proof (Z.mod_pos_bound n 10 ltac:(lia)) as Hm.
    rewrite render_digits_acc. cbv zeta in *.
    repeat split.
    + apply all_digits_app; [assumption |]. simpl.
      now rewrite digit_char_is_digit by lia.
    + rewrite string_app_length. simpl. lia.
    + rewrite string_app_length. simpl. lia.
    + rewrite parse_digits_app by assumption. rewrite Hp. simpl.
      rewrite digit_char_is_digit, digit_char_val by lia.
      pose proof (Z.div_mod n 10 ltac:(lia)). lia.
Qed.

Lemma render_digits_one fuel d acc : 0 <= d <= 9 ->
  render_digits (S fuel) d acc = String (digit_char d) acc.
Proof.
  intros H. cbn [render_digits].
  destruct (Z.ltb_spec d 10); [| lia]. now rewrite Z.mod_small by lia.
Qed.

Lemma render_one_digit d : 0 <= d <= 9 ->
  to_string_int64 d = String (digit_char d) EmptyString.
Proof.
  intros H. unfold to_string_int64.
  destruct (Z.ltb_spec d 0); [lia |]. now apply (render_digits_one 19).
Qed.

Lemma parse_digits_zeros k : forall acc s,
  parse_digits acc (string_repeat k zero_char +:+ s)
  = parse_digits (acc * 10 ^ Z.of_nat k) s.
Proof.
  induction k as [| k IH]; intros acc s.
  - simpl. f_equal. lia.
  - cbn [string_repeat String.append parse_digits].
    replace (is_digit zero_char) with true by reflexivity.
    rewrite IH. f_equal.
    replace (digit_val zero_char) with 0 by reflexivity.
    rewrite Nat2Z.inj_succ, Z.pow_succ_r by lia. lia.
Qed.

Lemma all_digits_zeros k : all_digits (string_repeat k zero_char) = true.
Proof. induction k as [| k IH]; simpl; [reflexivity | assumption]. Qed.

(** Stripping the trailing zeros and padding back to the length. *)
Lemma strip_then_pad (s : string) :
  (strip_trailing_zeros s
   +:+ string_repeat (String.length s - String.length (strip_trailing_zeros s)) zero_char)%string
  = s
  /\ (String.length (strip_trailing_zeros s) <= String.length s)%nat.
Proof.
  induction s as [| c r [IH Hl]]; [split; reflexivity |].
  simpl. destruct (strip_trailing_zeros r) as [| c' r'] eqn:E.
  - simpl in IH. rewrite Nat.sub_0_r in IH.
    destruct (Ascii.eqb_spec c zero_char) as [-> | Hc]; simpl;
      rewrite ?Nat.sub_0_r, IH; split; [reflexivity | lia | reflexivity | lia].
  - simpl in *. rewrite IH. split; [reflexivity | lia].
Qed.

Lemma strip_empty_zero (s : string) :
  all_digits s = true -> strip_trailing_zeros s = EmptyString -> parse_digits 0 s = 0.
Proof.
  induction s as [| c r IH]; simpl; intros Hd Hs; [reflexivity |].
  apply andb_true_iff in Hd as [Hc Hr]. rewrite Hc.
  destruct (strip_trailing_zeros r) eqn:E; [| discriminate].
  destruct (Ascii.eqb_spec c zero_char) as [-> | Hne]; [| discriminate].
  now apply IH.
Qed.

Lemma digit_not_space_sign (c : ascii) :
  is_digit c = true ->
  is_space c = false /\ Ascii.eqb c "-" = false /\ Ascii.eqb c "+" = false
  /\ Ascii.eqb c "." = false.
Proof.
  intros H. repeat split.
  - unfold is_digit in H. apply andb_true_iff in H as [H1 H2].
    apply Z.leb_le in H1, H2. unfold is_space.
    apply orb_false_iff. split; [apply Z.eqb_neq; lia |].
    apply andb_false_iff. right. apply Z.leb_gt. lia.
  - destruct (Ascii.eqb_spec c "-") as [-> | _]; [discriminate H | reflexivity].
  - destruct (Ascii.eqb_spec c "+") as [-> | _]; [discriminate H | reflexivity].
  - destruct (Ascii.eqb_spec c ".") as [-> | _]; [discriminate H | reflexivity].
Qed.

(** [stoll] on a non-empty string of digits. *)
Lemma stoll_digits (s : string) :
  s <> EmptyString -> all_digits s = true -> in_int64 (parse_digits 0 s) = true ->
  stoll s = Some (parse_digits 0 s).
Proof.
  destruct s as [| c r]; [congruence |]. intros _ Hd Hr.
  pose proof Hd as Hd'. simpl in Hd'. apply andb_true_iff in Hd' as [Hc _].
  destruct (digit_not_space_sign c Hc) as (Hsp & Hm & Hp & _).
  unfold stoll. cbn [skip_space]. rewrite Hsp, Hm, Hp, Hc.
  cbv zeta. now rewrite Hr.
Qed.


Lemma parse_unsigned_magnitude (ip fp : Z) :
  0 <= ip <= 9 -> 0 <= fp < Decimal.SCALE_FACTOR ->
  ip * Decimal.SCALE_FACTOR + fp <= INT64_MAX ->
  Decimal.parse_unsigned (magnitude_text ip fp) = Some (ip * Decimal.SCALE_FACTOR + fp).
Proof.
  intros Hip Hfp Hmax. unfold magnitude_text. rewrite render_one_digit by assumption.
  pose proof (digit_char_is_digit ip Hip) as Hd.
  destruct (digit_not_space_sign _ Hd) as (_ & _ & _ & Hdot).
  assert (stoll (String (digit_char ip) EmptyString) = Some ip) as Hint.
  { rewrite stoll_digits.
    - simpl. rewrite Hd, digit_char_val by assumption. f_equal; lia.
    - discriminate.
    - simpl. now rewrite Hd.
    - simpl. rewrite Hd, digit_char_val by assumption.
      apply in_int64_spec. unfold INT64_MIN, INT64_MAX. lia. }
  assert (wrap64 (ip * Decimal.SCALE_FACTOR) = ip * Decimal.SCALE_FACTOR) as Hw1.
  { apply wrap64_small. int64_lia. }
  destruct (Z.gtb_spec fp 0) as [Hpos | Hzero].
  - (* a fractional part is written *)
    set (R := to_string_int64 fp).
    destruct (render_digits_spec 20 18 fp ltac:(lia)
                ltac:(unfold Decimal.SCALE_FACTOR in Hfp; simpl; lia)) as (HRd & HRl & HRp).
    assert (R = render_digits 20 fp EmptyString) as HR.
    { unfold R, to_string_int64. destruct (Z.ltb_spec fp 0); [lia | reflexivity]. }
    rewrite <- HR in HRd, HRl, HRp.
    set (P := (string_repeat (18 - String.length R) zero_char +:+ R)%string).
    assert (all_digits P = true) as HPd
      by (apply all_digits_app; [apply all_digits_zeros | assumption]).
    assert (String.length P = 18%nat) as HPl
      by (unfold P; rewrite string_app_length, string_repeat_length; lia).
    assert (parse_digits 0 P = fp) as HPp
      by (unfold P; rewrite parse_digits_zeros; simpl; assumption).
    destruct (strip_then_pad P) as [Hpad Hlen]. rewrite HPl in Hpad, Hlen.
    set (F := strip_trailing_zeros P) in *.
    assert (F <> EmptyString) as HF.
    { intros E. pose proof (strip_empty_zero P HPd E). lia. }
    change (String (digit_char ip) EmptyString +:+ "." +:+ F)%string
      with (String (digit_char ip) (String "." F)).
    assert (Decimal.parse_unsigned (String (digit_char ip) (String "." F))
            = Decimal.parse_parts (String (digit_char ip) EmptyString) F) as ->.
    { unfold Decimal.parse_unsigned. cbn [string_find]. now rewrite Hdot. }
    unfold Decimal.parse_parts. rewrite Hint.
    destruct F as [| f0 F'] eqn:EF; [congruence |]. rewrite <- EF in *.
    replace (18 <? String.length F)%nat with false
      by (symmetry; apply Nat.ltb_ge; assumption).
    rewrite Hpad, stoll_digits, HPp, Hw1.
    + f_equal. apply wrap64_small. int64_lia.
    + intros E. rewrite E in HPl. discriminate.
    + assumption.
    + rewrite HPp. apply in_int64_spec.
      int64_lia.
  - (* an integer *)
    assert (fp = 0) as -> by lia.
    rewrite string_app_nil_r.
    assert (Decimal.parse_unsigned (String (digit_char ip) EmptyString)
            = Decimal.parse_parts (String (digit_char ip) EmptyString) EmptyString) as ->.
    { unfold Decimal.parse_unsigned. cbn [string_find]. now rewrite Hdot. }
    unfold Decimal.parse_parts. rewrite Hint, Hw1.
    f_equal. apply wrap64_small. int64_lia.
Qed.

Lemma to_string_shape (d : Decimal) :
  Decimal.value_ d <> 0 -> INT64_MIN < Decimal.value_ d -> Decimal.value_ d <= INT64_MAX ->
  let a := Z.abs (Decimal.value_ d) in
  Decimal.to_string d
  = ((if (Decimal.value_ d <? 0)%Z then "-" else EmptyString)
     +:+ magnitude_text (a / Decimal.SCALE_FACTOR)%Z (a mod Decimal.SCALE_FACTOR)%Z)%string.
Proof.
  destruct d as [v]. simpl. intros Hnz Hlo Hhi.
  unfold Decimal.to_string. simpl.
  destruct (Z.eqb_spec v 0) as [? | _]; [contradiction |].
  assert ((if v <? 0 then wrap64 (- v) else v) = Z.abs v) as ->.
  { destruct (Z.ltb_spec v 0).
    - rewrite wrap64_small by int64_lia. lia.
    - lia. }
  assert (0 <= Z.abs v) as Ha by lia.
  rewrite Z.quot_div_nonneg, Z.rem_mod_nonneg
    by (unfold Decimal.SCALE_FACTOR; lia).
  unfold magnitude_text.
  destruct (Z.abs v mod Decimal.SCALE_FACTOR >? 0); [| now rewrite string_app_nil_r].
  now rewrite string_app_assoc.
Qed.

(** X1: writing a Decimal and reading the text back gives the same value,
    for every value whose negation fits an [int64_t]. *)
Lemma from_string_to_string (d : Decimal) :
  INT64_MIN < Decimal.value_ d -> Decimal.value_ d <= INT64_MAX ->
  Decimal.from_string (Decimal.to_string d) = Some d.
Proof.
  intros Hlo Hhi.
  destruct (Z.eq_dec (Decimal.value_ d) 0) as [Hz | Hnz].
  - destruct d as [v]. simpl in Hz. subst. reflexivity.
  - rewrite to_string_shape by assumption. cbv zeta.
    destruct d as [v]. simpl in *.
    set (a := Z.abs v).
    assert (0 < a <= INT64_MAX) as Ha by (unfold a, INT64_MIN, INT64_MAX in *; lia).
    pose proof (Z.div_mod a Decimal.SCALE_FACTOR ltac:(unfold Decimal.SCALE_FACTOR; lia)) as Hdm.
    pose proof (Z.mod_pos_bound a Decimal.SCALE_FACTOR ltac:(unfold Decimal.SCALE_FACTOR; lia))
      as Hm.
    assert (0 <= a / Decimal.SCALE_FACTOR <= 9) as Hq.
    { split; [apply Z.div_pos; unfold Decimal.SCALE_FACTOR; lia |].
      assert (a / Decimal.SCALE_FACTOR < 10); [| lia].
      apply Z.div_lt_upper_bound; unfold Decimal.SCALE_FACTOR, INT64_MAX in *; lia. }
    pose proof (parse_unsigned_magnitude _ _ Hq Hm ltac:(lia)) as Hparse.
    replace (a / Decimal.SCALE_FACTOR * Decimal.SCALE_FACTOR + a mod Decimal.SCALE_FACTOR)
      with a in Hparse by lia.
    destruct (Z.ltb_spec v 0) as [Hneg | Hpos].
    + (* a leading minus sign *)
      change (("-" +:+ magnitude_text (a / Decimal.SCALE_FACTOR)
                         (a mod Decimal.SCALE_FACTOR))%string)
        with (String "-" (magnitude_text (a / Decimal.SCALE_FACTOR)
                            (a mod Decimal.SCALE_FACTOR))).
      unfold Decimal.from_string.
      replace (Ascii.eqb "-" "-") with true by reflexivity.
      rewrite Hparse. do 2 f_equal.
      rewrite wrap64_small; unfold a, INT64_MIN, INT64_MAX in *; lia.
    + (* the text starts with the digit of the integer part *)
      change ((EmptyString +:+ magnitude_text (a / Decimal.SCALE_FACTOR)
                                 (a mod Decimal.SCALE_FACTOR))%string)
        with (magnitude_text (a / Decimal.SCALE_FACTOR) (a mod Decimal.SCALE_FACTOR)).
      revert Hparse. unfold magnitude_text.
      rewrite render_one_digit by assumption.
      set (tail := if _ >? 0 then _ else _).
      change ((String (digit_char (a / Decimal.SCALE_FACTOR)) EmptyString +:+ tail)%string)
        with (String (digit_char (a / Decimal.SCALE_FACTOR)) tail).
      intros Hparse. unfold Decimal.from_string.
      destruct (digit_not_space_sign _ (digit_char_is_digit _ Hq)) as (_ & Hm' & Hp' & _).
      rewrite Hm', Hp', Hparse. do 2 f_equal. unfold a. lia.
Qed.

Lemma from_string_to_string_witness :
  INT64_MIN < Decimal.value_ (Decimal.lit "-1.25")
  /\ Decimal.value_ (Decimal.lit "-1.25") <= INT64_MAX
  /\ Decimal.from_string (Decimal.to_string (Decimal.lit "-1.25")) = Some (Decimal.lit "-1.25").
Proof.
  assert (INT64_MIN < Decimal.value_ (Decimal.lit "-1.25")) as H1
    by (vm_compute; reflexivity).
  assert (Decimal.value_ (Decimal.lit "-1.25") <= INT64_MAX) as H2
    by (vm_compute; discriminate).
  split; [exact H1 |]. split; [exact H2 |].
  exact (from_string_to_string (Decimal.lit "-1.25") H1 H2).
Defined.

(** [to_string] writes one digit before the decimal point, whatever the
    value (the least [int64_t], whose negation is undefined, set aside):
    the text "50000" is never produced. *)
Lemma to_string_never_50000 (d : Decimal) :
  Decimal.wf d -> Decimal.value_ d <> INT64_MIN ->
  Decimal.to_string d <> "50000"%string.
Proof.
  unfold Decimal.wf. rewrite in_int64_spec. intros [Hlo Hhi] Hmin.
  destruct (Z.eq_dec (Decimal.value_ d) 0) as [Hz | Hnz];
    [destruct d as [v]; simpl in Hz; subst; discriminate |].
  rewrite to_string_shape by (trivial; lia). cbv zeta.
  set (a := Z.abs (Decimal.value_ d)).
  assert (0 <= a / Decimal.SCALE_FACTOR <= 9) as Hq.
  { split; [apply Z.div_pos; unfold a, Decimal.SCALE_FACTOR; lia |].
    assert (a / Decimal.SCALE_FACTOR < 10); [| lia].
    apply Z.div_lt_upper_bound; unfold a, Decimal.SCALE_FACTOR, INT64_MIN, INT64_MAX in *; lia. }
  unfold magnitude_text. rewrite render_one_digit by assumption.
  destruct (Decimal.value_ d <? 0); destruct (a mod Decimal.SCALE_FACTOR >? 0);
    simpl; discriminate.
Qed.

(** C9 at two inputs.  The text "50000" is read as the raw value
    50000 * 10^18 reduced to 64 bits, which is written back as
    "-9.123183826594430976"; the same happens from 10 on, "10" coming
    back as "-8.446744073709551616". *)
Lemma decimal_text_round_trip_breaks :
  option_map Decimal.to_string (Decimal.from_string "50000")
  = Some "-9.123183826594430976"%string
  /\ option_map Decimal.value_ (Decimal.from_string "50000")
     = Some (wrap64 (50000 * Decimal.SCALE_FACTOR))
  /\ option_map Decimal.to_string (Decimal.from_string "10")
     = Some "-8.446744073709551616"%string
  /\ option_map Decimal.value_ (Decimal.from_string "10")
     = Some (wrap64 (10 * Decimal.SCALE_FACTOR)).
Proof. vm_compute. repeat split; discriminate. Qed.

(* ===================================================================== *)
(** ** Order book: the walk of the opposite side *)
(* ===================================================================== *)


Lemma get_levels_all (l : OrderBook.entries) : OrderBook.get_levels 0 l = l.
Proof.
  unfold OrderBook.get_levels.
  assert (forall count, OrderBook.get_levels_loop 0 count l = l) as H; [| apply H].
  induction l as [| x xs IH]; intros n; simpl; [reflexivity | now rewrite IH].
Qed.

Lemma total_amount_nonneg levels : positive_amounts levels -> 0 <= total_amount levels.
Proof.
  induction 1 as [| lvl rest Hl _ IH]; simpl; lia.
Qed.

(** With less on offer than asked for, every level is consumed whole and
    the walk ends with the difference left. *)
Lemma consume_insufficient (levels : OrderBook.entries) :
  forall remaining cost,
    positive_amounts levels ->
    total_amount levels < Decimal.value_ remaining ->
    Decimal.value_ remaining <= INT64_MAX ->
    Decimal.value_ (fst (OrderBook.consume levels remaining cost))
    = Decimal.value_ remaining - total_amount levels.
Proof.
  induction levels as [| lvl rest IH]; intros remaining cost Hpos Hlt Hmax.
  - simpl. lia.
  - inversion Hpos as [| ? ? Hl Hrest]; subst. simpl in Hlt.
    pose proof (total_amount_nonneg rest Hrest) as Hnn.
    cbn [OrderBook.consume].
    assert (Decimal.is_zero remaining = false) as ->
      by (unfold Decimal.is_zero; apply Z.eqb_neq; lia).
    assert (Decimal.min (OrderBook.amount lvl) remaining = OrderBook.amount lvl) as ->.
    { unfold Decimal.min, Decimal.ltb.
      destruct (Z.ltb_spec (Decimal.value_ remaining) (Decimal.value_ (OrderBook.amount lvl)));
        [lia | reflexivity]. }
    assert (Decimal.value_ (Decimal.sub remaining (OrderBook.amount lvl))
            = Decimal.value_ remaining - Decimal.value_ (OrderBook.amount lvl)) as Hsub.
    { apply sub_exact. int64_lia. }
    rewrite IH; rewrite ?Hsub; try assumption; simpl in *; lia.
Qed.

(** X2: when the opposite side holds positive amounts that sum to less than
    the quantity asked for, the impact price is zero. *)
Lemma impact_price_insufficient (is_buy : bool) (quantity : Decimal) (b : OrderBook.t) :
  let levels := if is_buy then OrderBook.asks_ b else OrderBook.bids_ b in
  positive_amounts levels ->
  total_amount levels < Decimal.value_ quantity ->
  Decimal.value_ quantity <= INT64_MAX ->
  OrderBook.get_impact_price is_buy quantity b = Decimal.zero.
Proof.
  intros levels Hpos Hlt Hmax.
  pose proof (total_amount_nonneg levels Hpos) as Hnn.
  unfold OrderBook.get_impact_price.
  assert (Decimal.is_zero quantity = false) as ->
    by (unfold Decimal.is_zero; apply Z.eqb_neq; lia).
  assert ((if is_buy then OrderBook.get_asks 0 b else OrderBook.get_bids 0 b) = levels) as ->.
  { unfold levels, OrderBook.get_asks, OrderBook.get_bids.
    destruct is_buy; apply get_levels_all. }
  pose proof (consume_insufficient levels quantity Decimal.zero Hpos Hlt Hmax) as Hc.
  destruct (OrderBook.consume levels quantity Decimal.zero) as [remaining cost].
  simpl in Hc. unfold Decimal.gtb. simpl.
  destruct (Z.gtb_spec (Decimal.value_ remaining) 0); [reflexivity | lia].
Qed.

Lemma impact_price_insufficient_witness :
  positive_amounts (OrderBook.asks_ Scenario.spec_book)
  /\ total_amount (OrderBook.asks_ Scenario.spec_book) < Decimal.value_ (Decimal.lit "3.0")
  /\ OrderBook.get_impact_price true (Decimal.lit "3.0") Scenario.spec_book = Decimal.zero.
Proof.
  assert (positive_amounts (OrderBook.asks_ Scenario.spec_book)) as H1
    by (vm_compute; repeat constructor).
  assert (total_amount (OrderBook.asks_ Scenario.spec_book)
          < Decimal.value_ (Decimal.lit "3.0")) as H2 by (vm_compute; reflexivity).
  assert (Decimal.value_ (Decimal.lit "3.0") <= INT64_MAX) as H3
    by (vm_compute; discriminate).
  split; [exact H1 |]. split; [exact H2 |].
  exact (impact_price_insufficient true (Decimal.lit "3.0") Scenario.spec_book H1 H2 H3).
Defined.


(* ===================================================================== *)
(** ** Order book sides: levels and their order *)
(* ===================================================================== *)

Lemma comparator_distinct (s : OrderBook.Side) (e x : OrderBook.OrderBookEntry) :
  Decimal.value_ (OrderBook.price e) <> Decimal.value_ (OrderBook.price x) ->
  (OrderBook.comparator s e x = true /\ price_before s e x)
  \/ (OrderBook.comparator s e x = false /\ OrderBook.comparator s x e = true
      /\ price_before s x e).
Proof.
  intros Hne.
  destruct s; simpl; unfold OrderBook.BidComparator, OrderBook.AskComparator,
    Decimal.neqb, Decimal.gtb, Decimal.ltb;
    rewrite ?Z.gtb_ltb;
    destruct (Z.eqb_spec (Decimal.value_ (OrderBook.price e))
                         (Decimal.value_ (OrderBook.price x))); try contradiction;
    destruct (Z.eqb_spec (Decimal.value_ (OrderBook.price x))
                         (Decimal.value_ (OrderBook.price e))); try congruence;
    simpl;
    destruct (Z.ltb_spec (Decimal.value_ (OrderBook.price e))
                         (Decimal.value_ (OrderBook.price x)));
    destruct (Z.ltb_spec (Decimal.value_ (OrderBook.price x))
                         (Decimal.value_ (OrderBook.price e)));
    first [lia | left; split; [reflexivity | lia] | right; repeat split; lia].
Qed.

Lemma price_before_trans (s : OrderBook.Side) (a b c : OrderBook.OrderBookEntry) :
  price_before s a b -> price_before s b c -> price_before s a c.
Proof. destruct s; simpl; lia. Qed.

Lemma price_before_neq (s : OrderBook.Side) (a b : OrderBook.OrderBookEntry) :
  price_before s a b ->
  Decimal.value_ (OrderBook.price a) <> Decimal.value_ (OrderBook.price b).
Proof. destruct s; simpl; lia. Qed.

Lemma side_sortedb_sound (s : OrderBook.Side) (l : OrderBook.entries) :
  side_sortedb s l = true -> side_sorted s l.
Proof.
  induction l as [| x xs IH]; simpl; intros H; [constructor |].
  apply andb_true_iff in H as [Hx Hxs]. constructor; [now apply IH |].
  apply Forall_forall. intros y Hy. apply list_elem_of_In in Hy.
  rewrite forallb_forall in Hx. specialize (Hx y Hy).
  destruct s; simpl in *; unfold Decimal.ltb in Hx; now apply Z.ltb_lt.
Qed.

Lemma erase_price_Forall (P : OrderBook.OrderBookEntry -> Prop) p l :
  Forall P l -> Forall P (OrderBook.erase_price p l).
Proof.
  induction 1 as [| x xs Hx Hxs IH]; simpl; [constructor |].
  destruct (Decimal.eqb (OrderBook.price x) p); [assumption | now constructor].
Qed.

Lemma erase_price_sorted s p l :
  side_sorted s l -> side_sorted s (OrderBook.erase_price p l).
Proof.
  induction 1 as [| x xs Hs IH Hx]; simpl; [constructor |].
  destruct (Decimal.eqb (OrderBook.price x) p); [assumption |].
  constructor; [assumption | now apply erase_price_Forall].
Qed.

(** On a side in strict price order, erasing a price leaves no level at
    it. *)
Lemma erase_price_absent s p l :
  side_sorted s l ->
  Forall (fun x => Decimal.value_ (OrderBook.price x) <> Decimal.value_ p)
         (OrderBook.erase_price p l).
Proof.
  induction 1 as [| x xs Hs IH Hx]; simpl; [constructor |].
  unfold Decimal.eqb.
  destruct (Z.eqb_spec (Decimal.value_ (OrderBook.price x)) (Decimal.value_ p)) as [E | E].
  - eapply Forall_impl; [exact Hx |]. intros y Hy. simpl in Hy.
    apply price_before_neq in Hy. congruence.
  - constructor; assumption.
Qed.

Lemma erase_price_id p l :
  Forall (fun x => Decimal.value_ (OrderBook.price x) <> Decimal.value_ p) l ->
  OrderBook.erase_price p l = l.
Proof.
  induction 1 as [| x xs Hx Hxs IH]; simpl; [reflexivity |].
  unfold Decimal.eqb. destruct (Z.eqb_spec (Decimal.value_ (OrderBook.price x))
                                           (Decimal.value_ p)); [contradiction |].
  now rewrite IH.
Qed.

Lemma levels_at_absent p l :
  Forall (fun x => Decimal.value_ (OrderBook.price x) <> Decimal.value_ p) l ->
  levels_at p l = [].
Proof.
  induction 1 as [| x xs Hx Hxs IH]; simpl; [reflexivity |].
  unfold Decimal.eqb. destruct (Z.eqb_spec (Decimal.value_ (OrderBook.price x))
                                           (Decimal.value_ p)); [contradiction |].
  exact IH.
Qed.

Lemma set_emplace_Forall (P : OrderBook.OrderBookEntry -> Prop) cmp e l :
  P e -> Forall P l -> Forall P (OrderBook.set_emplace cmp e l).
Proof.
  intros He. induction 1 as [| x xs Hx Hxs IH]; simpl; [now repeat constructor |].
  destruct (cmp e x); [now repeat constructor |].
  destruct (cmp x e); now constructor.
Qed.

Lemma set_emplace_sorted s e l :
  side_sorted s l ->
  Forall (fun x => Decimal.value_ (OrderBook.price x)
                   <> Decimal.value_ (OrderBook.price e)) l ->
  side_sorted s (OrderBook.set_emplace (OrderBook.comparator s) e l).
Proof.
  induction 1 as [| x xs Hs IH Hx]; intros Hne; simpl; [repeat constructor |].
  inversion Hne as [| ? ? Hxe Hrest]; subst.
  destruct (comparator_distinct s e x ltac:(congruence)) as [[-> Hb] | (-> & -> & Hb)].
  - constructor; [now constructor |]. constructor; [assumption |].
    eapply Forall_impl; [exact Hx |]. intros y Hy. simpl in Hy.
    eapply price_before_trans; eassumption.
  - constructor; [now apply IH |]. now apply set_emplace_Forall.
Qed.

Lemma levels_at_emplace s e l :
  Forall (fun x => Decimal.value_ (OrderBook.price x)
                   <> Decimal.value_ (OrderBook.price e)) l ->
  levels_at (OrderBook.price e) (OrderBook.set_emplace (OrderBook.comparator s) e l) = [e].
Proof.
  induction 1 as [| x xs Hx Hxs IH]; simpl.
  - unfold Decimal.eqb. now rewrite Z.eqb_refl.
  - destruct (comparator_distinct s e x ltac:(congruence)) as [[-> Hb] | (-> & -> & Hb)];
      simpl; unfold Decimal.eqb.
    + rewrite Z.eqb_refl.
      destruct (Z.eqb_spec (Decimal.value_ (OrderBook.price x))
                           (Decimal.value_ (OrderBook.price e))); [contradiction |].
      f_equal. now apply levels_at_absent.
    + destruct (Z.eqb_spec (Decimal.value_ (OrderBook.price x))
                           (Decimal.value_ (OrderBook.price e))); [contradiction |].
      exact IH.
Qed.

(** X3: [OrderBookSide::update] keeps a side in strict price order, so no
    two levels of a side ever share a price. *)
Theorem side_update_keeps_order (s : OrderBook.Side) (now : Timestamp)
    (p a : Decimal) (id : Z) (l : OrderBook.entries) :
  side_sorted s l -> side_sorted s (OrderBook.side_update s now p a id l).
Proof.
  intros Hs. unfold OrderBook.side_update.
  destruct (Decimal.is_zero a); [now apply erase_price_sorted |].
  apply set_emplace_sorted; [now apply erase_price_sorted |].
  simpl. now apply erase_price_absent with (s := s).
Qed.

Lemma side_update_keeps_order_witness :
  side_sorted OrderBook.Ask (OrderBook.asks_ Scenario.small_book)
  /\ side_sorted OrderBook.Ask
       (OrderBook.side_update OrderBook.Ask 9 (Decimal.lit "2") (Decimal.lit "1") 11
          (OrderBook.asks_ Scenario.small_book)).
Proof.
  assert (side_sorted OrderBook.Ask (OrderBook.asks_ Scenario.small_book)) as H
    by (apply side_sortedb_sound; vm_compute; reflexivity).
  split; [exact H |].
  exact (side_update_keeps_order OrderBook.Ask 9 (Decimal.lit "2") (Decimal.lit "1") 11
           (OrderBook.asks_ Scenario.small_book) H).
Defined.

(** X4: after [update(price, amount, id)] with a non-zero amount, the side
    holds exactly one level at that price, with the amount, the id and
    the arrival time of the call. *)
Theorem side_update_sets_level (s : OrderBook.Side) (now : Timestamp)
    (p a : Decimal) (id : Z) (l : OrderBook.entries) :
  side_sorted s l ->
  Decimal.is_zero a = false ->
  levels_at p (OrderBook.side_update s now p a id l) = [OrderBook.mkEntry p a id now].
Proof.
  intros Hs Ha. unfold OrderBook.side_update. rewrite Ha.
  apply (levels_at_emplace s (OrderBook.mkEntry p a id now)).
  simpl. now apply erase_price_absent with (s := s).
Qed.

Lemma side_update_sets_level_witness :
  side_sorted OrderBook.Ask (OrderBook.asks_ Scenario.small_book)
  /\ Decimal.is_zero (Decimal.lit "1") = false
  /\ levels_at (Decimal.lit "2.1")
       (OrderBook.side_update OrderBook.Ask 9 (Decimal.lit "2.1") (Decimal.lit "1") 11
          (OrderBook.asks_ Scenario.small_book))
     = [OrderBook.mkEntry (Decimal.lit "2.1") (Decimal.lit "1") 11 9].
Proof.
  assert (side_sorted OrderBook.Ask (OrderBook.asks_ Scenario.small_book)) as H
    by (vm_compute; repeat constructor).
  assert (Decimal.is_zero (Decimal.lit "1") = false) as H0 by (vm_compute; reflexivity).
  split; [exact H |]. split; [exact H0 |].
  exact (side_update_sets_level OrderBook.Ask 9 (Decimal.lit "2.1") (Decimal.lit "1") 11
           (OrderBook.asks_ Scenario.small_book) H H0).
Defined.

(** X5: [update(price, 0, id)] removes the level at the price, and a
    second such call changes nothing. *)
Theorem side_update_zero_removes (s : OrderBook.Side) (now now' : Timestamp)
    (p : Decimal) (id id' : Z) (l : OrderBook.entries) :
  side_sorted s l ->
  let l' := OrderBook.side_update s now p Decimal.zero id l in
  levels_at p l' = []
  /\ OrderBook.side_update s now' p Decimal.zero id' l' = l'.
Proof.
  intros Hs. unfold OrderBook.side_update. simpl.
  pose proof (erase_price_absent s p l Hs) as Habs.
  split; [now apply levels_at_absent | now apply erase_price_id].
Qed.

Lemma side_update_zero_removes_witness :
  side_sorted OrderBook.Ask (OrderBook.asks_ Scenario.small_book)
  /\ let l' := OrderBook.side_update OrderBook.Ask 9 (Decimal.lit "2.1") Decimal.zero 11
                 (OrderBook.asks_ Scenario.small_book) in
     levels_at (Decimal.lit "2.1") l' = []
     /\ OrderBook.side_update OrderBook.Ask 10 (Decimal.lit "2.1") Decimal.zero 12 l' = l'.
Proof.
  assert (side_sorted OrderBook.Ask (OrderBook.asks_ Scenario.small_book)) as H
    by (apply side_sortedb_sound; vm_compute; reflexivity).
  split; [exact H |].
  exact (side_update_zero_removes OrderBook.Ask 9 10 (Decimal.lit "2.1") 11 12
           (OrderBook.asks_ Scenario.small_book) H).
Defined.

(** An update at one price leaves the levels at every other price as
    they were. *)
Theorem side_update_other_prices (s : OrderBook.Side) (now : Timestamp)
    (p q a : Decimal) (id : Z) (l : OrderBook.entries) :
  q <> p ->
  levels_at q (OrderBook.side_update s now p a id l) = levels_at q l.
Proof.
  intros Hqp.
  assert (Decimal.value_ p <> Decimal.value_ q) as Hv
    by (intros E; apply Hqp; symmetry; now apply Decimal_eq).
  assert (levels_at q (OrderBook.erase_price p l) = levels_at q l) as Herase.
  { induction l as [| x xs IH]; simpl; [reflexivity |]. unfold Decimal.eqb.
    destruct (Z.eqb_spec (Decimal.value_ (OrderBook.price x)) (Decimal.value_ p)) as [E | E].
    - destruct (Z.eqb_spec (Decimal.value_ (OrderBook.price x)) (Decimal.value_ q));
        [congruence | reflexivity].
    - simpl. unfold Decimal.eqb. rewrite IH. reflexivity. }
  unfold OrderBook.side_update. destruct (Decimal.is_zero a); [exact Herase |].
  rewrite <- Herase. generalize (OrderBook.erase_price p l). intros l'.
  induction l' as [| x xs IH]; simpl.
  - unfold Decimal.eqb. simpl.
    destruct (Z.eqb_spec (Decimal.value_ p) (Decimal.value_ q)); [contradiction | reflexivity].
  - destruct (OrderBook.comparator s _ x).
    + simpl. unfold Decimal.eqb at 1. simpl.
      destruct (Z.eqb_spec (Decimal.value_ p) (Decimal.value_ q)); [contradiction | reflexivity].
    + destruct (OrderBook.comparator s x _); [| reflexivity].
      simpl. now rewrite IH.
Qed.

Lemma side_update_other_prices_witness :
  Decimal.lit "2" <> Decimal.lit "2.1"
  /\ levels_at (Decimal.lit "2")
       (OrderBook.side_update OrderBook.Ask 9 (Decimal.lit "2.1") (Decimal.lit "1") 11
          (OrderBook.asks_ Scenario.small_book))
     = levels_at (Decimal.lit "2") (OrderBook.asks_ Scenario.small_book).
Proof.
  assert (Decimal.lit "2" <> Decimal.lit "2.1") as H by (vm_compute; discriminate).
  split; [exact H |].
  exact (side_update_other_prices OrderBook.Ask 9 (Decimal.lit "2.1") (Decimal.lit "2")
           (Decimal.lit "1") 11 (OrderBook.asks_ Scenario.small_book) H).
Defined.

Lemma apply_side_sorted s now us : forall l,
  side_sorted s l -> side_sorted s (OrderBook.apply_side s now us l).
Proof.
  unfold OrderBook.apply_side.
  induction us as [| [[p a] id] us IH]; intros l Hs; simpl; [assumption |].
  apply IH. revert Hs. unfold OrderBook.side_update.
  intros Hs. destruct (Decimal.is_zero a); [now apply erase_price_sorted |].
  apply set_emplace_sorted; [now apply erase_price_sorted |].
  simpl. now apply erase_price_absent with (s := s).
Qed.

Lemma run_book_op_sorted b op : book_sorted b -> book_sorted (run_book_op b op).
Proof.
  intros [Hb Ha]. destruct op as [now p a id | now p a id | now bids asks id];
    split; simpl; trivial.
  - apply apply_side_sorted with (us := [(p, a, id)]). assumption.
  - apply apply_side_sorted with (us := [(p, a, id)]). assumption.
  - now apply apply_side_sorted.
  - now apply apply_side_sorted.
Qed.

Lemma sorted_head_first s x xs :
  side_sorted s (x :: xs) ->
  Forall (fun y => match s with
                   | OrderBook.Ask => Decimal.value_ (OrderBook.price x)
                                      <= Decimal.value_ (OrderBook.price y)
                   | OrderBook.Bid => Decimal.value_ (OrderBook.price y)
                                      <= Decimal.value_ (OrderBook.price x)
                   end) (x :: xs).
Proof.
  intros Hs. apply StronglySorted_inv in Hs as [_ Hx].
  constructor; [destruct s; lia |].
  eapply Forall_impl; [exact Hx |]. intros y Hy. destruct s; simpl in Hy; lia.
Qed.

(** X6: every book built from an empty one by [update_bid], [update_ask]
    and [apply_updates] has its bids in strictly descending and its asks
    in strictly ascending price order; [best_bid] is the highest bid price
    and [best_ask] the lowest ask price. *)
Theorem built_books_are_ordered (ops : list book_op) (now : Timestamp) (symbol : string) :
  let b := run_book_ops ops (OrderBook.create now symbol) in
  book_sorted b
  /\ Forall (fun x => Decimal.value_ (OrderBook.price x)
                      <= Decimal.value_ (OrderBook.best_bid b)) (OrderBook.bids_ b)
  /\ Forall (fun x => Decimal.value_ (OrderBook.best_ask b)
                      <= Decimal.value_ (OrderBook.price x)) (OrderBook.asks_ b).
Proof.
  intros b.
  assert (book_sorted b) as Hs.
  { unfold b, run_book_ops.
    assert (book_sorted (OrderBook.create now symbol)) as H0
      by (split; constructor).
    revert H0. generalize (OrderBook.create now symbol).
    induction ops as [| op ops IH]; intros b0 H0; simpl; [assumption |].
    apply IH. now apply run_book_op_sorted. }
  split; [assumption |]. destruct Hs as [Hb Ha].
  unfold OrderBook.best_bid, OrderBook.best_ask, OrderBook.side_best.
  split.
  - destruct (OrderBook.bids_ b) as [| x xs]; [constructor |].
    exact (sorted_head_first OrderBook.Bid x xs Hb).
  - destruct (OrderBook.asks_ b) as [| x xs]; [constructor |].
    exact (sorted_head_first OrderBook.Ask x xs Ha).
Qed.

(** [get_levels(limit)] returns the first [limit] levels, and all of
    them for [limit = 0]. *)
Theorem get_levels_prefix (limit : nat) (l : OrderBook.entries) :
  OrderBook.get_levels limit l = if (limit =? 0)%nat then l else firstn limit l.
Proof.
  unfold OrderBook.get_levels.
  destruct limit as [| k]; simpl.
  - assert (forall count, OrderBook.get_levels_loop 0 count l = l) as H; [| apply H].
    induction l as [| x xs IH]; intros n; simpl; [reflexivity | now rewrite IH].
  - assert (forall count rest, (count <= k)%nat ->
              OrderBook.get_levels_loop (S k) count rest = firstn (S k - count) rest) as H.
    { intros count rest. revert count.
      induction rest as [| x xs IH]; intros count Hc.
      - symmetry. apply firstn_nil.
      - cbn [OrderBook.get_levels_loop].
        replace (0 <? S k)%nat with true by reflexivity. cbn [andb].
        destruct (Nat.leb_spec (S k) (S count)) as [Hle | Hgt].
        + replace (S k - count)%nat with 1%nat by lia. reflexivity.
        + rewrite IH by lia.
          replace (S k - count)%nat with (S (S k - S count)) by lia. reflexivity. }
    rewrite H by lia. now rewrite Nat.sub_0_r.
Qed.

(** X7: on a side in price order the early exit of
    [get_volume_at_or_better] loses nothing: the result is the sum of the
    amounts of all levels at or better than the price. *)
Theorem volume_at_or_better_is_sum (s : OrderBook.Side) (p : Decimal)
    (l : OrderBook.entries) :
  side_sorted s l ->
  OrderBook.get_volume_at_or_better s p l
  = sum_amounts (List.filter (at_or_better s p) l).
Proof.
  unfold OrderBook.get_volume_at_or_better, sum_amounts.
  generalize Decimal.zero.
  intros total Hs. revert total.
  induction Hs as [| x xs Hs IH Hx]; intros total; simpl; [reflexivity |].
  assert ((match s with
           | OrderBook.Bid => Decimal.geb (OrderBook.price x) p
           | OrderBook.Ask => Decimal.leb (OrderBook.price x) p
           end) = at_or_better s p x) as -> by now destruct s.
  destruct (at_or_better s p x) eqn:E; simpl; [apply IH |].
  assert (List.filter (at_or_better s p) xs = []) as ->; [| reflexivity].
  clear IH Hs. induction Hx as [| y ys Hy Hys IHy]; simpl; [reflexivity |].
  assert (at_or_better s p y = false) as ->; [| assumption].
  destruct s; simpl in *; unfold Decimal.geb, Decimal.leb in *;
    rewrite ?Z.geb_leb in *;
    [apply Z.leb_gt in E; apply Z.leb_gt | apply Z.leb_gt in E; apply Z.leb_gt]; lia.
Qed.

Lemma volume_at_or_better_is_sum_witness :
  side_sorted OrderBook.Bid (OrderBook.bids_ Scenario.small_book)
  /\ OrderBook.get_volume_at_or_better OrderBook.Bid (Decimal.lit "1.85")
       (OrderBook.bids_ Scenario.small_book)
     = sum_amounts (List.filter (at_or_better OrderBook.Bid (Decimal.lit "1.85"))
                      (OrderBook.bids_ Scenario.small_book)).
Proof.
  assert (side_sorted OrderBook.Bid (OrderBook.bids_ Scenario.small_book)) as H
    by (apply side_sortedb_sound; vm_compute; reflexivity).
  split; [exact H |].
  exact (volume_at_or_better_is_sum OrderBook.Bid (Decimal.lit "1.85")
           (OrderBook.bids_ Scenario.small_book) H).
Defined.



(* ===================================================================== *)
(** ** Decimal: arithmetic modulo 2^64, parsing and rendering *)
(* ===================================================================== *)

Lemma wrap64_add_l (x y : Z) : wrap64 (wrap64 x + y) = wrap64 (x + y).
Proof.
  unfold wrap64.
  replace ((x + 2 ^ 63) mod 2 ^ 64 - 2 ^ 63 + y + 2 ^ 63)
    with ((x + 2 ^ 63) mod 2 ^ 64 + y) by lia.
  rewrite Zplus_mod_idemp_l. f_equal. f_equal. lia.
Qed.

Lemma wrap64_add_r (x y : Z) : wrap64 (x + wrap64 y) = wrap64 (x + y).
Proof. rewrite (Z.add_comm x), wrap64_add_l. f_equal. lia. Qed.

(** X9: [operator+] is associative and commutative on every pair of
    values, overflow included: (a + b) + c and a + (b + c) are the same
    Decimal bit for bit. *)
Theorem add_associative_commutative (a b c : Decimal) :
  Decimal.add (Decimal.add a b) c = Decimal.add a (Decimal.add b c)
  /\ Decimal.add a b = Decimal.add b a.
Proof.
  split; apply Decimal_eq; simpl.
  - rewrite wrap64_add_l, wrap64_add_r. f_equal. lia.
  - f_equal. lia.
Qed.

(** [operator-] undoes [operator+] and conversely, also when the
    intermediate result overflowed. *)
Theorem sub_add_inverse (a b : Decimal) :
  Decimal.wf a ->
  Decimal.add (Decimal.sub a b) b = a /\ Decimal.sub (Decimal.add a b) b = a.
Proof.
  unfold Decimal.wf. rewrite in_int64_spec. intros Ha.
  split; apply Decimal_eq; simpl.
  - rewrite wrap64_add_l. rewrite <- (wrap64_small (Decimal.value_ a)) at 2 by assumption.
    f_equal. lia.
  - replace (wrap64 (Decimal.value_ a + Decimal.value_ b) - Decimal.value_ b)
      with (wrap64 (Decimal.value_ a + Decimal.value_ b) + - Decimal.value_ b) by lia.
    rewrite wrap64_add_l. rewrite <- (wrap64_small (Decimal.value_ a)) at 2 by assumption.
    f_equal. lia.
Qed.

Lemma sub_add_inverse_witness :
  Decimal.wf (Decimal.lit "9")
  /\ Decimal.add (Decimal.sub (Decimal.lit "9") (Decimal.lit "-9")) (Decimal.lit "-9")
     = Decimal.lit "9"
  /\ Decimal.sub (Decimal.add (Decimal.lit "9") (Decimal.lit "-9")) (Decimal.lit "-9")
     = Decimal.lit "9".
Proof.
  assert (Decimal.wf (Decimal.lit "9")) as H by (vm_compute; reflexivity).
  split; [exact H |].
  exact (sub_add_inverse (Decimal.lit "9") (Decimal.lit "-9") H).
Defined.

(** [abs] returns the magnitude of every value but the least [int64_t],
    whose negation is undefined. *)
Theorem abs_magnitude (a : Decimal) :
  Decimal.wf a -> Decimal.value_ a <> INT64_MIN ->
  Decimal.value_ (Decimal.abs a) = Z.abs (Decimal.value_ a).
Proof.
  unfold Decimal.wf. rewrite in_int64_spec. intros Ha E. simpl.
  destruct (Z.ltb_spec (Decimal.value_ a) 0); [| lia].
  rewrite wrap64_small; int64_lia.
Qed.

Lemma abs_magnitude_witness :
  Decimal.wf (Decimal.lit "-1.5")
  /\ Decimal.value_ (Decimal.abs (Decimal.lit "-1.5"))
     = Z.abs (Decimal.value_ (Decimal.lit "-1.5")).
Proof.
  assert (Decimal.wf (Decimal.lit "-1.5")) as H by (vm_compute; reflexivity).
  split; [exact H |].
  apply (abs_magnitude (Decimal.lit "-1.5") H). vm_compute. discriminate.
Defined.

Lemma stoll_bad_head (c : ascii) (r : string) :
  is_digit c = false -> is_space c = false ->
  Ascii.eqb c "-" = false -> Ascii.eqb c "+" = false ->
  stoll (String c r) = None.
Proof.
  intros Hd Hs Hm Hp. unfold stoll. cbn [skip_space]. now rewrite Hs, Hm, Hp, Hd.
Qed.

(** X10: a text whose first character is neither a digit, a sign, a dot nor
    white space is rejected by the constructor (it throws). *)
Theorem from_string_rejects_bad_head (c : ascii) (r : string) :
  is_digit c = false -> is_space c = false ->
  c <> "-"%char -> c <> "+"%char -> c <> "."%char ->
  Decimal.from_string (String c r) = None.
Proof.
  intros Hd Hs Hm Hp Hdot.
  apply Ascii.eqb_neq in Hm, Hp, Hdot.
  unfold Decimal.from_string. rewrite Hm, Hp.
  assert (forall f x, Decimal.parse_parts (String c x) f = None) as Hparts.
  { intros f x. unfold Decimal.parse_parts.
    now rewrite (stoll_bad_head c x Hd Hs Hm Hp). }
  unfold Decimal.parse_unsigned. cbn [string_find]. rewrite Hdot.
  destruct (string_find "." r) as [i |].
  - cbn [substr substr_from string_take]. now rewrite Hparts.
  - now rewrite Hparts.
Qed.

Lemma from_string_rejects_bad_head_witness :
  is_digit "a" = false /\ is_space "a" = false
  /\ Decimal.from_string "abc" = None.
Proof.
  split; [reflexivity |]. split; [reflexivity |].
  apply (from_string_rejects_bad_head "a" "bc"); first [reflexivity | discriminate].
Defined.

Lemma string_take_app (t y : string) : string_take (String.length t) (t +:+ y) = t.
Proof. induction t as [| c r IH]; simpl; [now destruct y | now rewrite IH]. Qed.

Lemma substr_from_app (t y : string) : substr_from (String.length t) (t +:+ y) = y.
Proof. induction t as [| c r IH]; simpl; [reflexivity | exact IH]. Qed.

Lemma string_find_app_dot (t x : string) :
  string_find "." t = None ->
  string_find "." (t +:+ String "." x) = Some (String.length t).
Proof.
  induction t as [| c r IH]; simpl; [reflexivity |].
  destruct (Ascii.eqb c "."); [discriminate |].
  destruct (string_find "." r); [discriminate |]. intros _. now rewrite IH.
Qed.

Lemma substr_zero (n : nat) (s : string) : substr 0 n s = string_take n s.
Proof. unfold substr. now destruct s. Qed.

Lemma substr_from_after_dot (t x : string) :
  substr_from (S (String.length t)) (t +:+ String "." x) = x.
Proof. induction t as [| c r IH]; simpl; [reflexivity | exact IH]. Qed.

Lemma parse_unsigned_split (t x : string) :
  string_find "." t = None ->
  Decimal.parse_unsigned (t +:+ String "." x) = Decimal.parse_parts t x.
Proof.
  intros H. unfold Decimal.parse_unsigned. rewrite (string_find_app_dot t x H).
  now rewrite substr_zero, string_take_app, substr_from_after_dot.
Qed.

Lemma parse_parts_fraction (t : string) (c : ascii) (r : string) :
  Decimal.parse_parts t (String c r)
  = match (match t with EmptyString => Some 0 | _ => stoll t end),
          stoll (cut_or_pad (String c r)) with
    | Some iv, Some fv => Some (wrap64 (wrap64 (iv * Decimal.SCALE_FACTOR) + fv))
    | _, _ => None
    end.
Proof. reflexivity. Qed.

Lemma cut_or_pad_full (F rest : string) :
  String.length F = 18%nat -> cut_or_pad (F +:+ rest) = F.
Proof.
  intros HF. unfold cut_or_pad. rewrite string_app_length, HF.
  destruct (Nat.ltb_spec 18 (18 + String.length rest)) as [Hlt | Hge].
  - rewrite substr_zero. rewrite <- HF. apply string_take_app.
  - destruct rest as [| c rest]; [| simpl in Hge; lia].
    simpl. now rewrite !string_app_nil_r.
Qed.

Lemma parse_parts_truncates (t F rest : string) :
  String.length F = 18%nat ->
  Decimal.parse_parts t (F +:+ rest) = Decimal.parse_parts t F.
Proof.
  intros HF. destruct F as [| f0 F']; [discriminate |].
  pose proof (cut_or_pad_full (String f0 F') rest HF) as H1.
  pose proof (cut_or_pad_full (String f0 F') EmptyString HF) as H2.
  rewrite string_app_nil_r in H2.
  change (String f0 F' +:+ rest)%string with (String f0 (F' +:+ rest)) in *.
  now rewrite !parse_parts_fraction, H1, H2.
Qed.

(** X11: fractional digits beyond the 18th are ignored by the constructor:
    appending anything to an 18-character fractional part gives the same
    result. *)
Theorem from_string_ignores_excess_digits (s F rest : string) :
  string_find "." s = None ->
  String.length F = 18%nat ->
  Decimal.from_string (s +:+ String "." (F +:+ rest))
  = Decimal.from_string (s +:+ String "." F).
Proof.
  intros Hs HF.
  assert (forall t, string_find "." t = None ->
            Decimal.parse_unsigned (t +:+ String "." (F +:+ rest))
            = Decimal.parse_unsigned (t +:+ String "." F)) as Hpu
    by (intros t Ht; rewrite !parse_unsigned_split by assumption;
        now apply parse_parts_truncates).
  destruct s as [| c0 s'].
  - pose proof (Hpu EmptyString eq_refl) as H0.
    change (EmptyString +:+ String "." (F +:+ rest))%string
      with (String "." (F +:+ rest)) in *.
    change (EmptyString +:+ String "." F)%string with (String "." F) in *.
    unfold Decimal.from_string.
    replace (Ascii.eqb "." "-") with false by reflexivity.
    replace (Ascii.eqb "." "+") with false by reflexivity.
    now rewrite H0.
  - assert (string_find "." s' = None) as Hs'.
    { simpl in Hs. destruct (Ascii.eqb c0 "."); [discriminate |].
      now destruct (string_find "." s'). }
    pose proof (Hpu s' Hs') as H1. pose proof (Hpu (String c0 s') Hs) as H2.
    change (String c0 s' +:+ String "." (F +:+ rest))%string
      with (String c0 (s' +:+ String "." (F +:+ rest))) in *.
    change (String c0 s' +:+ String "." F)%string
      with (String c0 (s' +:+ String "." F)) in *.
    unfold Decimal.from_string.
    destruct (Ascii.eqb c0 "-"); [now rewrite H1 |].
    destruct (Ascii.eqb c0 "+"); [now rewrite H1 |].
    now rewrite H2.
Qed.

Lemma from_string_ignores_excess_digits_witness :
  string_find "." "-1" = None
  /\ String.length "250000000000000000" = 18%nat
  /\ Decimal.from_string ("-1" +:+ String "." ("250000000000000000" +:+ "987"))
     = Decimal.from_string ("-1" +:+ String "." "250000000000000000").
Proof.
  split; [reflexivity |]. split; [reflexivity |].
  apply (from_string_ignores_excess_digits "-1" "250000000000000000" "987"); reflexivity.
Defined.

Lemma last_char_app (s1 s2 : string) :
  s2 <> EmptyString -> last_char (s1 +:+ s2) = last_char s2.
Proof.
  intros H. induction s1 as [| c r IH]; [reflexivity |].
  cbn [String.append last_char]. rewrite IH.
  destruct (r +:+ s2)%string eqn:E; [| reflexivity].
  destruct r; [simpl in E; contradiction | discriminate].
Qed.

Lemma strip_last_not_zero (s : string) :
  last_char (strip_trailing_zeros s) <> Some zero_char.
Proof.
  induction s as [| c r IH]; simpl; [discriminate |].
  destruct (strip_trailing_zeros r) as [| c' r'] eqn:E.
  - destruct (Ascii.eqb_spec c zero_char); simpl; congruence.
  - exact IH.
Qed.

Lemma strip_keeps_digits (s : string) :
  all_digits s = true -> all_digits (strip_trailing_zeros s) = true.
Proof.
  induction s as [| c r IH]; simpl; intros Hd; [reflexivity |].
  apply andb_true_iff in Hd as [Hc Hr]. specialize (IH Hr).
  destruct (strip_trailing_zeros r) eqn:E.
  - destruct (Ascii.eqb c zero_char); simpl; [reflexivity | now rewrite Hc].
  - simpl in *. now rewrite Hc.
Qed.

Lemma digits_last_not_dot (s : string) :
  all_digits s = true -> last_char s <> Some "."%char.
Proof.
  induction s as [| c r IH]; simpl; [discriminate |].
  intros H. apply andb_true_iff in H as [Hc Hr].
  destruct r; [| now apply IH].
  intros E. injection E as ->. discriminate.
Qed.

(** X12: the text written by [to_string] for a non-zero value never ends
    with the digit 0 nor with the decimal point: trailing zeros of the
    fraction are dropped, and so is the point when nothing follows it. *)
Theorem to_string_no_trailing_zero (d : Decimal) :
  Decimal.wf d -> Decimal.value_ d <> 0 -> Decimal.value_ d <> INT64_MIN ->
  last_char (Decimal.to_string d) <> Some zero_char
  /\ last_char (Decimal.to_string d) <> Some "."%char.
Proof.
  unfold Decimal.wf. rewrite in_int64_spec. intros [Hlo Hhi] Hnz Hmin.
  rewrite to_string_shape by (trivial; lia). cbv zeta.
  set (a := Z.abs (Decimal.value_ d)).
  assert (0 < a <= INT64_MAX) as Ha by (unfold a; int64_lia).
  pose proof (Z.div_mod a Decimal.SCALE_FACTOR ltac:(unfold Decimal.SCALE_FACTOR; lia)) as Hdm.
  pose proof (Z.mod_pos_bound a Decimal.SCALE_FACTOR ltac:(unfold Decimal.SCALE_FACTOR; lia))
    as Hm.
  assert (0 <= a / Decimal.SCALE_FACTOR <= 9) as Hq.
  { split; [apply Z.div_pos; unfold Decimal.SCALE_FACTOR; lia |].
    assert (a / Decimal.SCALE_FACTOR < 10); [| lia].
    apply Z.div_lt_upper_bound; int64_lia. }
  set (ip := a / Decimal.SCALE_FACTOR) in *. set (fp := a mod Decimal.SCALE_FACTOR) in *.
  assert (magnitude_text ip fp <> EmptyString) as Hne
    by (unfold magnitude_text; rewrite render_one_digit by assumption; discriminate).
  rewrite last_char_app by assumption.
  unfold magnitude_text. rewrite render_one_digit by assumption.
  destruct (Z.gtb_spec fp 0) as [Hpos | Hzero].
  - set (R := to_string_int64 fp).
    destruct (render_digits_spec 20 18 fp ltac:(lia)
                ltac:(unfold Decimal.SCALE_FACTOR in Hm; simpl; lia)) as (HRd & HRl & HRp).
    assert (R = render_digits 20 fp EmptyString) as HR
      by (unfold R, to_string_int64; destruct (Z.ltb_spec fp 0); [lia | reflexivity]).
    rewrite <- HR in HRd, HRl, HRp.
    set (P := (string_repeat (18 - String.length R) zero_char +:+ R)%string).
    assert (all_digits P = true) as HPd
      by (apply all_digits_app; [apply all_digits_zeros | assumption]).
    assert (parse_digits 0 P = fp) as HPp
      by (unfold P; rewrite parse_digits_zeros; simpl; assumption).
    assert (strip_trailing_zeros P <> EmptyString) as HF
      by (intros E; pose proof (strip_empty_zero P HPd E); lia).
    change (String (digit_char ip) EmptyString +:+ "." +:+ strip_trailing_zeros P)%string
      with (String (digit_char ip) (String "." EmptyString) +:+ strip_trailing_zeros P)%string.
    rewrite last_char_app by assumption.
    split; [apply strip_last_not_zero |].
    apply digits_last_not_dot. now apply strip_keeps_digits.
  - assert (fp = 0) as Hfp by lia.
    assert (1 <= ip) as Hip by (unfold ip, fp in *; lia).
    rewrite string_app_nil_r. simpl.
    assert (ip = 1 \/ ip = 2 \/ ip = 3 \/ ip = 4 \/ ip = 5 \/ ip = 6 \/ ip = 7
            \/ ip = 8 \/ ip = 9) as Hd by lia.
    repeat (destruct Hd as [-> | Hd]; [split; discriminate |]).
    rewrite Hd. split; discriminate.
Qed.

Lemma to_string_no_trailing_zero_witness :
  Decimal.wf (Decimal.lit "-2.500")
  /\ last_char (Decimal.to_string (Decimal.lit "-2.500")) <> Some zero_char
  /\ last_char (Decimal.to_string (Decimal.lit "-2.500")) <> Some "."%char.
Proof.
  assert (Decimal.wf (Decimal.lit "-2.500")) as H by (vm_compute; reflexivity).
  split; [exact H |].
  apply (to_string_no_trailing_zero (Decimal.lit "-2.500") H); vm_compute; discriminate.
Defined.


(* ===================================================================== *)
(** ** Orders: text forms, construction, ledger and ordering *)
(* ===================================================================== *)

(** X13: the text forms of the three enumerations decode to the value they
    encode, and a text that decodes is the text form of the value
    obtained. *)
Theorem enum_text_round_trip (side : OrderSide) (status : OrderStatus) (type : OrderType)
    (str : string) :
  order_side_from_string (side_to_string side) = Some side
  /\ order_status_from_string (status_to_string status) = Some status
  /\ order_type_from_string (type_to_string type) = Some type
  /\ match order_side_from_string str with
     | Some x => side_to_string x = str
     | None => True
     end
  /\ match order_status_from_string str with
     | Some x => status_to_string x = str
     | None => True
     end
  /\ match order_type_from_string str with
     | Some x => type_to_string x = str
     | None => True
     end.
Proof.
  split; [now destruct side |]. split; [now destruct status |].
  split; [now destruct type |].
  unfold order_side_from_string, order_status_from_string, order_type_from_string.
  repeat split;
    repeat match goal with
           | |- context [String.eqb str ?lit] =>
               destruct (String.eqb_spec str lit) as [-> | _]; [reflexivity |]
           end; exact I.
Qed.

Lemma find_split (c : ascii) (s : string) (i : nat) :
  string_find c s = Some i ->
  (string_take i s +:+ String c (substr_from (S i) s))%string = s
  /\ string_find c (string_take i s) = None.
Proof.
  revert i. induction s as [| d r IH]; intros i H; [discriminate |].
  simpl in H. destruct (Ascii.eqb_spec d c) as [-> | Hne].
  - injection H as <-. now split.
  - destruct (string_find c r) as [j |] eqn:E; [| discriminate].
    injection H as <-. destruct (IH j eq_refl) as [H1 H2].
    change (substr_from (S (S j)) (String d r)) with (substr_from (S j) r).
    change (string_take (S j) (String d r)) with (String d (string_take j r)).
    split.
    + change (String d (string_take j r +:+ String c (substr_from (S j) r)) = String d r).
      now rewrite H1.
    + cbn [string_find].
      destruct (Ascii.eqb_spec d c); [contradiction |]. now rewrite H2.
Qed.

(** The constructor splits the trading pair at its first dash: base,
    dash and quote put together give the pair back and the base holds no
    dash; a pair without a dash becomes the base, with the quote
    currency USDT. *)
Theorem pair_split (now : Timestamp) (id trading_pair : string) (side : OrderSide)
    (price quantity : Decimal) :
  let o := LimitOrder.create now id trading_pair side price quantity in
  match string_find "-" trading_pair with
  | Some _ =>
      (LimitOrder.base_currency_ o +:+ String "-" (LimitOrder.quote_currency_ o))%string
      = trading_pair
      /\ string_find "-" (LimitOrder.base_currency_ o) = None
  | None =>
      LimitOrder.base_currency_ o = trading_pair
      /\ LimitOrder.quote_currency_ o = "USDT"%string
  end.
Proof.
  unfold LimitOrder.create.
  destruct (string_find "-" trading_pair) as [i |] eqn:E; simpl; [| now split].
  rewrite substr_zero. now apply find_split.
Qed.

Lemma total_executed_snoc (o : LimitOrder.t) (r : execution_report) :
  LimitOrder.total_executed (record_execution o r)
  = Decimal.add (LimitOrder.total_executed o) (report_quantity r).
Proof.
  unfold LimitOrder.total_executed, record_execution, LimitOrder.add_execution. simpl.
  now rewrite fold_left_app.
Qed.

Lemma record_executions_ledger (rs : list execution_report) : forall o,
  LimitOrder.total_executed o = LimitOrder.filled_quantity_ o ->
  LimitOrder.total_executed (record_executions rs o)
  = LimitOrder.filled_quantity_ (record_executions rs o)
  /\ length (LimitOrder.executions_ (record_executions rs o))
     = (length (LimitOrder.executions_ o) + length rs)%nat.
Proof.
  unfold record_executions.
  induction rs as [| r rs IH]; intros o Ho; simpl; [split; [assumption | lia] |].
  destruct (IH (record_execution o r)) as [H1 H2].
  - rewrite total_executed_snoc, Ho. reflexivity.
  - split; [assumption |]. rewrite H2.
    unfold record_execution, LimitOrder.add_execution. simpl.
    rewrite length_app. simpl. lia.
Qed.

Lemma create_is_unfilled now id trading_pair side price quantity :
  let o := LimitOrder.create now id trading_pair side price quantity in
  LimitOrder.executions_ o = [] /\ LimitOrder.filled_quantity_ o = Decimal.zero
  /\ LimitOrder.status_ o = PENDING /\ LimitOrder.type_ o = LIMIT
  /\ LimitOrder.client_order_id_ o = id /\ LimitOrder.trading_pair_ o = trading_pair
  /\ LimitOrder.side_ o = side /\ LimitOrder.price_ o = price
  /\ LimitOrder.quantity_ o = quantity /\ LimitOrder.position_ o = EmptyString.
Proof.
  unfold LimitOrder.create. destruct (string_find "-" trading_pair); simpl; repeat split.
Qed.

(** X14: for an order that only receives executions through
    [add_execution], the executed quantities add up exactly to
    [filled_quantity] (overflow included), one ledger entry is kept per
    call, and the ledger check of [is_valid] sees a difference of zero. *)
Theorem execution_ledger_balances (rs : list execution_report) (now : Timestamp)
    (id trading_pair : string) (side : OrderSide) (price quantity : Decimal) :
  let o := record_executions rs (LimitOrder.create now id trading_pair side price quantity) in
  LimitOrder.total_executed o = LimitOrder.filled_quantity_ o
  /\ length (LimitOrder.executions_ o) = length rs
  /\ Decimal.abs (Decimal.sub (LimitOrder.total_executed o) (LimitOrder.filled_quantity_ o))
     = Decimal.zero.
Proof.
  intros o.
  destruct (create_is_unfilled now id trading_pair side price quantity)
    as (He & Hf & _).
  destruct (record_executions_ledger rs
              (LimitOrder.create now id trading_pair side price quantity)) as [H1 H2].
  - unfold LimitOrder.total_executed. now rewrite He, Hf.
  - fold o in H1, H2. rewrite He in H2. simpl in H2.
    split; [assumption |]. split; [assumption |].
    rewrite H1. apply Decimal_eq. simpl. rewrite Z.sub_diag. reflexivity.
Qed.

(** X15: [apply_fill] raises [filled_quantity] without recording an
    execution: after it the ledger of a balanced order is short by exactly
    the fill quantity. *)
Theorem apply_fill_leaves_ledger (now : Timestamp) (fill_quantity fill_price : Decimal)
    (o : LimitOrder.t) :
  LimitOrder.total_executed o = LimitOrder.filled_quantity_ o ->
  Decimal.wf fill_quantity ->
  let o' := LimitOrder.apply_fill now fill_quantity fill_price o in
  LimitOrder.executions_ o' = LimitOrder.executions_ o
  /\ Decimal.sub (LimitOrder.filled_quantity_ o') (LimitOrder.total_executed o')
     = fill_quantity.
Proof.
  intros Hb Hq. simpl. split; [reflexivity |].
  unfold LimitOrder.total_executed in *. simpl. rewrite Hb.
  unfold Decimal.wf in Hq. rewrite in_int64_spec in Hq.
  apply Decimal_eq. simpl.
  replace (wrap64 (Decimal.value_ (LimitOrder.filled_quantity_ o)
                   + Decimal.value_ fill_quantity)
           - Decimal.value_ (LimitOrder.filled_quantity_ o))
    with (wrap64 (Decimal.value_ (LimitOrder.filled_quantity_ o)
                  + Decimal.value_ fill_quantity)
          + - Decimal.value_ (LimitOrder.filled_quantity_ o)) by lia.
  rewrite wrap64_add_l. rewrite <- (wrap64_small (Decimal.value_ fill_quantity)) at 2
    by assumption.
  f_equal. lia.
Qed.

Lemma apply_fill_leaves_ledger_witness :
  LimitOrder.total_executed Scenario.first_order
  = LimitOrder.filled_quantity_ Scenario.first_order
  /\ Decimal.wf (Decimal.lit "0.4")
  /\ let o' := LimitOrder.apply_fill 3 (Decimal.lit "0.4") (Decimal.lit "2")
                 Scenario.first_order in
     LimitOrder.executions_ o' = LimitOrder.executions_ Scenario.first_order
     /\ Decimal.sub (LimitOrder.filled_quantity_ o') (LimitOrder.total_executed o')
        = Decimal.lit "0.4".
Proof.
  assert (LimitOrder.total_executed Scenario.first_order
          = LimitOrder.filled_quantity_ Scenario.first_order) as H1
    by (vm_compute; reflexivity).
  assert (Decimal.wf (Decimal.lit "0.4")) as H2 by (vm_compute; reflexivity).
  split; [exact H1 |]. split; [exact H2 |].
  exact (apply_fill_leaves_ledger 3 (Decimal.lit "0.4") (Decimal.lit "2")
           Scenario.first_order H1 H2).
Defined.

(** X16: an order accepted by [LimitOrder::is_valid] passes
    [TradingCore::validate_order]. *)
Theorem is_valid_implies_validate_order (o : LimitOrder.t) :
  LimitOrder.is_valid o = true -> TradingCore.validate_order o = true.
Proof.
  unfold LimitOrder.is_valid, TradingCore.validate_order.
  destruct (String.eqb (LimitOrder.client_order_id_ o) EmptyString); [discriminate |].
  destruct (String.eqb (LimitOrder.trading_pair_ o) EmptyString); [discriminate |].
  destruct (Decimal.is_zero (LimitOrder.quantity_ o)
            || Decimal.is_negative (LimitOrder.quantity_ o)); [discriminate |].
  destruct (bool_decide (LimitOrder.type_ o = LIMIT)
            && (Decimal.is_zero (LimitOrder.price_ o)
                || Decimal.is_negative (LimitOrder.price_ o))); [discriminate |].
  reflexivity.
Qed.

Lemma is_valid_implies_validate_order_witness :
  LimitOrder.is_valid Scenario.first_order = true
  /\ TradingCore.validate_order Scenario.first_order = true.
Proof.
  assert (LimitOrder.is_valid Scenario.first_order = true) as H
    by (vm_compute; reflexivity).
  split; [exact H |]. exact (is_valid_implies_validate_order Scenario.first_order H).
Defined.

Lemma lt_spec (a b : LimitOrder.t) :
  LimitOrder.lt a b = true <->
  (Decimal.value_ (LimitOrder.price_ a) <> Decimal.value_ (LimitOrder.price_ b)
   /\ (if decide (LimitOrder.side_ a = BUY)
       then Decimal.value_ (LimitOrder.price_ b) < Decimal.value_ (LimitOrder.price_ a)
       else Decimal.value_ (LimitOrder.price_ a) < Decimal.value_ (LimitOrder.price_ b)))
  \/ (Decimal.value_ (LimitOrder.price_ a) = Decimal.value_ (LimitOrder.price_ b)
      /\ LimitOrder.creation_time_ a < LimitOrder.creation_time_ b).
Proof.
  unfold LimitOrder.lt, Decimal.neqb, Decimal.gtb, Decimal.ltb. rewrite Z.gtb_ltb.
  destruct (Z.eqb_spec (Decimal.value_ (LimitOrder.price_ a))
                       (Decimal.value_ (LimitOrder.price_ b))) as [E | E]; simpl.
  - rewrite Z.ltb_lt. split; [intros H; right; now split |].
    intros [[H _] | [_ H]]; [contradiction | assumption].
  - destruct (LimitOrder.side_ a); simpl; rewrite Z.ltb_lt;
      (split; [intros H; left; now split |]);
      intros [[_ H] | [H _]]; assumption || contradiction.
Qed.

(** X17: among orders of one side [operator<] is a strict order:
    transitive, asymmetric and irreflexive (the side consulted is the one
    of the left operand). *)
Theorem lt_strict_on_one_side (a b c : LimitOrder.t) :
  LimitOrder.side_ a = LimitOrder.side_ b ->
  LimitOrder.lt a b = true ->
  LimitOrder.lt b c = true ->
  LimitOrder.lt a c = true /\ LimitOrder.lt b a = false /\ LimitOrder.lt a a = false.
Proof.
  intros Hs Hab Hbc. apply lt_spec in Hab, Hbc. rewrite <- Hs in Hbc.
  split; [| split].
  - apply lt_spec. destruct (decide (LimitOrder.side_ a = BUY)); lia.
  - destruct (LimitOrder.lt b a) eqn:E; [| reflexivity].
    apply lt_spec in E. rewrite <- Hs in E.
    destruct (decide (LimitOrder.side_ a = BUY)); lia.
  - destruct (LimitOrder.lt a a) eqn:E; [| reflexivity].
    apply lt_spec in E. destruct (decide (LimitOrder.side_ a = BUY)); lia.
Qed.

Lemma lt_strict_on_one_side_witness :
  let a := LimitOrder.create 1 "A" Scenario.btc BUY (Decimal.lit "3") (Decimal.lit "1") in
  let b := LimitOrder.create 2 "B" Scenario.btc BUY (Decimal.lit "2") (Decimal.lit "1") in
  let c := LimitOrder.create 3 "C" Scenario.btc BUY (Decimal.lit "2") (Decimal.lit "1") in
  LimitOrder.lt a b = true /\ LimitOrder.lt b c = true
  /\ LimitOrder.lt a c = true /\ LimitOrder.lt b a = false /\ LimitOrder.lt a a = false.
Proof.
  intros a b c.
  assert (LimitOrder.lt a b = true) as H1 by (vm_compute; reflexivity).
  assert (LimitOrder.lt b c = true) as H2 by (vm_compute; reflexivity).
  split; [exact H1 |]. split; [exact H2 |].
  exact (lt_strict_on_one_side a b c eq_refl H1 H2).
Defined.

(** Across sides [operator<] is not an order: a BUY order priced above
    a SELL order is less than it, and the SELL order is less than the BUY
    order. *)
Theorem lt_both_ways_across_sides (a b : LimitOrder.t) :
  LimitOrder.side_ a = BUY ->
  LimitOrder.side_ b = SELL ->
  Decimal.value_ (LimitOrder.price_ b) < Decimal.value_ (LimitOrder.price_ a) ->
  LimitOrder.lt a b = true /\ LimitOrder.lt b a = true.
Proof.
  unfold LimitOrder.lt, Decimal.neqb, Decimal.gtb, Decimal.ltb.
  intros -> -> H. rewrite Z.gtb_ltb.
  destruct (Z.eqb_spec (Decimal.value_ (LimitOrder.price_ a))
                       (Decimal.value_ (LimitOrder.price_ b))); [lia |].
  destruct (Z.eqb_spec (Decimal.value_ (LimitOrder.price_ b))
                       (Decimal.value_ (LimitOrder.price_ a))); [lia |].
  simpl. split; apply Z.ltb_lt; assumption.
Qed.

Lemma lt_both_ways_across_sides_witness :
  let a := LimitOrder.create 1 "A" Scenario.btc BUY (Decimal.lit "3") (Decimal.lit "1") in
  let b := LimitOrder.create 2 "B" Scenario.btc SELL (Decimal.lit "2") (Decimal.lit "1") in
  Decimal.value_ (LimitOrder.price_ b) < Decimal.value_ (LimitOrder.price_ a)
  /\ LimitOrder.lt a b = true /\ LimitOrder.lt b a = true.
Proof.
  intros a b.
  assert (Decimal.value_ (LimitOrder.price_ b) < Decimal.value_ (LimitOrder.price_ a)) as H
    by (vm_compute; reflexivity).
  split; [exact H |]. exact (lt_both_ways_across_sides a b eq_refl eq_refl H).
Defined.


(* ===================================================================== *)
(** ** Order builder *)
(* ===================================================================== *)

(** X18: [build] throws exactly when the id or the pair is empty, the
    quantity is zero, or a limit order has a zero price.  The order it
    returns is always a LIMIT order, PENDING and unfilled, with the id,
    pair, side, price and quantity of the builder; the type and the
    position tag set on the builder are not carried over. *)
Theorem build_result (now : Timestamp) (b : OrderBuilder.t) :
  match OrderBuilder.build now b with
  | Some o =>
      OrderBuilder.client_order_id_ b <> EmptyString
      /\ OrderBuilder.trading_pair_ b <> EmptyString
      /\ OrderBuilder.quantity_ b <> Decimal.zero
      /\ ~ (OrderBuilder.type_ b = LIMIT /\ OrderBuilder.price_ b = Decimal.zero)
      /\ LimitOrder.type_ o = LIMIT
      /\ LimitOrder.status_ o = PENDING
      /\ LimitOrder.filled_quantity_ o = Decimal.zero
      /\ LimitOrder.position_ o = EmptyString
      /\ LimitOrder.client_order_id_ o = OrderBuilder.client_order_id_ b
      /\ LimitOrder.trading_pair_ o = OrderBuilder.trading_pair_ b
      /\ LimitOrder.side_ o = OrderBuilder.side_ b
      /\ LimitOrder.price_ o = OrderBuilder.price_ b
      /\ LimitOrder.quantity_ o = OrderBuilder.quantity_ b
  | None =>
      OrderBuilder.client_order_id_ b = EmptyString
      \/ OrderBuilder.trading_pair_ b = EmptyString
      \/ OrderBuilder.quantity_ b = Decimal.zero
      \/ (OrderBuilder.type_ b = LIMIT /\ OrderBuilder.price_ b = Decimal.zero)
  end.
Proof.
  unfold OrderBuilder.build.
  destruct (String.eqb_spec (OrderBuilder.client_order_id_ b) EmptyString) as [Hid | Hid];
    [now left |].
  destruct (String.eqb_spec (OrderBuilder.trading_pair_ b) EmptyString) as [Hp | Hp];
    [right; now left |].
  destruct (Decimal.is_zero (OrderBuilder.quantity_ b)) eqn:Hq.
  { apply is_zero_spec in Hq. right; right; now left. }
  assert (OrderBuilder.quantity_ b <> Decimal.zero) as Hq'
    by (intros E; apply is_zero_spec in E; congruence).
  destruct (decide (OrderBuilder.type_ b = LIMIT)) as [Ht | Ht].
  - rewrite bool_decide_eq_true_2 by assumption. simpl.
    destruct (Decimal.is_zero (OrderBuilder.price_ b)) eqn:Hpr.
    + apply is_zero_spec in Hpr. right; right; right. now split.
    + assert (~ (OrderBuilder.type_ b = LIMIT /\ OrderBuilder.price_ b = Decimal.zero)) as Hn
        by (intros [_ E]; apply is_zero_spec in E; congruence).
      destruct (create_is_unfilled now (OrderBuilder.client_order_id_ b)
                  (OrderBuilder.trading_pair_ b) (OrderBuilder.side_ b)
                  (OrderBuilder.price_ b) (OrderBuilder.quantity_ b))
        as (_ & ? & ? & ? & ? & ? & ? & ? & ? & ?).
      split_and!; assumption.
  - rewrite bool_decide_eq_false_2 by assumption. simpl.
    assert (~ (OrderBuilder.type_ b = LIMIT /\ OrderBuilder.price_ b = Decimal.zero)) as Hn
      by tauto.
    destruct (create_is_unfilled now (OrderBuilder.client_order_id_ b)
                (OrderBuilder.trading_pair_ b) (OrderBuilder.side_ b)
                (OrderBuilder.price_ b) (OrderBuilder.quantity_ b))
      as (_ & ? & ? & ? & ? & ? & ? & ? & ? & ?).
    split_and!; assumption.
Qed.

(** X19: a market order made with the builder and no price is never
    accepted: [build] returns a LIMIT order with price zero, which
    [submit_order] refuses at validation, leaving the core unchanged. *)
Theorem built_market_order_is_refused (now now' : Timestamp) (b : OrderBuilder.t)
    (o : LimitOrder.t) (st : TradingCore.t) :
  OrderBuilder.price_ b = Decimal.zero ->
  OrderBuilder.build now (OrderBuilder.market_order b) = Some o ->
  LimitOrder.type_ o = LIMIT /\ TradingCore.submit_order now' o st = (false, st).
Proof.
  intros Hp Hb. unfold OrderBuilder.build in Hb. simpl in Hb.
  destruct (String.eqb _ EmptyString); [discriminate |].
  destruct (String.eqb _ EmptyString); [discriminate |].
  destruct (Decimal.is_zero (OrderBuilder.quantity_ b)); [discriminate |].
  injection Hb as Ho.
  destruct (create_is_unfilled now (OrderBuilder.client_order_id_ b)
              (OrderBuilder.trading_pair_ b) (OrderBuilder.side_ b)
              (OrderBuilder.price_ b) (OrderBuilder.quantity_ b))
    as (_ & _ & _ & Ht & _ & _ & _ & Hpr & _).
  cbv zeta in Ht, Hpr. rewrite Ho in Ht, Hpr. split; [assumption |].
  assert (TradingCore.validate_order o = false) as Hv.
  { apply validate_order_false_iff. right; right; right.
    split; [assumption |]. rewrite Hpr, Hp. simpl. lia. }
  unfold TradingCore.submit_order. now rewrite Hv.
Qed.

Lemma built_market_order_is_refused_witness :
  let b := OrderBuilder.buy (Decimal.lit "0.1")
             (OrderBuilder.pair Scenario.btc
                (OrderBuilder.id "M1" (OrderBuilder.create SELL))) in
  let o := LimitOrder.create 1 "M1" Scenario.btc BUY Decimal.zero (Decimal.lit "0.1") in
  OrderBuilder.price_ b = Decimal.zero
  /\ OrderBuilder.build 1 (OrderBuilder.market_order b) = Some o
  /\ LimitOrder.type_ o = LIMIT
  /\ TradingCore.submit_order 2 o Scenario.open_core = (false, Scenario.open_core).
Proof.
  intros b o.
  assert (OrderBuilder.price_ b = Decimal.zero) as H1 by reflexivity.
  assert (OrderBuilder.build 1 (OrderBuilder.market_order b) = Some o) as H2
    by (vm_compute; reflexivity).
  split; [exact H1 |]. split; [exact H2 |].
  exact (built_market_order_is_refused 1 2 b o Scenario.open_core H1 H2).
Defined.

(* ===================================================================== *)
(** ** Trading core: order life cycle *)
(* ===================================================================== *)

(** Once [cancel_order(id)] has run, whatever it returned, a second
    [cancel_order(id)] returns [false] and changes nothing. *)
Theorem cancel_order_twice (now now' : Timestamp) (id : string) (st : TradingCore.t) :
  let st1 := snd (TradingCore.cancel_order now id st) in
  TradingCore.cancel_order now' id st1 = (false, st1).
Proof.
  unfold TradingCore.cancel_order.
  destruct (TradingCore.active_orders_ st !! id) as [o |] eqn:E; simpl.
  - destruct (TradingCore.on_order_cancelled (TradingCore.callbacks_ st)); simpl;
      now rewrite lookup_delete_eq.
  - now rewrite E.
Qed.

(** X20: an accepted order with a fresh id that is then cancelled leaves
    the active orders exactly as they were before the submission;
    [cancel_order] returns [true] and queues the cancelled copy when a
    listener is installed. *)
Theorem submit_then_cancel (now now' : Timestamp) (order : LimitOrder.t)
    (st : TradingCore.t) :
  TradingCore.validate_order order = true ->
  TradingCore.check_risk_limits st order = true ->
  TradingCore.active_orders_ st !! LimitOrder.client_order_id_ order = None ->
  let st1 := snd (TradingCore.submit_order now order st) in
  let result := TradingCore.cancel_order now' (LimitOrder.client_order_id_ order) st1 in
  fst result = true
  /\ TradingCore.active_orders_ (snd result) = TradingCore.active_orders_ st
  /\ TradingCore.event_queue_ (snd result)
     = TradingCore.event_queue_ st
       ++ (if TradingCore.on_order_cancelled (TradingCore.callbacks_ st)
           then [TradingCore.ev_order_cancelled
                   (LimitOrder.cancel now' (LimitOrder.set_status now OPEN order))]
           else []).
Proof.
  intros Hv Hr Hfresh. unfold TradingCore.submit_order. rewrite Hv, Hr. simpl.
  unfold TradingCore.cancel_order. simpl. rewrite lookup_insert_eq. simpl.
  destruct (TradingCore.on_order_cancelled (TradingCore.callbacks_ st)); simpl;
    rewrite ?app_nil_r; repeat split; now apply delete_insert_id.
Qed.

Lemma submit_then_cancel_witness :
  TradingCore.validate_order Scenario.first_order = true
  /\ TradingCore.check_risk_limits Scenario.open_core Scenario.first_order = true
  /\ TradingCore.active_orders_ Scenario.open_core
       !! LimitOrder.client_order_id_ Scenario.first_order = None
  /\ let st1 := snd (TradingCore.submit_order 2 Scenario.first_order Scenario.open_core) in
     let result :=
       TradingCore.cancel_order 3 (LimitOrder.client_order_id_ Scenario.first_order) st1 in
     fst result = true
     /\ TradingCore.active_orders_ (snd result) = TradingCore.active_orders_ Scenario.open_core
     /\ TradingCore.event_queue_ (snd result)
        = TradingCore.event_queue_ Scenario.open_core
          ++ (if TradingCore.on_order_cancelled (TradingCore.callbacks_ Scenario.open_core)
              then [TradingCore.ev_order_cancelled
                      (LimitOrder.cancel 3 (LimitOrder.set_status 2 OPEN Scenario.first_order))]
              else []).
Proof.
  assert (TradingCore.validate_order Scenario.first_order = true) as H1
    by (vm_compute; reflexivity).
  assert (TradingCore.check_risk_limits Scenario.open_core Scenario.first_order = true) as H2
    by (vm_compute; reflexivity).
  assert (TradingCore.active_orders_ Scenario.open_core
            !! LimitOrder.client_order_id_ Scenario.first_order = None) as H3
    by (vm_compute; reflexivity).
  split; [exact H1 |]. split; [exact H2 |]. split; [exact H3 |].
  exact (submit_then_cancel 2 3 Scenario.first_order Scenario.open_core H1 H2 H3).
Defined.

(** X21: [modify_order] reports whether the id is known and never touches
    the quantity, the filled quantity, the status or the id of any stored
    order, whatever [new_quantity] is. *)
Theorem modify_order_keeps_quantity (now : Timestamp) (id id' : string)
    (new_price new_quantity : Decimal) (st : TradingCore.t) :
  let result := TradingCore.modify_order now id new_price new_quantity st in
  let before := TradingCore.active_orders_ st !! id' in
  let after := TradingCore.active_orders_ (snd result) !! id' in
  fst result = bool_decide (is_Some (TradingCore.active_orders_ st !! id))
  /\ LimitOrder.quantity_ <$> after = LimitOrder.quantity_ <$> before
  /\ LimitOrder.filled_quantity_ <$> after = LimitOrder.filled_quantity_ <$> before
  /\ LimitOrder.status_ <$> after = LimitOrder.status_ <$> before
  /\ LimitOrder.client_order_id_ <$> after = LimitOrder.client_order_id_ <$> before.
Proof.
  unfold TradingCore.modify_order.
  destruct (TradingCore.active_orders_ st !! id) as [o |] eqn:E; simpl.
  - split; [reflexivity |].
    destruct (Decimal.is_zero new_price); simpl; [repeat split |].
    destruct (decide (id = id')) as [<- | Hne].
    + rewrite lookup_insert_eq, E. repeat split.
    + rewrite lookup_insert_ne by assumption. repeat split.
  - repeat split.
Qed.

(* ===================================================================== *)
(** ** Trading core: what every run preserves *)
(* ===================================================================== *)

Lemma process_events_only_queue (n : nat) : forall st,
  exists q, fst (TradingCore.process_events n st) = TradingCore.set_event_queue st q.
Proof.
  induction n as [| n IH]; intros st; simpl.
  - exists (TradingCore.event_queue_ st). now destruct st.
  - destruct (TradingCore.running_ st);
      [| exists (TradingCore.event_queue_ st); now destruct st].
    destruct (TradingCore.event_queue_ st) as [| ev q] eqn:E; [apply IH |].
    destruct (IH (TradingCore.set_event_queue st q)) as [q' Hq'].
    destruct (TradingCore.process_events n (TradingCore.set_event_queue st q)) as [st' c].
    simpl in *. exists q'. now rewrite Hq'.
Qed.

Lemma run_core_op_invariant (st : TradingCore.t) (op : core_op) :
  core_invariant st -> core_invariant (run_core_op st op).
Proof.
  intros (Ho & Hp & Hb & Hpnl & Hh). unfold core_invariant.
  destruct op as [now order | now id | now id p q | now trade | now cur delta
                 | | | limits | callbacks | json | turns]; simpl.
  - (* submit_order *)
    unfold TradingCore.submit_order.
    destruct (TradingCore.validate_order order); simpl; [| now split_and!].
    destruct (TradingCore.check_risk_limits st order); simpl.
    + split_and!; trivial. apply map_Forall_insert_2; [now split | assumption].
    + destruct (TradingCore.on_order_rejected (TradingCore.callbacks_ st));
        now split_and!.
  - (* cancel_order *)
    unfold TradingCore.cancel_order.
    destruct (TradingCore.active_orders_ st !! id); simpl; [| now split_and!].
    destruct (TradingCore.on_order_cancelled (TradingCore.callbacks_ st)); simpl;
      split_and!; trivial; now apply map_Forall_delete.
  - (* modify_order *)
    unfold TradingCore.modify_order.
    destruct (TradingCore.active_orders_ st !! id) as [o |] eqn:E; simpl;
      [| now split_and!].
    destruct (Decimal.is_zero p); simpl; [now split_and! |].
    split_and!; trivial. apply map_Forall_insert_2; [| assumption].
    destruct (Ho id o E) as [H1 H2]. now split.
  - (* update_position *)
    assert (TradingCore.unrealized_pnl
              (TradingCore.get_position (TradingCore.trade_symbol trade) st)
            = Decimal.zero) as Hu.
    { unfold TradingCore.get_position.
      destruct (TradingCore.positions_ st !! TradingCore.trade_symbol trade) as [p |] eqn:E;
        [| reflexivity].
      now destruct (Hp _ p E). }
    unfold TradingCore.update_position.
    destruct (TradingCore.trade_side trade); simpl;
      split_and!; trivial;
      try (apply map_Forall_insert_2; [now split | assumption]).
    now rewrite Hpnl.
  - (* update_balance *)
    unfold TradingCore.update_balance. simpl. split_and!; trivial.
    apply map_Forall_insert_2; [| assumption].
    destruct (TradingCore.balances_ st !! cur) as [b |] eqn:E.
    + destruct (Hb cur b E) as (H1 & H2 & H3). split_and!; simpl; congruence.
    + now split_and!.
  - (* reset *)
    split_and!; trivial; apply map_Forall_empty.
  - (* initialize *)
    now split_and!.
  - now split_and!.
  - now split_and!.
  - now split_and!.
  - (* process_events *)
    destruct (process_events_only_queue turns st) as [q ->]. now split_and!.
Qed.

Lemma reachable_invariant (ops : list core_op) :
  core_invariant (run_core_ops ops TradingCore.create).
Proof.
  unfold run_core_ops.
  assert (core_invariant TradingCore.create) as H0
    by (unfold core_invariant; split_and!; trivial; apply map_Forall_empty).
  revert H0. generalize TradingCore.create.
  induction ops as [| op ops IH]; intros st H0; simpl; [assumption |].
  apply IH. now apply run_core_op_invariant.
Qed.

Lemma insert_by_key_Forall {V : Type} (P : string * V -> Prop) kv l :
  P kv -> Forall P l -> Forall P (TradingCore.insert_by_key kv l).
Proof.
  intros Hkv. induction 1 as [| x xs Hx Hxs IH]; simpl; [now repeat constructor |].
  destruct (String.ltb (fst kv) (fst x)); now repeat constructor.
Qed.

Lemma items_in_key_order_Forall {V : Type} (P : string -> V -> Prop) (m : gmap string V) :
  map_Forall P m -> Forall (uncurry P) (TradingCore.items_in_key_order m).
Proof.
  intros H. apply map_Forall_to_list in H. unfold TradingCore.items_in_key_order.
  induction H as [| x xs Hx Hxs IH]; simpl; [constructor |].
  now apply insert_by_key_Forall.
Qed.

(** X22: in every state reached from a new core, each active order is
    stored under its own client_order_id and is OPEN; so
    [get_active_orders] returns OPEN orders only. *)
Theorem active_orders_are_open (ops : list core_op) :
  let st := run_core_ops ops TradingCore.create in
  map_Forall order_stored_open (TradingCore.active_orders_ st)
  /\ Forall (fun o => LimitOrder.status_ o = OPEN /\ LimitOrder.is_active o = true)
            (TradingCore.get_active_orders st).
Proof.
  intros st. destruct (reachable_invariant ops) as (Ho & _). fold st in Ho.
  split; [assumption |]. unfold TradingCore.get_active_orders.
  apply Forall_map. eapply Forall_impl; [exact (items_in_key_order_Forall _ _ Ho) |].
  intros [id o] [_ H]. simpl in *. split; [assumption |].
  unfold LimitOrder.is_active. rewrite H. reflexivity.
Qed.

(** X23: in every state reached from a new core, [total_pnl] equals
    [daily_pnl] (nothing resets the daily figure alone), no trade was
    ever recorded in the trade history, and [get_unrealized_pnl] is zero
    (no operation computes an unrealized P&L). *)
Theorem pnl_figures_coincide (ops : list core_op) (limit : nat) :
  let st := run_core_ops ops TradingCore.create in
  TradingCore.total_pnl_ st = TradingCore.daily_pnl_ st
  /\ TradingCore.get_trade_history limit st = []
  /\ TradingCore.get_unrealized_pnl st = Decimal.zero.
Proof.
  intros st. destruct (reachable_invariant ops) as (_ & Hp & _ & Hpnl & Hh).
  fold st in Hp, Hpnl, Hh. split; [assumption |]. split.
  - unfold TradingCore.get_trade_history. rewrite Hh.
    destruct ((limit =? 0)%nat || (length (@nil TradingCore.Trade) <=? limit)%nat);
      [reflexivity | apply firstn_nil].
  - unfold TradingCore.get_unrealized_pnl.
    pose proof (items_in_key_order_Forall _ _ Hp) as HF.
    induction HF as [| [sym p] xs [_ Hx] Hxs IH]; simpl; [reflexivity |].
    simpl in Hx. rewrite Hx. exact IH.
Qed.

(** In every state reached from a new core, each balance is stored
    under its own currency, has [available] equal to [total] and nothing
    locked; each position is stored under its own symbol. *)
Theorem balances_are_unlocked (ops : list core_op) (cur symbol : string) :
  let st := run_core_ops ops TradingCore.create in
  TradingCore.available (TradingCore.get_balance cur st)
  = TradingCore.total (TradingCore.get_balance cur st)
  /\ TradingCore.locked (TradingCore.get_balance cur st) = Decimal.zero
  /\ map_Forall balance_unlocked (TradingCore.balances_ st)
  /\ map_Forall (fun s p => TradingCore.pos_symbol p = s) (TradingCore.positions_ st).
Proof.
  intros st. destruct (reachable_invariant ops) as (_ & Hp & Hb & _).
  fold st in Hp, Hb. unfold TradingCore.get_balance.
  destruct (TradingCore.balances_ st !! cur) as [b |] eqn:E.
  - destruct (Hb cur b E) as (_ & H2 & H3). split_and!; trivial.
    intros s p Hs. now destruct (Hp s p Hs).
  - split_and!; trivial. intros s p Hs. now destruct (Hp s p Hs).
Qed.


(* ===================================================================== *)
(** ** Trading core: queries, event thread and position limit *)
(* ===================================================================== *)

(** X24: [get_portfolio_value] does not depend on its [base_currency]
    argument: every balance is added at par. *)
Theorem portfolio_value_ignores_base (base1 base2 : string) (st : TradingCore.t) :
  TradingCore.get_portfolio_value base1 st = TradingCore.get_portfolio_value base2 st.
Proof.
  unfold TradingCore.get_portfolio_value. f_equal.
  generalize Decimal.zero.
  induction (TradingCore.items_in_key_order (TradingCore.balances_ st)) as [| [cur b] l IH];
    intros acc; simpl; [reflexivity |].
  destruct (String.eqb cur base1), (String.eqb cur base2); apply IH.
Qed.

(** [get_trade_history(symbol, limit)] returns the trades of the
    symbol in recorded order, all of them for [limit = 0] and the first
    [limit] of them otherwise. *)
Theorem trade_history_for_symbol (symbol : string) (limit : nat) (st : TradingCore.t) :
  let matching :=
    List.filter (fun t => String.eqb (TradingCore.trade_symbol t) symbol)
                (TradingCore.trade_history_ st) in
  TradingCore.get_trade_history_for symbol limit st
  = if (limit =? 0)%nat then matching else firstn limit matching.
Proof.
  unfold TradingCore.get_trade_history_for. cbv zeta.
  generalize (TradingCore.trade_history_ st). intros l.
  destruct limit as [| k]; simpl.
  - assert (forall n, TradingCore.trade_history_loop symbol 0 n l
                      = List.filter (fun t => String.eqb (TradingCore.trade_symbol t) symbol) l)
      as H; [| apply H].
    induction l as [| t ts IH]; intros n; simpl; [reflexivity |].
    destruct (String.eqb (TradingCore.trade_symbol t) symbol); [now rewrite IH | apply IH].
  - assert (forall n, (n <= k)%nat ->
              TradingCore.trade_history_loop symbol (S k) n l
              = firstn (S k - n)
                  (List.filter (fun t => String.eqb (TradingCore.trade_symbol t) symbol) l))
      as H.
    { induction l as [| t ts IH]; intros n Hn.
      - symmetry. apply firstn_nil.
      - cbn [TradingCore.trade_history_loop List.filter].
        destruct (String.eqb (TradingCore.trade_symbol t) symbol); [| now apply IH].
        replace (0 <? S k)%nat with true by reflexivity. cbn [andb].
        destruct (Nat.leb_spec (S k) (S n)) as [Hle | Hgt].
        + replace (S k - n)%nat with 1%nat by lia. reflexivity.
        + rewrite IH by lia.
          replace (S k - n)%nat with (S (S k - S n)) by lia. reflexivity. }
    rewrite H by lia. now rewrite Nat.sub_0_r.
Qed.

(** X25: the event thread delivers the queued events in the order they
    were queued: once it has made at least as many turns as there are
    events, the queue is empty and the callbacks called are those of the
    events, first in first out; a stopped core delivers nothing. *)
Theorem process_events_drains (n : nat) (st : TradingCore.t) :
  (length (TradingCore.event_queue_ st) <= n)%nat ->
  if TradingCore.running_ st then
    TradingCore.event_queue_ (fst (TradingCore.process_events n st)) = []
    /\ snd (TradingCore.process_events n st)
       = concat (map (TradingCore.run_event st) (TradingCore.event_queue_ st))
  else TradingCore.process_events n st = (st, []).
Proof.
  intros Hn. destruct (TradingCore.running_ st) eqn:Hrun;
    [| destruct n; simpl; [reflexivity | now rewrite Hrun]].
  split; [| now apply process_events_calls].
  remember (TradingCore.event_queue_ st) as q eqn:Hq.
  revert n st Hn Hrun Hq. induction q as [| ev q IH]; intros n st Hn Hrun Hq.
  - clear Hn. induction n as [| n IHn]; simpl; [now symmetry |].
    now rewrite Hrun, <- Hq.
  - destruct n as [| n]; [simpl in Hn; lia |].
    simpl. rewrite Hrun, <- Hq.
    specialize (IH n (TradingCore.set_event_queue st q) ltac:(simpl in Hn; lia) Hrun eq_refl).
    destruct (TradingCore.process_events n (TradingCore.set_event_queue st q)) as [st' calls'].
    exact IH.
Qed.

Lemma process_events_drains_witness :
  let st := snd (TradingCore.submit_order 2 Scenario.big_order Scenario.limited_core) in
  (length (TradingCore.event_queue_ st) <= 4)%nat
  /\ if TradingCore.running_ st then
       TradingCore.event_queue_ (fst (TradingCore.process_events 4 st)) = []
       /\ snd (TradingCore.process_events 4 st)
          = concat (map (TradingCore.run_event st) (TradingCore.event_queue_ st))
     else TradingCore.process_events 4 st = (st, []).
Proof.
  intros st.
  assert (length (TradingCore.event_queue_ st) <= 4)%nat as H by (vm_compute; lia).
  split; [exact H |]. exact (process_events_drains 4 st H).
Defined.

(** X26: with position limits enabled, an order that would bring the
    position of its pair beyond [max_position_size] in magnitude is
    refused by [submit_order], and no order is stored. *)
Theorem position_limit_refuses (now : Timestamp) (order : LimitOrder.t) (st : TradingCore.t) :
  let current :=
    Decimal.value_ (TradingCore.pos_quantity
                      (TradingCore.get_position (LimitOrder.trading_pair_ order) st)) in
  let q := Decimal.value_ (LimitOrder.quantity_ order) in
  let new := if LimitOrder.is_buy order then current + q else current - q in
  TradingCore.enable_position_limits (TradingCore.risk_limits_ st) = true ->
  INT64_MIN < new -> new <= INT64_MAX ->
  Decimal.value_ (TradingCore.max_position_size (TradingCore.risk_limits_ st)) < Z.abs new ->
  fst (TradingCore.submit_order now order st) = false
  /\ TradingCore.active_orders_ (snd (TradingCore.submit_order now order st))
     = TradingCore.active_orders_ st.
Proof.
  intros current q new Hen Hlo Hhi Hmax.
  assert (TradingCore.position_size_check st order = false) as Hcheck.
  { unfold TradingCore.position_size_check. rewrite Hen.
    assert (match TradingCore.positions_ st !! LimitOrder.trading_pair_ order with
            | Some p => TradingCore.pos_quantity p
            | None => Decimal.zero
            end
            = TradingCore.pos_quantity
                (TradingCore.get_position (LimitOrder.trading_pair_ order) st)) as ->
      by (unfold TradingCore.get_position;
          now destruct (TradingCore.positions_ st !! LimitOrder.trading_pair_ order)).
    apply negb_false_iff. unfold Decimal.gtb. rewrite Z.gtb_ltb. apply Z.ltb_lt.
    assert (Decimal.value_
              (if LimitOrder.is_buy order
               then Decimal.add
                      (TradingCore.pos_quantity
                         (TradingCore.get_position (LimitOrder.trading_pair_ order) st))
                      (LimitOrder.quantity_ order)
               else Decimal.sub
                      (TradingCore.pos_quantity
                         (TradingCore.get_position (LimitOrder.trading_pair_ order) st))
                      (LimitOrder.quantity_ order)) = new) as Hnew.
    { unfold new, current, q. destruct (LimitOrder.is_buy order); simpl;
        apply wrap64_small; unfold new, current, q in Hlo, Hhi;
        destruct (LimitOrder.is_buy order); try discriminate; lia. }
    unfold Decimal.abs. rewrite Hnew. simpl.
    destruct (Z.ltb_spec new 0); [rewrite wrap64_small by int64_lia |]; lia. }
  unfold TradingCore.submit_order.
  destruct (TradingCore.validate_order order); simpl; [| now split].
  unfold TradingCore.check_risk_limits. rewrite Hcheck.
  destruct (TradingCore.order_size_check st order); simpl;
    destruct (TradingCore.on_order_rejected (TradingCore.callbacks_ st)); now split.
Qed.

Lemma position_limit_refuses_witness :
  let order := LimitOrder.create 1 "P1" Scenario.btc SELL (Decimal.lit "2") (Decimal.lit "0.9") in
  let st := TradingCore.set_risk_limits
              (TradingCore.mkRiskLimits (Decimal.lit "0.5") (Decimal.lit "1.0")
                 Decimal.zero Decimal.zero 100 true true false)
              TradingCore.create in
  Decimal.value_ (TradingCore.max_position_size (TradingCore.risk_limits_ st))
  < Z.abs (0 - Decimal.value_ (LimitOrder.quantity_ order))
  /\ fst (TradingCore.submit_order 2 order st) = false
  /\ TradingCore.active_orders_ (snd (TradingCore.submit_order 2 order st))
     = TradingCore.active_orders_ st.
Proof.
  intros order st.
  assert (Decimal.value_ (TradingCore.max_position_size (TradingCore.risk_limits_ st))
          < Z.abs (0 - Decimal.value_ (LimitOrder.quantity_ order))) as H
    by (vm_compute; reflexivity).
  split; [exact H |].
  apply (position_limit_refuses 2 order st);
    [reflexivity | vm_compute; reflexivity | vm_compute; discriminate | exact H].
Defined.


(* ===================================================================== *)
(** ** Order book manager *)
(* ===================================================================== *)

Lemma has_order_book_spec (symbol : string) (m : OrderBookManager.t) :
  OrderBookManager.has_order_book symbol m = true <-> is_Some (m !! symbol).
Proof. unfold OrderBookManager.has_order_book. apply bool_decide_eq_true. Qed.

Lemma insert_by_key_perm {V : Type} (kv : string * V) (l : list (string * V)) :
  TradingCore.insert_by_key kv l ≡ₚ kv :: l.
Proof.
  induction l as [| x xs IH]; simpl; [reflexivity |].
  destruct (String.ltb (fst kv) (fst x)); [reflexivity |].
  rewrite IH. apply Permutation_swap.
Qed.

Lemma items_in_key_order_perm {V : Type} (m : gmap string V) :
  TradingCore.items_in_key_order m ≡ₚ map_to_list m.
Proof.
  unfold TradingCore.items_in_key_order.
  induction (map_to_list m) as [| kv l IH]; simpl; [reflexivity |].
  now rewrite insert_by_key_perm, IH.
Qed.

(** X27: [get_order_book] gets or creates: afterwards the symbol has a
    book, asking again (at any later time) returns the same book and
    changes nothing, the books of other symbols are untouched, and a
    manager that already had the book is left as it was. *)
Theorem get_order_book_gets_or_creates (now later : Timestamp) (symbol : string)
    (m : OrderBookManager.t) :
  let book := fst (OrderBookManager.get_order_book now symbol m) in
  let m1 := snd (OrderBookManager.get_order_book now symbol m) in
  OrderBookManager.has_order_book symbol m1 = true
  /\ OrderBookManager.get_order_book later symbol m1 = (book, m1)
  /\ (forall other, other <> symbol -> m1 !! other = m !! other)
  /\ (if OrderBookManager.has_order_book symbol m then m1 = m
      else book = OrderBook.create now symbol).
Proof.
  cbv zeta.
  destruct (OrderBookManager.get_order_book now symbol m) as [book m1] eqn:Hg.
  cbn [fst snd]. unfold OrderBookManager.get_order_book in Hg.
  destruct (m !! symbol) as [b |] eqn:Hm; injection Hg as <- <-.
  - split_and!.
    + apply has_order_book_spec. now rewrite Hm.
    + unfold OrderBookManager.get_order_book. now rewrite Hm.
    + reflexivity.
    + replace (OrderBookManager.has_order_book symbol m) with true; [reflexivity |].
      symmetry. apply has_order_book_spec. now rewrite Hm.
  - split_and!.
    + apply has_order_book_spec. now rewrite lookup_insert_eq.
    + unfold OrderBookManager.get_order_book. now rewrite lookup_insert_eq.
    + intros other Ho. now apply lookup_insert_ne.
    + replace (OrderBookManager.has_order_book symbol m) with false; [reflexivity |].
      symmetry. apply bool_decide_eq_false. rewrite Hm. now intros [x Hx].
Qed.

(** [remove_order_book] drops the book of the symbol and no other;
    asking for the symbol again gives a new, empty book, so what the
    removed book held is gone. *)
Theorem remove_order_book_forgets (now : Timestamp) (symbol : string)
    (m : OrderBookManager.t) :
  let m1 := OrderBookManager.remove_order_book symbol m in
  OrderBookManager.has_order_book symbol m1 = false
  /\ (forall other, other <> symbol ->
        OrderBookManager.has_order_book other m1 = OrderBookManager.has_order_book other m)
  /\ fst (OrderBookManager.get_order_book now symbol m1) = OrderBook.create now symbol.
Proof.
  cbv zeta. unfold OrderBookManager.remove_order_book. split_and!.
  - apply bool_decide_eq_false. rewrite lookup_delete_eq. now intros [x Hx].
  - intros other Ho. unfold OrderBookManager.has_order_book.
    now rewrite lookup_delete_ne.
  - unfold OrderBookManager.get_order_book. now rewrite lookup_delete_eq.
Qed.

(** [get_symbols] lists every symbol that has a book, each once, and
    nothing else; after [clear_all] it lists nothing. *)
Theorem get_symbols_lists_books (m : OrderBookManager.t) :
  NoDup (OrderBookManager.get_symbols m)
  /\ (forall symbol,
        symbol ∈ OrderBookManager.get_symbols m
        <-> OrderBookManager.has_order_book symbol m = true)
  /\ OrderBookManager.get_symbols (OrderBookManager.clear_all m) = [].
Proof.
  assert (OrderBookManager.get_symbols m ≡ₚ (map_to_list m).*1) as Hp
    by (unfold OrderBookManager.get_symbols; now rewrite items_in_key_order_perm).
  split_and!.
  - rewrite Hp. apply NoDup_fst_map_to_list.
  - intros symbol. rewrite Hp, has_order_book_spec, list_elem_of_fmap. split.
    + intros [[k b] [-> Hin]]. apply elem_of_map_to_list in Hin. now exists b.
    + intros [b Hb]. exists (symbol, b). split; [reflexivity |].
      now apply elem_of_map_to_list.
  - unfold OrderBookManager.get_symbols, OrderBookManager.clear_all,
      TradingCore.items_in_key_order.
    now rewrite map_to_list_empty.
Qed.

(* ===================================================================== *)
(** ** Clock *)
(* ===================================================================== *)

Lemma process_scheduled_calls (t : Timestamp) (events : list Clock.ScheduledEvent) :
  snd (Clock.process_scheduled t events)
  = map Clock.callback (List.filter (due t) events).
Proof.
  induction events as [| e es IH]; [reflexivity |].
  cbn [Clock.process_scheduled List.filter]. unfold due at 1.
  destruct (Clock.process_scheduled t es) as [kept calls]. cbn [snd] in IH.
  destruct (t >=? Clock.scheduled_time e); [| exact IH].
  destruct (Clock.recurring e); cbn [snd map]; now rewrite IH.
Qed.

(** X28: one pass of the timer loop at the reading [t] calls the callbacks
    of the events due at [t], once each and in the order they were
    scheduled; it drops the one-time events that were due and keeps the
    others, and no recurring event ever leaves the list. *)
Theorem timer_pass_calls_due_events (t : Timestamp) (events : list Clock.ScheduledEvent) :
  let kept := fst (Clock.process_scheduled t events) in
  snd (Clock.process_scheduled t events) = map Clock.callback (List.filter (due t) events)
  /\ List.filter (fun e => negb (Clock.recurring e)) kept
     = List.filter (fun e => negb (Clock.recurring e) && negb (due t e)) events
  /\ map Clock.callback (List.filter Clock.recurring kept)
     = map Clock.callback (List.filter Clock.recurring events).
Proof.
  cbv zeta. split; [apply process_scheduled_calls |].
  induction events as [| e es [IH1 IH2]]; [now split |].
  cbn [Clock.process_scheduled List.filter]. unfold due at 1.
  destruct (Clock.process_scheduled t es) as [kept calls]. cbn [fst] in IH1, IH2.
  destruct (t >=? Clock.scheduled_time e);
    destruct (Clock.recurring e) eqn:Hr; cbn [fst List.filter negb andb Clock.recurring];
    rewrite ?Hr; cbn [negb andb map Clock.callback]; rewrite ?IH1, ?IH2; now split.
Qed.

(** X29: when every recurring event has a positive interval that fits
    before the end of the 64-bit range, nothing is due any more right
    after a pass: a second pass at the same reading calls nothing and
    keeps the list. *)
Theorem second_pass_is_silent (t : Timestamp) (events : list Clock.ScheduledEvent) :
  INT64_MIN <= t ->
  Forall (fun e => Clock.recurring e = true ->
                   0 < Clock.interval e /\ t + Clock.interval e <= INT64_MAX) events ->
  let kept := fst (Clock.process_scheduled t events) in
  Clock.process_scheduled t kept = (kept, []).
Proof.
  intros Ht Hev. cbv zeta.
  induction Hev as [| e es He Hes IH]; [reflexivity |].
  cbn [Clock.process_scheduled].
  destruct (Clock.process_scheduled t es) as [kept calls]. cbn [fst] in IH.
  destruct (t >=? Clock.scheduled_time e) eqn:Hdue.
  - destruct (Clock.recurring e) eqn:Hr; cbn [fst]; [| exact IH].
    cbn [Clock.process_scheduled]. rewrite IH.
    cbn [Clock.scheduled_time Clock.recurring].
    destruct (He eq_refl) as [Hpos Hfit].
    rewrite wrap64_small by lia.
    replace (t >=? t + Clock.interval e) with false; [reflexivity |].
    symmetry. rewrite Z.geb_leb. apply Z.leb_gt. lia.
  - cbn [fst Clock.process_scheduled]. now rewrite IH, Hdue.
Qed.

Lemma second_pass_is_silent_witness :
  let events := [Clock.mkEvent 5 1%nat false 0; Clock.mkEvent 7 2%nat true 10;
                 Clock.mkEvent 30 3%nat false 0] in
  snd (Clock.process_scheduled 8 events) = [1%nat; 2%nat]
  /\ Clock.process_scheduled 8 (fst (Clock.process_scheduled 8 events))
     = (fst (Clock.process_scheduled 8 events), []).
Proof.
  intros events. split; [reflexivity |].
  apply (second_pass_is_silent 8 events); [vm_compute; discriminate |].
  repeat constructor; try discriminate; vm_compute; trivial; discriminate.
Defined.

(** [advance_time] composes: two advances are one advance by the sum
    (in 64-bit arithmetic), in every mode; in [REALTIME] mode both leave
    the clock as it is. *)
Theorem advance_time_composes (d1 d2 : Clock.Duration) (c : Clock.t) :
  Clock.advance_time d2 (Clock.advance_time d1 c) = Clock.advance_time (wrap64 (d1 + d2)) c
  /\ (Clock.mode_ c = Clock.REALTIME ->
      Clock.advance_time d1 c = c /\ forall time, Clock.set_time time c = c).
Proof.
  split.
  - unfold Clock.advance_time. destruct c as [mode st cur run evs th].
    destruct mode; cbv -[wrap64 Z.add]; try reflexivity;
      f_equal; now rewrite wrap64_add_l, wrap64_add_r, Z.add_assoc.
  - intros Hm. unfold Clock.advance_time, Clock.set_time. now rewrite Hm.
Qed.

Lemma advance_time_composes_witness :
  let c := Clock.create 100 Clock.REALTIME in
  Clock.advance_time 7 (Clock.advance_time 5 c) = Clock.advance_time (wrap64 (5 + 7)) c
  /\ Clock.advance_time 5 c = c /\ forall time, Clock.set_time time c = c.
Proof.
  intros c. split; [exact (proj1 (advance_time_composes 5 7 c)) |].
  exact (proj2 (advance_time_composes 5 7 c) eq_refl).
Defined.

Lemma run_clock_op_no_thread (mode : Clock.ClockMode) (c : Clock.t) (op : clock_op) :
  mode <> Clock.REALTIME ->
  Clock.mode_ c = mode -> Clock.timer_thread_ c = false ->
  Clock.mode_ (fst (run_clock_op c op)) = mode
  /\ Clock.timer_thread_ (fst (run_clock_op c op)) = false
  /\ snd (run_clock_op c op) = [].
Proof.
  intros Hmode Hm Ht. destruct c as [m st cur run evs th]. cbn in Hm, Ht. subst m th.
  destruct mode; [congruence | |];
    destruct op, run; cbv -[wrap64 Z.add app]; now split_and!.
Qed.

(** X30: a clock made in [BACKTEST] or [SIMULATION] mode never calls a
    scheduled callback, whatever is scheduled and however far its time is
    set or advanced: [start] spawns the timer thread in [REALTIME] only,
    and nothing else looks at the events. *)
Theorem controlled_clock_never_calls (real : Timestamp) (mode : Clock.ClockMode)
    (ops : list clock_op) :
  mode <> Clock.REALTIME ->
  snd (run_clock_ops ops (Clock.create real mode)) = [].
Proof.
  intros Hmode.
  assert (forall c, Clock.mode_ c = mode -> Clock.timer_thread_ c = false ->
                    snd (run_clock_ops ops c) = []) as H.
  { induction ops as [| op rest IH]; intros c Hm Ht; [reflexivity |].
    cbn [run_clock_ops].
    destruct (run_clock_op_no_thread mode c op Hmode Hm Ht) as (Hm1 & Ht1 & Hc1).
    destruct (run_clock_op c op) as [c1 calls1]. cbn [fst snd] in *. subst calls1.
    specialize (IH c1 Hm1 Ht1).
    destruct (run_clock_ops rest c1) as [c2 calls2]. cbn [snd] in *. now subst. }
  now apply H.
Qed.

Lemma controlled_clock_never_calls_witness :
  let ops := [clk_start; clk_schedule_once 0 5 1%nat; clk_schedule_recurring 0 2 2%nat;
              clk_advance_time 50; clk_timer_turn 1000] in
  snd (run_clock_ops ops (Clock.create 0 Clock.REALTIME)) = [1%nat; 2%nat]
  /\ snd (run_clock_ops ops (Clock.create 0 Clock.BACKTEST)) = [].
Proof.
  intros ops. split; [reflexivity |].
  apply (controlled_clock_never_calls 0 Clock.BACKTEST ops). discriminate.
Defined.
